(** * Inventory analytics engine: shallow embedding and checked properties

    The analyzers under [tools/] are Python functions that query a relational
    store through SQLAlchemy and post-process the rows.  They are embedded
    here as functions of an explicit database value and an explicit clock
    reading.

    Conventions of the embedding:
    - [Decimal] columns are exact rationals ([Q]), and so are the values of
      Python [float]s; results are compared with [==].  The modules of the
      analyzers compute on them in exact arithmetic.  Where a statement
      depends on the binary rounding of the float operations, the loop is
      given a second time with the rounding written out (the modules named
      [...Float]); [Binary64.fl] is the rounding of CPython's floats.
    - an aggregate of a query ([func.sum], [func.avg]) is the exact value
      over the stored decimals.  A store may return it rounded to the scale
      of the column; the statements on the loops in floating point hold for
      whatever rows the query returned.
    - [Date] values are proleptic ordinals ([date.toordinal()]), [DateTime]
      values are microseconds counted from the midnight that starts ordinal 0.
    - [datetime.now()] is read once per run: every call inside one run of an
      analyzer sees the same instant [now].
    - a table is the list of its rows in storage order; a query without
      [ORDER BY] returns rows in that order, [ORDER BY] is a stable sort.
    - a nullable Boolean column compared with [== True] is a [bool]
      (NULL and False both fail the comparison).
    - free-text output fields (messages and recommendations) are left out of
      the result records. *)

From Stdlib Require Import ZArith QArith Qround Qabs Qpower Lqa Lia.
From Stdlib Require Import List String Bool Permutation Sorted.
Import ListNotations.

Open Scope Z_scope.
Open Scope Q_scope.

(** ** Numbers *)

Definition Qlt_bool (x y : Q) : bool := negb (Qle_bool y x).

(** Python's [round(x)]: nearest integer, ties to the even one. *)
Definition py_round (x : Q) : Z :=
  let f := Qfloor x in
  match Qcompare (x - inject_Z f) (1 # 2) with
  | Lt => f
  | Gt => (f + 1)%Z
  | Eq => if Z.even f then f else (f + 1)%Z
  end.

(** Python's [round(x, ndigits)] for [ndigits >= 0]. *)
Definition py_round_to (ndigits : nat) (x : Q) : Q :=
  let s := inject_Z (10 ^ Z.of_nat ndigits) in
  inject_Z (py_round (x * s)) / s.

(** Python's [int(x)] on a float: truncation toward zero. *)
Definition py_int (x : Q) : Z :=
  if Qle_bool 0 x then Qfloor x else Qceiling x.

Definition Qsum (l : list Q) : Q := fold_right Qplus 0 l.

(** ** Errors

    The exception of the analyzers that is modelled is the division of a
    float by a zero day count.  The date arithmetic raises [OverflowError]
    when a day count takes it out of the range of [datetime]; that is not
    a value of [result]: [timedelta_ok], below, says when it stays in
    range. *)

Inductive result (A : Type) : Type :=
| Ok (a : A)
| ZeroDivisionError.
Arguments Ok {A} a.
Arguments ZeroDivisionError {A}.

Definition bind {A B} (r : result A) (k : A -> result B) : result B :=
  match r with
  | Ok a => k a
  | ZeroDivisionError => ZeroDivisionError
  end.

Notation "x <- r ;; k" := (bind r (fun x => k))
  (at level 61, r at next level, right associativity).

(** [x / n] for a float [x] and an [int] day count [n]. *)
Definition div_days (x : Q) (n : Z) : result Q :=
  if (n =? 0)%Z then ZeroDivisionError else Ok (x / inject_Z n).

(** A [for] loop whose body either skips the element ([continue]), appends
    one row, or raises. *)
Fixpoint for_each {A B} (body : A -> result (option B)) (l : list A)
  : result (list B) :=
  match l with
  | [] => Ok []
  | a :: rest =>
      r <- body a ;;
      rs <- for_each body rest ;;
      Ok (match r with Some b => b :: rs | None => rs end)
  end.

(** ** Sorting

    [list.sort(key=...)] and SQL [ORDER BY] are modelled by a stable
    insertion sort; [before y x] says that [y] must come strictly before
    [x]. *)

Section Sort.
Context {A : Type} (before : A -> A -> bool).

Fixpoint insert_sorted (x : A) (l : list A) : list A :=
  match l with
  | [] => [x]
  | y :: ys => if before y x then y :: insert_sorted x ys else x :: y :: ys
  end.

Definition sort_by (l : list A) : list A :=
  fold_right insert_sorted [] l.

End Sort.

(** ** Time *)

Definition date := Z.
Definition datetime := Z.

Bind Scope Z_scope with date datetime.

Definition day_us : Z := (86400 * 1000000)%Z.

(** [dt.date()] *)
Definition date_of (t : datetime) : date := (t / day_us)%Z.
(** [dt - timedelta(days=n)] *)
Definition minus_days (t : datetime) (n : Z) : datetime := (t - n * day_us)%Z.
(** [(a - b).days] for two datetimes: timedelta normalises toward the floor. *)
Definition days_between (a b : datetime) : Z := ((a - b) / day_us)%Z.
(** [datetime.min.date()] *)
Definition date_min : date := 1%Z.

(** ** Tables ([database/schema.py]) *)

Module Product.
Record t := mk {
  id : Z;
  sku : string;
  name : string;
  category : option string;
  sale_price : Q;
  cost_price : Q;
  current_stock : Q;
  min_stock : Q;
  is_active : bool
}.
End Product.

Module SaleOrder.
Inductive status_t := PENDING | PAID | CANCELLED.
Record t := mk {
  id : Z;
  sale_date : date;
  total_amount : Q;
  status : status_t
}.
Definition is_paid (o : t) : bool :=
  match status o with PAID => true | _ => false end.
End SaleOrder.

Module SaleOrderItem.
Record t := mk {
  id : Z;
  sale_order_id : Z;
  product_id : Z;
  quantity : Q;
  unit_price : Q
}.
End SaleOrderItem.

Module PurchaseOrder.
Inductive status_t := PENDING | RECEIVED | CANCELLED.
Record t := mk {
  id : Z;
  order_number : string;
  supplier_id : Z;
  order_date : date;
  total_amount : Q;
  status : status_t
}.
Definition is_pending (o : t) : bool :=
  match status o with PENDING => true | _ => false end.
End PurchaseOrder.

Module PurchaseOrderItem.
Record t := mk {
  id : Z;
  purchase_order_id : Z;
  product_id : Z;
  quantity : Q;
  unit_price : Q
}.
End PurchaseOrderItem.

Module StockMovement.
Inductive type_t := PURCHASE | SALE | ADJUSTMENT | RETURN | LOSS.
Record t := mk {
  id : Z;
  product_id : Z;
  movement_type : type_t;
  quantity : Q;
  stock_before : Q;
  stock_after : Q;
  movement_date : datetime
}.
Definition is_loss (m : t) : bool :=
  match movement_type m with LOSS => true | _ => false end.
End StockMovement.

Record Database := mkDatabase {
  products : list Product.t;
  sale_orders : list SaleOrder.t;
  sale_order_items : list SaleOrderItem.t;
  purchase_orders : list PurchaseOrder.t;
  purchase_order_items : list PurchaseOrderItem.t;
  stock_movements : list StockMovement.t
}.

(** The primary key of the product table. *)
Definition product_key (db : Database) : Prop :=
  NoDup (map Product.id (products db)).

(** [row.category or 'N/A'] *)
Definition category_or_na (c : option string) : string :=
  match c with
  | Some s => if String.eqb s EmptyString then "N/A"%string else s
  | None => "N/A"%string
  end.

(** ** Shared queries *)

(** [SaleOrderItem JOIN SaleOrder ON sale_order_id = SaleOrder.id],
    restricted to one product. *)
Definition sales_of (db : Database) (pid : Z)
  : list (SaleOrderItem.t * SaleOrder.t) :=
  flat_map
    (fun it =>
       map (pair it)
         (filter (fun o => (SaleOrderItem.sale_order_id it =? SaleOrder.id o)%Z)
            (sale_orders db)))
    (filter (fun it => (SaleOrderItem.product_id it =? pid)%Z)
       (sale_order_items db)).

(** ... [WHERE sale_date >= cutoff] *)
Definition sales_since (db : Database) (pid : Z) (cutoff : date)
  : list (SaleOrderItem.t * SaleOrder.t) :=
  filter (fun io => (cutoff <=? SaleOrder.sale_date (snd io))%Z)
    (sales_of db pid).

(** ... [AND status = 'PAID'] *)
Definition paid_sales_since (db : Database) (pid : Z) (cutoff : date)
  : list (SaleOrderItem.t * SaleOrder.t) :=
  filter (fun io => SaleOrder.is_paid (snd io)) (sales_since db pid cutoff).

(** [func.sum(SaleOrderItem.quantity)] over joined rows. *)
Definition sum_quantity (rows : list (SaleOrderItem.t * SaleOrder.t)) : Q :=
  Qsum (map (fun io => SaleOrderItem.quantity (fst io)) rows).

(** [func.sum(SaleOrderItem.quantity * SaleOrderItem.unit_price)] *)
Definition sum_revenue (rows : list (SaleOrderItem.t * SaleOrder.t)) : Q :=
  Qsum (map (fun io => SaleOrderItem.quantity (fst io)
                       * SaleOrderItem.unit_price (fst io)) rows).

(** [func.count(func.distinct(SaleOrder.id))] *)
Definition count_distinct_orders (rows : list (SaleOrderItem.t * SaleOrder.t))
  : Z :=
  Z.of_nat (List.length (nodup Z.eq_dec (map (fun io => SaleOrder.id (snd io)) rows))).

(** [func.max(SaleOrder.sale_date)]; NULL on no row. *)
Definition max_sale_date (rows : list (SaleOrderItem.t * SaleOrder.t))
  : option date :=
  fold_right
    (fun io acc =>
       let d := SaleOrder.sale_date (snd io) in
       match acc with
       | None => Some d
       | Some d' => Some (Z.max d d')
       end)
    None rows.

(** [PurchaseOrder JOIN PurchaseOrderItem WHERE product_id = pid AND
    status = 'PENDING'] *)
Definition pending_orders_of (db : Database) (pid : Z)
  : list (PurchaseOrder.t * PurchaseOrderItem.t) :=
  flat_map
    (fun po =>
       map (pair po)
         (filter (fun it =>
                    (PurchaseOrder.id po =? PurchaseOrderItem.purchase_order_id it)%Z
                    && (PurchaseOrderItem.product_id it =? pid)%Z)
            (purchase_order_items db)))
    (filter PurchaseOrder.is_pending (purchase_orders db)).

(** The movements of one product. *)
Definition movements_of (db : Database) (pid : Z) : list StockMovement.t :=
  filter (fun m => (StockMovement.product_id m =? pid)%Z) (stock_movements db).

(** ** ABC classification ([tools/abc_analysis.py]) *)

Module Abc.

Inductive abc_class_t := A | B | C.

(** One row of [products_data]: a product joined with its PAID sales of the
    period, grouped by product. *)
Record sales_row := mk_row {
  row_id : Z;
  row_sku : string;
  row_name : string;
  row_category : option string;
  row_cost_price : Q;
  row_total_revenue : Q;
  row_total_quantity : Q
}.

(** One element of [products_list]. *)
Record entry := mk_entry {
  e_product_id : Z;
  e_sku : string;
  e_name : string;
  e_category : string;
  e_metric_value : Q;
  e_total_revenue : Q;
  e_total_quantity : Q
}.

(** One element of [classification]. *)
Record classified := mk_classified {
  product_id : Z;
  sku : string;
  name : string;
  category : string;
  metric_value : Q;
  total_revenue : Q;
  total_quantity : Q;
  percentage_of_total : Q;
  cumulative_percentage : Q;
  abc_class : abc_class_t
}.

Definition cutoff_date (now : datetime) (period : string) : date :=
  if String.eqb period "week" then date_of (minus_days now 7)
  else if String.eqb period "month" then date_of (minus_days now 30)
  else if String.eqb period "quarter" then date_of (minus_days now 90)
  else date_min.

Definition products_data (db : Database) (cutoff : date) : list sales_row :=
  flat_map
    (fun p =>
       match paid_sales_since db (Product.id p) cutoff with
       | [] => []
       | rows =>
           [mk_row (Product.id p) (Product.sku p) (Product.name p)
              (Product.category p) (Product.cost_price p)
              (sum_revenue rows) (sum_quantity rows)]
       end)
    (products db).

Definition metric_of (metric : string) (row : sales_row) : Q :=
  if String.eqb metric "revenue" then row_total_revenue row
  else if String.eqb metric "profit" then
    let total_cost := row_total_quantity row * row_cost_price row in
    row_total_revenue row - total_cost
  else row_total_quantity row.

Definition entry_of (metric : string) (row : sales_row) : entry :=
  mk_entry (row_id row) (row_sku row) (row_name row)
    (category_or_na (row_category row))
    (metric_of metric row) (row_total_revenue row) (row_total_quantity row).

(** [products_list.sort(key=lambda x: x['metric_value'], reverse=True)] *)
Definition sort_desc (l : list entry) : list entry :=
  sort_by (fun y x => Qlt_bool (e_metric_value x) (e_metric_value y)) l.

Definition percentage (total_metric : Q) (p : entry) : Q :=
  if Qlt_bool 0 total_metric then e_metric_value p / total_metric * 100 else 0.

Definition class_of (cumulative : Q) : abc_class_t :=
  if Qle_bool cumulative 80 then A
  else if Qle_bool cumulative 95 then B
  else C.

(** The classification loop; [cumulative] is the running value on entry. *)
Fixpoint classify (total_metric cumulative : Q) (l : list entry)
  : list classified :=
  match l with
  | [] => []
  | p :: rest =>
      let pct := percentage total_metric p in
      let cumulative := cumulative + pct in
      mk_classified (e_product_id p) (e_sku p) (e_name p) (e_category p)
        (py_round_to 2 (e_metric_value p))
        (py_round_to 2 (e_total_revenue p))
        (py_round_to 2 (e_total_quantity p))
        (py_round_to 2 pct)
        (py_round_to 2 cumulative)
        (class_of cumulative)
      :: classify total_metric cumulative rest
  end.

(** The part of [get_abc_analysis] after the query: the [classification]
    list of the result (the summary and the fixed recommendations are
    computed from it). *)
Definition classification_of (metric : string) (rows : list sales_row)
  : list classified :=
  let products_list := sort_desc (map (entry_of metric) rows) in
  let total_metric := Qsum (map e_metric_value products_list) in
  classify total_metric 0 products_list.

Definition get_abc_analysis (db : Database) (now : datetime)
    (period metric : string) : list classified :=
  match products_data db (cutoff_date now period) with
  | [] => []
  | rows => classification_of metric rows
  end.

End Abc.

(** ** Stock rupture ([tools/stock_analysis.py]) *)

Module Rupture.

(** One row of the grouped query. *)
Record query_row := mk_query_row {
  q_product : Product.t;
  q_sales_count : Z;
  q_last_sale_date : option date;
  q_total_quantity_sold : Q
}.

Record row := mk_row {
  product_id : Z;
  sku : string;
  name : string;
  category : string;
  current_stock : Q;
  recent_sales_count : Z;
  last_sale_date : option date;
  total_quantity_sold : Q;
  estimated_daily_demand : Q;
  days_out_of_stock : Z;
  lost_revenue_estimate : Q
}.

(** Products with [current_stock <= 0] joined with their PAID sales since
    the cutoff, grouped by product, [ORDER BY sum(quantity) DESC]. *)
Definition query (db : Database) (cutoff : date) : list query_row :=
  sort_by
    (fun y x => Qlt_bool (q_total_quantity_sold x) (q_total_quantity_sold y))
    (flat_map
       (fun p =>
          if Qle_bool (Product.current_stock p) 0 then
            match paid_sales_since db (Product.id p) cutoff with
            | [] => []
            | rows =>
                [mk_query_row p (count_distinct_orders rows)
                   (max_sale_date rows) (sum_quantity rows)]
            end
          else [])
       (products db)).

(** The movement of the product with [stock_after == 0],
    [ORDER BY movement_date DESC], [.first()]. *)
Definition last_outbound (db : Database) (pid : Z) : option StockMovement.t :=
  hd_error
    (sort_by
       (fun y x =>
          (StockMovement.movement_date x <? StockMovement.movement_date y)%Z)
       (filter (fun m => Qeq_bool (StockMovement.stock_after m) 0)
          (movements_of db pid))).

Definition days_out (db : Database) (now : datetime) (pid : Z) : Z :=
  match last_outbound db pid with
  | Some m => days_between now (StockMovement.movement_date m)
  | None => 0%Z
  end.

Definition row_of (db : Database) (now : datetime) (days_lookback : Z)
    (q : query_row) : result (option row) :=
  let p := q_product q in
  let total_sold := q_total_quantity_sold q in
  daily_demand <- div_days total_sold days_lookback ;;
  let days_out := days_out db now (Product.id p) in
  let lost_revenue :=
    inject_Z days_out * daily_demand * Product.sale_price p in
  Ok (Some
        (mk_row (Product.id p) (Product.sku p) (Product.name p)
           (category_or_na (Product.category p))
           (Product.current_stock p)
           (q_sales_count q) (q_last_sale_date q)
           total_sold
           (py_round_to 2 daily_demand)
           days_out
           (py_round_to 2 lost_revenue))).

Definition detect_stock_rupture (db : Database) (now : datetime)
    (days_lookback : Z) : result (list row) :=
  let cutoff_date := minus_days now days_lookback in
  for_each (row_of db now days_lookback) (query db (date_of cutoff_date)).

End Rupture.

(** ** Stockout risk ([tools/stockout_risk.py]) *)

Module Risk.

Inductive risk_level_t := CRITICAL | HIGH | MEDIUM | LOW.

Record pending_order := mk_pending_order {
  order_id : Z;
  order_number : string;
  order_date : date;
  quantity : Q;
  unit_price : Q
}.

Record pending_orders_info := mk_info {
  count : Z;
  total_quantity : Q;
  is_sufficient : bool;
  oldest_order_days : option Z;
  is_delayed : bool;
  orders : list pending_order
}.

Record row := mk_row {
  product_id : Z;
  sku : string;
  name : string;
  category : string;
  current_stock : Q;
  avg_daily_sales : Q;
  days_until_stockout : Q;
  forecasted_demand : Q;
  pending_orders : pending_orders_info;
  gap_quantity : Q;
  risk_level : risk_level_t;
  potential_lost_revenue : Q;
  unit_sale_price : Q;
  unit_cost : Q
}.

(** The oldest order date seen by the loop over the pending orders. *)
Definition oldest_order_date
    (q : list (PurchaseOrder.t * PurchaseOrderItem.t)) : option date :=
  fold_left
    (fun oldest po =>
       let d := PurchaseOrder.order_date (fst po) in
       match oldest with
       | None => Some d
       | Some o => if (d <? o)%Z then Some d else Some o
       end)
    q None.

Definition pending_total
    (q : list (PurchaseOrder.t * PurchaseOrderItem.t)) : Q :=
  fold_left (fun acc po => acc + PurchaseOrderItem.quantity (snd po)) q 0.

Definition pending_info (db : Database) (now : datetime) (pid : Z)
    (forecasted_demand current_stock : Q) : pending_orders_info :=
  match pending_orders_of db pid with
  | [] => mk_info 0 0 false None false []
  | q =>
      let total := pending_total q in
      let oldest_days :=
        option_map (fun d => (date_of now - d)%Z) (oldest_order_date q) in
      let delayed :=
        match oldest_days with Some n => (7 <? n)%Z | None => false end in
      let total_needed := forecasted_demand - current_stock in
      mk_info (Z.of_nat (List.length q)) total
        (Qle_bool total_needed total)
        oldest_days delayed
        (map (fun po =>
                mk_pending_order (PurchaseOrder.id (fst po))
                  (PurchaseOrder.order_number (fst po))
                  (PurchaseOrder.order_date (fst po))
                  (PurchaseOrderItem.quantity (snd po))
                  (PurchaseOrderItem.unit_price (snd po))) q)
  end.

Definition risk_level_of (days_until_stockout : Q)
    (info : pending_orders_info) : risk_level_t :=
  if Qle_bool days_until_stockout 3 && negb (is_sufficient info) then CRITICAL
  else if Qle_bool days_until_stockout 3
          || (is_delayed info && negb (is_sufficient info)) then HIGH
  else if negb (is_sufficient info) then MEDIUM
  else LOW.

Definition Qmax0 (x : Q) : Q := if Qlt_bool 0 x then x else 0.

(** The body of the loop over the active products with stock. *)
Definition row_of (db : Database) (now : datetime)
    (days_forecast days_history min_days_threshold : Z) (p : Product.t)
  : result (option row) :=
  let cutoff_date := minus_days now days_history in
  let total_sold :=
    sum_quantity (paid_sales_since db (Product.id p) (date_of cutoff_date)) in
  if Qeq_bool total_sold 0 then Ok None else
  avg_daily_sales <- div_days total_sold days_history ;;
  let current_stock := Product.current_stock p in
  if negb (Qlt_bool 0 avg_daily_sales) then Ok None else
  let days_until_stockout := current_stock / avg_daily_sales in
  if Qlt_bool (inject_Z min_days_threshold) days_until_stockout then Ok None
  else
  let forecasted_demand := avg_daily_sales * inject_Z days_forecast in
  let info :=
    pending_info db now (Product.id p) forecasted_demand current_stock in
  let total_available := current_stock + total_quantity info in
  let gap_quantity := Qmax0 (forecasted_demand - total_available) in
  let daily_revenue := avg_daily_sales * Product.sale_price p in
  let days_of_potential_loss :=
    Qmax0 (inject_Z days_forecast - days_until_stockout) in
  Ok (Some
        (mk_row (Product.id p) (Product.sku p) (Product.name p)
           (category_or_na (Product.category p))
           (py_round_to 2 current_stock)
           (py_round_to 2 avg_daily_sales)
           (py_round_to 1 days_until_stockout)
           (py_round_to 2 forecasted_demand)
           info
           (py_round_to 2 gap_quantity)
           (risk_level_of days_until_stockout info)
           (py_round_to 2 (daily_revenue * days_of_potential_loss))
           (Product.sale_price p)
           (Product.cost_price p))).

Definition risk_order (l : risk_level_t) : Z :=
  match l with CRITICAL => 0 | HIGH => 1 | MEDIUM => 2 | LOW => 3 end.

(** Tuple order on [(risk_order, days_until_stockout)]. *)
Definition before (y x : row) : bool :=
  (risk_order (risk_level y) <? risk_order (risk_level x))%Z
  || ((risk_order (risk_level y) =? risk_order (risk_level x))%Z
      && Qlt_bool (days_until_stockout y) (days_until_stockout x)).

Definition detect_imminent_stockout_risk (db : Database) (now : datetime)
    (days_forecast days_history min_days_threshold : Z)
  : result (list row) :=
  let products :=
    filter (fun p => Product.is_active p
                     && Qlt_bool 0 (Product.current_stock p))
      (products db) in
  at_risk_products <-
    for_each (row_of db now days_forecast days_history min_days_threshold)
      products ;;
  Ok (sort_by before at_risk_products).

(** The classification as the specification words it: rules tried in
    order, the first whose guard holds gives the level. *)
Definition spec_rules : list ((Q -> bool -> bool -> bool) * risk_level_t) :=
  [ (fun d delayed sufficient => Qle_bool d 3 && negb sufficient, CRITICAL);
    (fun d delayed sufficient =>
       Qle_bool d 3 || (delayed && negb sufficient), HIGH);
    (fun d delayed sufficient => negb sufficient, MEDIUM);
    (fun d delayed sufficient => true, LOW) ].

Fixpoint first_match (rules : list ((Q -> bool -> bool -> bool) * risk_level_t))
    (d : Q) (delayed sufficient : bool) : option risk_level_t :=
  match rules with
  | [] => None
  | (guard, level) :: rest =>
      if guard d delayed sufficient then Some level
      else first_match rest d delayed sufficient
  end.

End Risk.

(** ** Availability issues ([tools/availability_analysis.py]) *)

Module Availability.

Inductive severity_t := CRITICAL | HIGH | MEDIUM.
Inductive status_t := IN_STOCK | OUT_OF_STOCK.

Record row := mk_row {
  product_id : Z;
  sku : string;
  name : string;
  category : string;
  stockout_events : Z;
  total_days_out : Z;
  availability_rate : Q;
  lost_sales_count : Z;
  current_status : status_t;
  issue_severity : severity_t
}.

(** [query(Product.id).join(SaleOrderItem).join(SaleOrder)
    .filter(SaleOrder.sale_date >= cutoff).distinct()] *)
Definition products_with_sales (db : Database) (cutoff : date) : list Z :=
  nodup Z.eq_dec
    (flat_map
       (fun p => map (fun _ => Product.id p)
                   (sales_since db (Product.id p) cutoff))
       (products db)).

(** [query(Product).filter(Product.id == product_id).first()] *)
Definition product_by_id (db : Database) (pid : Z) : option Product.t :=
  find (fun p => (Product.id p =? pid)%Z) (products db).

Definition by_date (y x : StockMovement.t) : bool :=
  (StockMovement.movement_date y <? StockMovement.movement_date x)%Z.

Definition stockout_movements (db : Database) (pid : Z) (cutoff : datetime)
  : list StockMovement.t :=
  sort_by by_date
    (filter (fun m => Qeq_bool (StockMovement.stock_after m) 0
                      && (cutoff <=? StockMovement.movement_date m)%Z)
       (movements_of db pid)).

Definition next_stock_in (db : Database) (pid : Z) (stockout : StockMovement.t)
  : option StockMovement.t :=
  hd_error
    (sort_by by_date
       (filter (fun m =>
                  (StockMovement.movement_date stockout
                   <? StockMovement.movement_date m)%Z
                  && Qlt_bool 0 (StockMovement.stock_after m))
          (movements_of db pid))).

Definition days_out (db : Database) (now : datetime) (pid : Z)
    (stockout : StockMovement.t) : Z :=
  match next_stock_in db pid stockout with
  | Some m =>
      days_between (StockMovement.movement_date m)
                   (StockMovement.movement_date stockout)
  | None => days_between now (StockMovement.movement_date stockout)
  end.

Definition severity_of (availability_rate : Q) : severity_t :=
  if Qlt_bool availability_rate 80 then CRITICAL
  else if Qlt_bool availability_rate 90 then HIGH
  else MEDIUM.

(** The body of the loop over [product_ids]. *)
Definition row_of (db : Database) (now : datetime) (days_period : Z)
    (pid : Z) : option row :=
  let cutoff_date := minus_days now days_period in
  match product_by_id db pid with
  | None => None
  | Some product =>
      match stockout_movements db pid cutoff_date with
      | [] => None
      | stockouts =>
          let total_days_out :=
            fold_left (fun acc m => (acc + days_out db now pid m)%Z)
              stockouts 0%Z in
          let availability_rate :=
            if (0 <? days_period)%Z then
              inject_Z (days_period - total_days_out)
              / inject_Z days_period * 100
            else 0 in
          let total_sales :=
            sum_quantity (paid_sales_since db pid (date_of cutoff_date)) in
          let days_available := (days_period - total_days_out)%Z in
          let avg_daily_sales :=
            if (0 <? days_available)%Z
            then total_sales / inject_Z days_available else 0 in
          Some
            (mk_row (Product.id product) (Product.sku product)
               (Product.name product)
               (category_or_na (Product.category product))
               (Z.of_nat (List.length stockouts))
               total_days_out
               (py_round_to 1 availability_rate)
               (py_int (avg_daily_sales * inject_Z total_days_out))
               (if Qlt_bool 0 (Product.current_stock product)
                then IN_STOCK else OUT_OF_STOCK)
               (severity_of availability_rate))
      end
  end.

Definition severity_order (s : severity_t) : Z :=
  match s with CRITICAL => 0 | HIGH => 1 | MEDIUM => 2 end.

(** Tuple order on [(severity_order, -lost_sales_count)]. *)
Definition before (y x : row) : bool :=
  (severity_order (issue_severity y) <? severity_order (issue_severity x))%Z
  || ((severity_order (issue_severity y)
       =? severity_order (issue_severity x))%Z
      && (- lost_sales_count y <? - lost_sales_count x)%Z).

Definition detect_availability_issues (db : Database) (now : datetime)
    (days_period : Z) : list row :=
  let cutoff_date := minus_days now days_period in
  let product_ids := products_with_sales db (date_of cutoff_date) in
  sort_by before
    (flat_map
       (fun pid => match row_of db now days_period pid with
                   | Some r => [r]
                   | None => []
                   end)
       product_ids).

End Availability.

(** ** Purchase suggestions ([tools/purchase_suggestions.py]) *)

Module Purchase.

Inductive priority_t := HIGH | MEDIUM | LOW.

Record pending_orders_t := mk_pending {
  has_pending : bool;
  total_quantity : Q;
  order_count : Z;
  is_sufficient : bool
}.

Record suggestion := mk_suggestion {
  product_id : Z;
  sku : string;
  name : string;
  category : string;
  current_stock : Q;
  avg_daily_sales : Q;
  forecasted_demand : Q;
  stock_needed : Q;
  suggested_quantity : Z;
  unit_cost : Q;
  order_value : Q;
  priority : priority_t;
  last_sale_date : option date;
  days_until_stockout : option Z;
  pending_orders : pending_orders_t
}.

Definition safety_buffer : Q := 12 # 10.

(** "Round to reasonable quantity". *)
Definition round_quantity (suggested_quantity : Q) : Z :=
  if Qlt_bool suggested_quantity 10 then py_round suggested_quantity
  else if Qlt_bool suggested_quantity 100 then
    (py_round (suggested_quantity / 5) * 5)%Z
  else (py_round (suggested_quantity / 10) * 10)%Z.

(** The quantity suggested for a positive [stock_needed], with the
    "minimum order quantity" step. *)
Definition suggested_quantity_of (stock_needed : Q) : Z :=
  let suggested_quantity := round_quantity (stock_needed * safety_buffer) in
  if (suggested_quantity <? 1)%Z then 1%Z else suggested_quantity.

Definition priority_of (days_until_stockout : Z) (is_sufficient : bool)
  : priority_t :=
  if (days_until_stockout <=? 7)%Z && negb is_sufficient then HIGH
  else if (days_until_stockout <=? 14)%Z && negb is_sufficient then MEDIUM
  else if negb is_sufficient then LOW
  else LOW.

(** [stock_needed] of a product, as the loop computes it. *)
Definition stock_needed_of (db : Database) (now : datetime)
    (days_forecast days_history : Z) (p : Product.t) : result Q :=
  let cutoff_date := minus_days now days_history in
  let total_sold :=
    sum_quantity (paid_sales_since db (Product.id p) (date_of cutoff_date)) in
  avg_daily_sales <- div_days total_sold days_history ;;
  Ok (avg_daily_sales * inject_Z days_forecast - Product.current_stock p).

(** The body of the loop over the active products. *)
Definition suggestion_of (db : Database) (now : datetime)
    (days_forecast days_history : Z) (min_order_value : Q) (p : Product.t)
  : result (option suggestion) :=
  let cutoff_date := minus_days now days_history in
  let sales := paid_sales_since db (Product.id p) (date_of cutoff_date) in
  let total_sold := sum_quantity sales in
  let last_sale := max_sale_date sales in
  if Qeq_bool total_sold 0 then Ok None else
  avg_daily_sales <- div_days total_sold days_history ;;
  let forecasted_demand := avg_daily_sales * inject_Z days_forecast in
  let current_stock := Product.current_stock p in
  let stock_needed := forecasted_demand - current_stock in
  if Qle_bool stock_needed 0 then Ok None else
  let suggested_quantity := suggested_quantity_of stock_needed in
  let unit_cost := Product.cost_price p in
  let order_value := inject_Z suggested_quantity * unit_cost in
  if Qlt_bool order_value min_order_value then Ok None else
  let days_until_stockout :=
    if Qlt_bool 0 avg_daily_sales
    then py_int (current_stock / avg_daily_sales) else 999%Z in
  let pending := pending_orders_of db (Product.id p) in
  let pending_quantity :=
    Qsum (map (fun po => PurchaseOrderItem.quantity (snd po)) pending) in
  let pending_count := Z.of_nat (List.length pending) in
  let is_sufficient :=
    Qle_bool forecasted_demand (current_stock + pending_quantity) in
  Ok (Some
        (mk_suggestion (Product.id p) (Product.sku p) (Product.name p)
           (category_or_na (Product.category p))
           current_stock
           (py_round_to 2 avg_daily_sales)
           (py_round_to 2 forecasted_demand)
           (py_round_to 2 stock_needed)
           suggested_quantity
           unit_cost
           (py_round_to 2 order_value)
           (priority_of days_until_stockout is_sufficient)
           last_sale
           (if (days_until_stockout <? 999)%Z
            then Some days_until_stockout else None)
           (mk_pending (0 <? pending_count)%Z pending_quantity
              pending_count is_sufficient))).

Definition priority_order (p : priority_t) : Z :=
  match p with HIGH => 0 | MEDIUM => 1 | LOW => 2 end.

(** Tuple order on [(priority_order, -order_value)]. *)
Definition before (y x : suggestion) : bool :=
  (priority_order (priority y) <? priority_order (priority x))%Z
  || ((priority_order (priority y) =? priority_order (priority x))%Z
      && Qlt_bool (- order_value y) (- order_value x)).

Definition suggest_purchase_order (db : Database) (now : datetime)
    (days_forecast days_history : Z) (min_order_value : Q)
  : result (list suggestion) :=
  let products := filter Product.is_active (products db) in
  suggestions <-
    for_each (suggestion_of db now days_forecast days_history min_order_value)
      products ;;
  Ok (sort_by before suggestions).

(** The rounding as the specification words it: the nearest multiple of
    the tier's step. *)
Definition nearest_multiple (step : Z) (x : Q) : Z :=
  (step * py_round (x / inject_Z step))%Z.

Definition spec_tiered_rounding (raw_qty : Q) : Z :=
  if Qlt_bool raw_qty 10 then nearest_multiple 1 raw_qty
  else if Qlt_bool raw_qty 100 then nearest_multiple 5 raw_qty
  else nearest_multiple 10 raw_qty.

End Purchase.

(** ** Loss detection ([tools/loss_detection.py]) *)

Module Loss.

Inductive severity_t := CRITICAL | HIGH | MEDIUM.

Record row := mk_row {
  product_id : Z;
  sku : string;
  name : string;
  category : string;
  current_stock : Q;
  expected_stock : Q;
  discrepancy : Q;
  discrepancy_percentage : Q;
  estimated_loss_value : Q;
  last_movement_date : option datetime;
  loss_movements : Z;
  severity : severity_t
}.

(** The movements of a product, [ORDER BY movement_date]. *)
Definition movements (db : Database) (pid : Z) : list StockMovement.t :=
  sort_by
    (fun y x =>
       (StockMovement.movement_date y <? StockMovement.movement_date x)%Z)
    (movements_of db pid).

(** The loop over the movements: the running [expected_stock] and
    [loss_movements_count]. *)
Definition walk (ms : list StockMovement.t) : Q * Z :=
  fold_left
    (fun acc movement =>
       (fst acc + StockMovement.quantity movement,
        if StockMovement.is_loss movement then (snd acc + 1)%Z else snd acc))
    ms (0, 0%Z).

Definition expected_stock_of (db : Database) (pid : Z) : Q :=
  fst (walk (movements db pid)).

Definition discrepancy_pct (expected_stock actual_stock : Q) : Q :=
  let discrepancy := expected_stock - actual_stock in
  if negb (Qeq_bool expected_stock 0)
  then Qabs (discrepancy / expected_stock * 100)
  else 0.

Definition severity_of (discrepancy_pct : Q) : severity_t :=
  if Qlt_bool 20 discrepancy_pct then CRITICAL
  else if Qlt_bool 10 discrepancy_pct then HIGH
  else MEDIUM.

(** The body of the loop over the active products. *)
Definition row_of (db : Database) (tolerance_percentage : Q) (p : Product.t)
  : option row :=
  match movements db (Product.id p) with
  | [] => None
  | ms =>
      let (expected_stock, loss_movements_count) := walk ms in
      let actual_stock := Product.current_stock p in
      let discrepancy := expected_stock - actual_stock in
      let pct := discrepancy_pct expected_stock actual_stock in
      if Qle_bool pct tolerance_percentage then None
      else
        Some
          (mk_row (Product.id p) (Product.sku p) (Product.name p)
             (category_or_na (Product.category p))
             actual_stock expected_stock discrepancy
             (py_round_to 2 pct)
             (py_round_to 2 (Qabs (discrepancy * Product.cost_price p)))
             (option_map StockMovement.movement_date (hd_error (rev ms)))
             loss_movements_count
             (severity_of pct))
  end.

Definition severity_order (s : severity_t) : Z :=
  match s with CRITICAL => 0 | HIGH => 1 | MEDIUM => 2 end.

(** Tuple order on [(severity_order, -estimated_loss_value)]. *)
Definition before (y x : row) : bool :=
  (severity_order (severity y) <? severity_order (severity x))%Z
  || ((severity_order (severity y) =? severity_order (severity x))%Z
      && Qlt_bool (- estimated_loss_value y) (- estimated_loss_value x)).

Definition detect_stock_losses (db : Database) (tolerance_percentage : Q)
  : list row :=
  sort_by before
    (flat_map
       (fun p => match row_of db tolerance_percentage p with
                 | Some r => [r]
                 | None => []
                 end)
       (filter Product.is_active (products db))).

(** A product is reported when a row of the result carries its id. *)
Definition reported (db : Database) (tolerance_percentage : Q) (pid : Z)
  : Prop :=
  In pid (map product_id (detect_stock_losses db tolerance_percentage)).

End Loss.

(** ** Alert aggregation ([tools/alerts.py]) *)

Module Alerts.

Inductive alert_type :=
| IMMINENT_STOCKOUT | STOCK_RUPTURE | STOCK_LOSS
| SLOW_MOVING | LOW_STOCK_HIGH_DEMAND | RECORDED_LOSSES.

Inductive severity_t := CRITICAL | HIGH | MEDIUM.

Record alert := mk_alert {
  type : alert_type;
  severity : severity_t;
  product_id : option Z
}.

Inductive health_status_t := EXCELLENT | GOOD | FAIR | POOR.

Record dashboard := mk_dashboard {
  health_score : Z;
  health_status : health_status_t;
  critical_alerts : list alert;
  warnings : list alert
}.

(** The outputs of the detectors that [get_stock_alerts] calls.  The
    slow-moving analysis, the low-stock query and the explicit-loss query
    are given by the product ids they yield: only the number and the ids of
    their rows reach the alerts. *)
Record detector_outputs := mk_outputs {
  stockout_risks : list Risk.row;
  ruptures : list Rupture.row;
  urgent_slow : list Z;
  losses : list Loss.row;
  low_stock : list Z;
  explicit_losses : list Z
}.

Definition is_critical_or_high (r : Risk.row) : bool :=
  match Risk.risk_level r with
  | Risk.CRITICAL | Risk.HIGH => true
  | _ => false
  end.

Definition risk_alert (r : Risk.row) : alert :=
  mk_alert IMMINENT_STOCKOUT
    (match Risk.risk_level r with
     | Risk.CRITICAL => CRITICAL
     | Risk.HIGH => HIGH
     | _ => MEDIUM
     end)
    (Some (Risk.product_id r)).

Definition collect_critical_alerts (d : detector_outputs) : list alert :=
  map risk_alert (firstn 5 (filter is_critical_or_high (stockout_risks d)))
  ++ map (fun r => mk_alert STOCK_RUPTURE CRITICAL (Some (Rupture.product_id r)))
       (firstn 5 (ruptures d))
  ++ map (fun r => mk_alert STOCK_LOSS CRITICAL (Some (Loss.product_id r)))
       (firstn 3 (losses d)).

Definition collect_warnings (d : detector_outputs) : list alert :=
  map (fun i => mk_alert SLOW_MOVING HIGH (Some i)) (firstn 3 (urgent_slow d))
  ++ map (fun i => mk_alert LOW_STOCK_HIGH_DEMAND MEDIUM (Some i)) (low_stock d)
  ++ match explicit_losses d with
     | [] => []
     | _ => [mk_alert RECORDED_LOSSES MEDIUM None]
     end.

Definition score_of (critical_alerts warnings : list alert) : Z :=
  let health_score := 100%Z in
  let health_score :=
    (health_score - Z.of_nat (List.length critical_alerts) * 15)%Z in
  let health_score :=
    (health_score - Z.of_nat (List.length warnings) * 5)%Z in
  Z.max 0 health_score.

Definition status_of (health_score : Z) : health_status_t :=
  if (80 <=? health_score)%Z then EXCELLENT
  else if (60 <=? health_score)%Z then GOOD
  else if (40 <=? health_score)%Z then FAIR
  else POOR.

Definition get_stock_alerts (d : detector_outputs) : dashboard :=
  let critical_alerts := collect_critical_alerts d in
  let warnings := collect_warnings d in
  let health_score := score_of critical_alerts warnings in
  mk_dashboard health_score (status_of health_score) critical_alerts warnings.

(** The detectors embedded above, called with the parameters that
    [get_stock_alerts] fixes, next to the outputs of the other three. *)
Definition run_detectors (db : Database) (now : datetime)
    (urgent_slow low_stock explicit_losses : list Z)
  : result detector_outputs :=
  stockout_risks <- Risk.detect_imminent_stockout_risk db now 30 90 7 ;;
  ruptures <- Rupture.detect_stock_rupture db now 14 ;;
  Ok (mk_outputs stockout_risks ruptures urgent_slow
        (Loss.detect_stock_losses db 5) low_stock explicit_losses).

End Alerts.

(** ** Scenarios *)

Definition mk_product (i : Z) (price cost stock : Q) (active : bool)
  : Product.t :=
  Product.mk i "SKU" "product" None price cost stock 0 active.

Definition mk_sale (i : Z) (d : date) (s : SaleOrder.status_t) : SaleOrder.t :=
  SaleOrder.mk i d 0 s.

(** Noon of the day with ordinal 739000. *)
Definition noon : datetime := (739000 * day_us + 43200 * 1000000)%Z.


(** Two products, the second sold below cost: profits 10 and -5. *)
Definition abc_loss_db : Database :=
  mkDatabase
    [mk_product 1 30 20 5 true; mk_product 2 10 15 5 true]
    [mk_sale 1 738990 SaleOrder.PAID]
    [SaleOrderItem.mk 1 1 1 1 30; SaleOrderItem.mk 2 1 2 1 10]
    [] [] [].

(** One product sold below cost. *)
Definition abc_single_loss_db : Database :=
  mkDatabase
    [mk_product 2 10 15 5 true]
    [mk_sale 1 738990 SaleOrder.PAID]
    [SaleOrderItem.mk 2 1 2 1 10]
    [] [] [].


(** A product with 20 units in stock that sold 450 units in the last 90
    days (5 a day), and one PENDING purchase order of 140 units placed two
    days before [noon]. *)
Definition risk_scenario_db : Database :=
  mkDatabase
    [mk_product 1 10 6 20 true]
    [mk_sale 1 738990 SaleOrder.PAID]
    [SaleOrderItem.mk 1 1 1 450 10]
    [PurchaseOrder.mk 1 "PO-1" 1 738998 840 PurchaseOrder.PENDING]
    [PurchaseOrderItem.mk 1 1 1 140 6]
    [].

(** A product with 304 units in stock that sells 100 a day: 3.04 days
    until stockout, shown as 3.0 in the report. *)
Definition risk_rounding_db : Database :=
  mkDatabase
    [mk_product 1 10 6 304 true]
    [mk_sale 1 738990 SaleOrder.PAID]
    [SaleOrderItem.mk 1 1 1 9000 10]
    [] [] [].

(** A product whose stock went from 5 to -2 with the last sale, never
    passing through 0, with PAID sales in the last 14 days; and a product
    with stock that will run out within a week. *)
Definition rupture_negative_db : Database :=
  mkDatabase
    [mk_product 1 10 6 (-2) true; mk_product 2 10 6 3 true]
    [mk_sale 1 738995 SaleOrder.PAID]
    [SaleOrderItem.mk 1 1 1 7 10; SaleOrderItem.mk 2 1 2 90 10]
    [] []
    [StockMovement.mk 1 1 StockMovement.PURCHASE 5 0 5 (738990 * day_us);
     StockMovement.mk 2 1 StockMovement.SALE (-7) 5 (-2) (738995 * day_us)].

(** A product that reached stock 0 four days before [noon]. *)
Definition rupture_zero_db : Database :=
  mkDatabase
    [mk_product 1 10 6 0 true]
    [mk_sale 1 738996 SaleOrder.PAID]
    [SaleOrderItem.mk 1 1 1 5 10]
    [] []
    [StockMovement.mk 1 1 StockMovement.PURCHASE 5 0 5 (738990 * day_us);
     StockMovement.mk 2 1 StockMovement.SALE (-5) 5 0 (738996 * day_us)].

(** A product whose only sale of the last 90 days was CANCELLED, and whose
    stock reached 0 twenty days before [noon]. *)
Definition availability_cancelled_db : Database :=
  mkDatabase
    [mk_product 1 10 6 0 true]
    [mk_sale 1 738990 SaleOrder.CANCELLED]
    [SaleOrderItem.mk 1 1 1 3 10]
    [] []
    [StockMovement.mk 1 1 StockMovement.PURCHASE 4 0 4 (738970 * day_us);
     StockMovement.mk 2 1 StockMovement.ADJUSTMENT (-4) 4 0 (738980 * day_us)].

(** A consistent ledger (10 in, 4 out, stock 6), and a product whose
    movements sum to 0 while its recorded stock is 3. *)
Definition ledger_db : Database :=
  mkDatabase
    [mk_product 1 10 6 6 true; mk_product 2 10 6 3 true]
    [] [] [] []
    [StockMovement.mk 1 1 StockMovement.PURCHASE 10 0 10 (738990 * day_us);
     StockMovement.mk 2 1 StockMovement.SALE (-4) 10 6 (738995 * day_us);
     StockMovement.mk 3 2 StockMovement.PURCHASE 5 0 5 (738990 * day_us);
     StockMovement.mk 4 2 StockMovement.SALE (-5) 5 0 (738995 * day_us)].

(** The ledger above after the stock of product 1 was changed to 4 out of
    band. *)
Definition drifted_db : Database :=
  mkDatabase
    [mk_product 1 10 6 4 true; mk_product 2 10 6 3 true]
    [] [] [] []
    (stock_movements ledger_db).

(** A product that needs 0.4 of a unit, at a unit cost of 200. *)
Definition small_need_db : Database :=
  mkDatabase
    [mk_product 1 300 200 (96 # 10) true]
    [mk_sale 1 738990 SaleOrder.PAID]
    [SaleOrderItem.mk 1 1 1 30 300]
    [] [] [].

(** A shop with seven products: 1 and 6 are out of stock with recent
    sales, 2, 3 and 4 will run out within a week (no pending order, a
    sufficient one, a late and insufficient one), 5 never sold, 7 is
    inactive with a drifted ledger. *)
Definition shop_db : Database :=
  mkDatabase
    [mk_product 1 10 6 0 true; mk_product 2 10 6 3 true;
     mk_product 3 10 6 20 true; mk_product 4 25 15 12 true;
     mk_product 5 40 30 50 true; mk_product 6 10 6 (-2) true;
     mk_product 7 10 6 5 false]
    [mk_sale 1 738995 SaleOrder.PAID; mk_sale 2 738990 SaleOrder.PAID;
     mk_sale 3 738960 SaleOrder.PAID; mk_sale 4 738998 SaleOrder.CANCELLED]
    [SaleOrderItem.mk 1 1 1 14 10; SaleOrderItem.mk 2 1 6 7 10;
     SaleOrderItem.mk 3 2 2 90 10; SaleOrderItem.mk 4 2 3 450 10;
     SaleOrderItem.mk 5 3 4 180 25; SaleOrderItem.mk 6 4 5 9 40]
    [PurchaseOrder.mk 1 "PO-1" 1 738998 840 PurchaseOrder.PENDING;
     PurchaseOrder.mk 2 "PO-2" 2 738990 150 PurchaseOrder.PENDING;
     PurchaseOrder.mk 3 "PO-3" 1 738900 600 PurchaseOrder.RECEIVED]
    [PurchaseOrderItem.mk 1 1 3 140 6; PurchaseOrderItem.mk 2 2 4 10 15;
     PurchaseOrderItem.mk 3 3 5 20 30]
    [StockMovement.mk 1 1 StockMovement.PURCHASE 14 0 14 (738980 * day_us);
     StockMovement.mk 2 1 StockMovement.SALE (-14) 14 0 (738995 * day_us);
     StockMovement.mk 3 6 StockMovement.PURCHASE 5 0 5 (738980 * day_us);
     StockMovement.mk 4 6 StockMovement.SALE (-7) 5 (-2) (738995 * day_us);
     StockMovement.mk 5 5 StockMovement.PURCHASE 60 0 60 (738900 * day_us);
     StockMovement.mk 6 5 StockMovement.LOSS (-6) 60 54 (738985 * day_us);
     StockMovement.mk 7 7 StockMovement.PURCHASE 8 0 8 (738950 * day_us);
     StockMovement.mk 8 2 StockMovement.PURCHASE 100 0 100 (738900 * day_us);
     StockMovement.mk 9 2 StockMovement.SALE (-90) 100 10 (738990 * day_us)].

(** ** Orders of the reports *)

(** Tuple order on a pair of keys, an integer then a number. *)
Definition lex_le {A : Type} (k : A -> Z) (v : A -> Q) (a b : A) : Prop :=
  (k a < k b)%Z \/ (k a = k b /\ v a <= v b).

(** A product out of stock that was sold today. *)
Definition rupture_today_db : Database :=
  mkDatabase
    [mk_product 1 10 6 0 true]
    [mk_sale 1 739000 SaleOrder.PAID]
    [SaleOrderItem.mk 1 1 1 5 10]
    [] [] [].

(** The position of a class in the order A, B, C. *)
Definition abc_rank (c : Abc.abc_class_t) : Z :=
  match c with Abc.A => 0 | Abc.B => 1 | Abc.C => 2 end.

(** ** Slow-moving stock ([tools/stock_analysis.py]) *)

Module SlowMoving.

(** The three recommendation texts, by their leading word. *)
Inductive recommendation_t := URGENT | IMPORTANT | MONITOR.

Record row := mk_row {
  product_id : Z;
  sku : string;
  name : string;
  category : string;
  current_stock : Q;
  stock_value : Q;
  last_sale_date : option date;
  days_without_sale : option Z;
  last_purchase_date : option datetime;
  recommendation : recommendation_t
}.

(** The date of the last PAID sale of a product
    ([ORDER BY sale_date DESC], [.first()]). *)
Definition last_sale (db : Database) (pid : Z) : option date :=
  max_sale_date (filter (fun io => SaleOrder.is_paid (snd io)) (sales_of db pid)).

Definition is_purchase (m : StockMovement.t) : bool :=
  match StockMovement.movement_type m with
  | StockMovement.PURCHASE => true
  | _ => false
  end.

(** The date of the last PURCHASE movement of a product
    ([ORDER BY movement_date DESC], [.first()]). *)
Definition last_purchase (db : Database) (pid : Z) : option datetime :=
  fold_right
    (fun m acc =>
       let d := StockMovement.movement_date m in
       match acc with
       | None => Some d
       | Some d' => Some (Z.max d d')
       end)
    None (filter is_purchase (movements_of db pid)).

(** [days_without_sale] before the report hides the sentinel. *)
Definition days_without_sale_of (db : Database) (now : datetime) (pid : Z)
  : Z :=
  match last_sale db pid with
  | Some d => (date_of now - d)%Z
  | None => 9999%Z
  end.

Definition recommendation_of (days_without_sale : Z) : recommendation_t :=
  if (90 <? days_without_sale)%Z then URGENT
  else if (60 <? days_without_sale)%Z then IMPORTANT
  else MONITOR.

(** The body of the loop over the products with stock. *)
Definition row_of (db : Database) (now : datetime) (days_threshold : Z)
    (product : Product.t) : option row :=
  let last_sale_date := last_sale db (Product.id product) in
  let days_without_sale :=
    days_without_sale_of db now (Product.id product) in
  if (days_without_sale <? days_threshold)%Z then None
  else
    let stock_value :=
      Product.current_stock product * Product.cost_price product in
    Some
      (mk_row (Product.id product) (Product.sku product)
         (Product.name product)
         (category_or_na (Product.category product))
         (Product.current_stock product)
         (py_round_to 2 stock_value)
         last_sale_date
         (if (days_without_sale <? 9999)%Z
          then Some days_without_sale else None)
         (last_purchase db (Product.id product))
         (recommendation_of days_without_sale)).

Definition analyze_slow_moving_stock (db : Database) (now : datetime)
    (days_threshold : Z) : list row :=
  sort_by (fun y x => Qlt_bool (stock_value x) (stock_value y))
    (flat_map
       (fun product =>
          match row_of db now days_threshold product with
          | Some r => [r]
          | None => []
          end)
       (filter (fun p => Qlt_bool 0 (Product.current_stock p))
          (products db))).

End SlowMoving.

(** ** Profitability ([tools/profitability_analysis.py]) *)

Module Profitability.

Inductive rating_t := HIGH | MEDIUM | LOW | POOR.

Record row := mk_row {
  product_id : Z;
  sku : string;
  name : string;
  category : string;
  total_revenue : Q;
  total_cost : Q;
  gross_profit : Q;
  profit_margin_pct : Q;
  units_sold : Q;
  avg_sale_price : Q;
  avg_cost_price : Q;
  profit_per_unit : Q;
  roi_percentage : Q;
  profitability_rating : rating_t
}.

(** [func.avg(SaleOrderItem.unit_price)] over the joined rows of a group
    (a group is never empty). *)
Definition avg_unit_price (rows : list (SaleOrderItem.t * SaleOrder.t)) : Q :=
  Qsum (map (fun io => SaleOrderItem.unit_price (fst io)) rows)
  / inject_Z (Z.of_nat (List.length rows)).

Definition rating_of (profit_margin_pct : Q) : rating_t :=
  if Qle_bool 40 profit_margin_pct then HIGH
  else if Qle_bool 25 profit_margin_pct then MEDIUM
  else if Qle_bool 10 profit_margin_pct then LOW
  else POOR.

Definition margin_of (total_revenue total_cost : Q) : Q :=
  if Qlt_bool 0 total_revenue
  then (total_revenue - total_cost) / total_revenue * 100
  else 0.

(** The row computed for one group of the query. *)
Definition row_of (p : Product.t)
    (rows : list (SaleOrderItem.t * SaleOrder.t)) : row :=
  let total_revenue := sum_revenue rows in
  let units_sold := sum_quantity rows in
  let avg_sale_price := avg_unit_price rows in
  let cost_price := Product.cost_price p in
  let total_cost := units_sold * cost_price in
  let gross_profit := total_revenue - total_cost in
  let profit_margin_pct := margin_of total_revenue total_cost in
  let profit_per_unit :=
    if Qlt_bool 0 units_sold then gross_profit / units_sold else 0 in
  let roi_percentage :=
    if Qlt_bool 0 total_cost then gross_profit / total_cost * 100 else 0 in
  mk_row (Product.id p) (Product.sku p) (Product.name p)
    (category_or_na (Product.category p))
    (py_round_to 2 total_revenue)
    (py_round_to 2 total_cost)
    (py_round_to 2 gross_profit)
    (py_round_to 1 profit_margin_pct)
    (py_round_to 2 units_sold)
    (py_round_to 2 avg_sale_price)
    (py_round_to 2 cost_price)
    (py_round_to 2 profit_per_unit)
    (py_round_to 1 roi_percentage)
    (rating_of profit_margin_pct).

(** Products joined with their PAID sales since the cutoff, grouped by
    product, [HAVING sum(quantity) >= min_sales]. *)
Definition sales_data (db : Database) (cutoff : date) (min_sales : Z)
  : list row :=
  flat_map
    (fun p =>
       match paid_sales_since db (Product.id p) cutoff with
       | [] => []
       | rows =>
           if Qle_bool (inject_Z min_sales) (sum_quantity rows)
           then [row_of p rows] else []
       end)
    (products db).

Definition by_profit_desc (y x : row) : bool :=
  Qlt_bool (gross_profit x) (gross_profit y).

Definition by_profit_asc (y x : row) : bool :=
  Qlt_bool (gross_profit y) (gross_profit x).

Definition calculate_profitability_analysis (db : Database) (now : datetime)
    (period : string) (min_sales : Z) : list row :=
  sort_by by_profit_desc
    (sales_data db (Abc.cutoff_date now period) min_sales).

Record performer := mk_performer {
  p_name : string;
  p_gross_profit : Q;
  p_margin_pct : Q
}.

Definition performer_of (r : row) : performer :=
  mk_performer (name r) (gross_profit r) (profit_margin_pct r).

Record summary := mk_summary {
  s_total_revenue : Q;
  s_total_cost : Q;
  s_total_profit : Q;
  overall_margin_pct : Q;
  products_analyzed : Z;
  profitable_products : Z;
  unprofitable_products : Z;
  top_profit_makers : list performer;
  bottom_performers : list performer
}.

Definition get_profitability_summary (db : Database) (now : datetime)
    (period : string) : summary :=
  match calculate_profitability_analysis db now period 1 with
  | [] => mk_summary 0 0 0 0 0 0 0 [] []
  | analysis =>
      let total_revenue := Qsum (map total_revenue analysis) in
      let total_cost := Qsum (map total_cost analysis) in
      let total_profit := Qsum (map gross_profit analysis) in
      let overall_margin :=
        if Qlt_bool 0 total_revenue
        then total_profit / total_revenue * 100 else 0 in
      let profitable :=
        filter (fun p => Qlt_bool 0 (gross_profit p)) analysis in
      let unprofitable :=
        filter (fun p => Qle_bool (gross_profit p) 0) analysis in
      let top_5 := firstn 5 (sort_by by_profit_desc analysis) in
      let bottom_5 := firstn 5 (sort_by by_profit_asc analysis) in
      mk_summary
        (py_round_to 2 total_revenue)
        (py_round_to 2 total_cost)
        (py_round_to 2 total_profit)
        (py_round_to 1 overall_margin)
        (Z.of_nat (List.length analysis))
        (Z.of_nat (List.length profitable))
        (Z.of_nat (List.length unprofitable))
        (map performer_of top_5)
        (map performer_of bottom_5)
  end.

End Profitability.

(** ** Inventory age ([tools/turnover_analysis.py]) *)

Module InventoryAge.

Record item := mk_item {
  product : Product.t;
  age_days : Z;
  stock_value : Q
}.

Record bracket := mk_bracket {
  b_name : string;
  b_min : Z;
  b_max : Z
}.

Definition brackets : list bracket :=
  [mk_bracket "0-7 days" 0 7; mk_bracket "8-14 days" 8 14;
   mk_bracket "15-30 days" 15 30; mk_bracket "31-60 days" 31 60;
   mk_bracket "60+ days" 61 9999].

Record bracket_row := mk_bracket_row {
  bracket_name : string;
  products_count : Z;
  total_value : Q;
  percentage : Q
}.

Record oldest := mk_oldest {
  o_name : string;
  o_sku : string;
  o_age_days : Z;
  o_stock : Q;
  o_value : Q
}.

Record distribution := mk_distribution {
  age_brackets : list bracket_row;
  total_products : Z;
  d_total_value : Q;
  avg_age_days : Q;
  oldest_product : option oldest
}.

(** The loop over the products with stock: a product without PURCHASE
    movement is skipped. *)
Definition age_data (db : Database) (now : datetime) : list item :=
  flat_map
    (fun p =>
       match SlowMoving.last_purchase db (Product.id p) with
       | None => []
       | Some d =>
           [mk_item p (days_between now d)
              (Product.current_stock p * Product.cost_price p)]
       end)
    (filter (fun p => Qlt_bool 0 (Product.current_stock p)) (products db)).

(** [oldest_product] and [max_age] as the loop updates them. *)
Definition oldest_of (items : list item) : option oldest * Z :=
  fold_left
    (fun acc it =>
       if (snd acc <? age_days it)%Z
       then (Some (mk_oldest (Product.name (product it))
                     (Product.sku (product it)) (age_days it)
                     (Product.current_stock (product it)) (stock_value it)),
             age_days it)
       else acc)
    items (None, 0%Z).

Definition in_bracket (b : bracket) (it : item) : bool :=
  (b_min b <=? age_days it)%Z && (age_days it <=? b_max b)%Z.

Definition bracket_row_of (items : list item) (total_value : Q) (b : bracket)
  : bracket_row :=
  let products_in_bracket := filter (in_bracket b) items in
  let bracket_value := Qsum (map stock_value products_in_bracket) in
  let percentage :=
    if Qlt_bool 0 total_value then bracket_value / total_value * 100 else 0 in
  mk_bracket_row (b_name b)
    (Z.of_nat (List.length products_in_bracket))
    (py_round_to 2 bracket_value)
    (py_round_to 1 percentage).

Definition get_inventory_age_distribution (db : Database) (now : datetime)
  : distribution :=
  let items := age_data db now in
  let total_value := Qsum (map stock_value items) in
  let avg_age :=
    match items with
    | [] => 0
    | _ => inject_Z (fold_right Z.add 0%Z (map age_days items))
           / inject_Z (Z.of_nat (List.length items))
    end in
  mk_distribution
    (map (bracket_row_of items total_value) brackets)
    (Z.of_nat (List.length items))
    (py_round_to 2 total_value)
    (py_round_to 1 avg_age)
    (fst (oldest_of items)).

End InventoryAge.

(** Products received 100, 20 and 0 days before [noon], and one dated in
    the future. *)
Definition ages_db : Database :=
  mkDatabase
    [mk_product 1 10 6 5 true; mk_product 2 10 6 5 true;
     mk_product 3 10 6 5 true; mk_product 4 10 6 5 true]
    [] [] [] []
    [StockMovement.mk 1 1 StockMovement.PURCHASE 5 0 5 (738900 * day_us);
     StockMovement.mk 2 2 StockMovement.PURCHASE 5 0 5 (738980 * day_us);
     StockMovement.mk 3 3 StockMovement.PURCHASE 5 0 5 (739000 * day_us);
     StockMovement.mk 4 4 StockMovement.PURCHASE 5 0 5 (739010 * day_us)].

(** Two products received on the day of [noon]. *)
Definition fresh_db : Database :=
  mkDatabase
    [mk_product 1 10 6 5 true; mk_product 2 10 6 5 true]
    [] [] [] []
    [StockMovement.mk 1 1 StockMovement.PURCHASE 5 0 5 (739000 * day_us);
     StockMovement.mk 2 2 StockMovement.PURCHASE 5 0 5 (739000 * day_us)].

(** ** Suppliers and the remaining columns ([database/schema.py]) *)

Module Supplier.
Record t := mk {
  id : Z;
  name : string;
  tax_id : string;
  is_active : bool
}.
End Supplier.

(** A [Store] adds to a [Database] what the analyzers below read beyond
    it: the supplier table and three nullable columns, each given as a
    function of the row that carries it. *)
Record Store := mkStore {
  tables : Database;
  suppliers : list Supplier.t;
  received_date : PurchaseOrder.t -> option date;
  reference_id : StockMovement.t -> option Z;
  unit_cost : StockMovement.t -> option Q
}.

(** Python's [min(a, b)] and [max(a, b)]: the first argument wins a tie. *)
Definition py_min (a b : Q) : Q := if Qlt_bool b a then b else a.
Definition py_max (a b : Q) : Q := if Qlt_bool a b then b else a.

(** ** Supplier performance ([tools/supplier_analysis.py]) *)

Module SupplierPerformance.

Inductive rating_t := Excellent | Good | Fair | Poor.

Record row := mk_row {
  supplier_id : Z;
  supplier_name : string;
  tax_id : string;
  products_supplied : Z;
  total_purchased : Q;
  total_revenue : Q;
  avg_turnover_rate : Q;
  products_in_stock : Z;
  slow_moving_products : Z;
  slow_moving_percentage : Q;
  performance_score : Q;
  rating : rating_t
}.

Definition slow_threshold : Z := 30.

(** [PurchaseOrderItem JOIN PurchaseOrder WHERE supplier_id = sid] *)
Definition supplier_items (db : Database) (sid : Z)
  : list (PurchaseOrderItem.t * PurchaseOrder.t) :=
  flat_map
    (fun it =>
       map (pair it)
         (filter (fun po =>
                    (PurchaseOrderItem.purchase_order_id it =? PurchaseOrder.id po)%Z
                    && (PurchaseOrder.supplier_id po =? sid)%Z)
            (purchase_orders db)))
    (purchase_order_items db).

(** [Product JOIN PurchaseOrderItem JOIN PurchaseOrder ... .distinct()]:
    one row for each product bought from the supplier. *)
Definition purchased_products (db : Database) (sid : Z) : list Product.t :=
  filter
    (fun p =>
       existsb (fun ip => (PurchaseOrderItem.product_id (fst ip) =? Product.id p)%Z)
         (supplier_items db sid))
    (products db).

(** [func.sum(quantity * unit_price) ... order_date >= cutoff] *)
Definition total_purchased_of (db : Database) (sid : Z) (cutoff : date) : Q :=
  Qsum
    (map (fun ip => PurchaseOrderItem.quantity (fst ip)
                    * PurchaseOrderItem.unit_price (fst ip))
       (filter (fun ip => (cutoff <=? PurchaseOrder.order_date (snd ip))%Z)
          (supplier_items db sid))).

(** [SaleOrderItem JOIN SaleOrder WHERE product_id IN ids AND
    sale_date >= cutoff AND status = 'PAID'] *)
Definition paid_sales_in (db : Database) (ids : list Z) (cutoff : date)
  : list (SaleOrderItem.t * SaleOrder.t) :=
  filter (fun io => SaleOrder.is_paid (snd io))
    (filter (fun io => (cutoff <=? SaleOrder.sale_date (snd io))%Z)
       (flat_map
          (fun it =>
             map (pair it)
               (filter (fun o => (SaleOrderItem.sale_order_id it =? SaleOrder.id o)%Z)
                  (sale_orders db)))
          (filter (fun it => existsb (Z.eqb (SaleOrderItem.product_id it)) ids)
             (sale_order_items db)))).

(** The three accumulators of the loop over the supplier's products. *)
Record counters := mk_counters {
  turnover_rates : list Q;
  slow_moving_count : Z;
  in_stock_count : Z
}.

(** One turn of that loop ([sales_count] is computed and not used). *)
Definition visit (db : Database) (now : datetime) (days_period : Z)
    (c : counters) (p : Product.t) : result counters :=
  let cutoff := date_of (minus_days now days_period) in
  let in_stock :=
    if Qlt_bool 0 (Product.current_stock p)
    then (in_stock_count c + 1)%Z else in_stock_count c in
  let qty_sold := sum_quantity (paid_sales_since db (Product.id p) cutoff) in
  let recent_sales :=
    List.length
      (paid_sales_since db (Product.id p)
         (date_of (minus_days now slow_threshold))) in
  let slow :=
    if Nat.eqb recent_sales 0 && Qlt_bool 0 (Product.current_stock p)
    then (slow_moving_count c + 1)%Z else slow_moving_count c in
  if Qlt_bool 0 qty_sold then
    turnover_rate <- div_days qty_sold days_period ;;
    Ok (mk_counters (turnover_rates c ++ [turnover_rate]) slow in_stock)
  else Ok (mk_counters (turnover_rates c) slow in_stock).

Fixpoint visit_all (db : Database) (now : datetime) (days_period : Z)
    (c : counters) (l : list Product.t) : result counters :=
  match l with
  | [] => Ok c
  | p :: rest =>
      c' <- visit db now days_period c p ;;
      visit_all db now days_period c' rest
  end.

Definition rating_of (performance_score : Q) : rating_t :=
  if Qle_bool 75 performance_score then Excellent
  else if Qle_bool 60 performance_score then Good
  else if Qle_bool 40 performance_score then Fair
  else Poor.

Definition performance_score_of (avg_turnover total_revenue slow_moving_pct : Q)
  : Q :=
  let turnover_score := py_min (avg_turnover * 10) 50 in
  let revenue_score := py_min (total_revenue / 10000 * 30) 30 in
  let slow_moving_score := py_max (20 - slow_moving_pct / 5) 0 in
  turnover_score + revenue_score + slow_moving_score.

(** The body of the loop over the active suppliers. *)
Definition row_of (db : Database) (now : datetime) (days_period : Z)
    (s : Supplier.t) : result (option row) :=
  let cutoff := date_of (minus_days now days_period) in
  match purchased_products db (Supplier.id s) with
  | [] => Ok None
  | purchased =>
      let product_ids := map Product.id purchased in
      let total_purchased := total_purchased_of db (Supplier.id s) cutoff in
      let total_revenue := sum_revenue (paid_sales_in db product_ids cutoff) in
      c <- visit_all db now days_period (mk_counters [] 0 0) purchased ;;
      let avg_turnover :=
        match turnover_rates c with
        | [] => 0
        | rates => Qsum rates / inject_Z (Z.of_nat (List.length rates))
        end in
      let slow_moving_pct :=
        inject_Z (slow_moving_count c)
        / inject_Z (Z.of_nat (List.length purchased)) * 100 in
      let performance_score :=
        performance_score_of avg_turnover total_revenue slow_moving_pct in
      Ok (Some
            (mk_row (Supplier.id s) (Supplier.name s) (Supplier.tax_id s)
               (Z.of_nat (List.length purchased))
               total_purchased total_revenue
               (py_round_to 3 avg_turnover)
               (in_stock_count c) (slow_moving_count c)
               (py_round_to 1 slow_moving_pct)
               (py_round_to 1 performance_score)
               (rating_of performance_score)))
  end.

(** The final [results.sort] for the chosen metric. *)
Definition sort_results (metric : string) (results : list row) : list row :=
  if String.eqb metric "turnover_rate" then
    sort_by (fun y x => Qlt_bool (avg_turnover_rate x) (avg_turnover_rate y))
      results
  else if String.eqb metric "revenue" then
    sort_by (fun y x => Qlt_bool (total_revenue x) (total_revenue y)) results
  else if String.eqb metric "slow_moving" then
    sort_by (fun y x => Qlt_bool (slow_moving_percentage y)
                          (slow_moving_percentage x)) results
  else
    sort_by (fun y x => Qlt_bool (performance_score x) (performance_score y))
      results.

Definition analyze_supplier_performance (st : Store) (now : datetime)
    (metric : string) (days_period : Z) : result (list row) :=
  let active := filter Supplier.is_active (suppliers st) in
  results <- for_each (row_of (tables st) now days_period) active ;;
  Ok (sort_results metric results).

End SupplierPerformance.

(** The shop with its suppliers: 1 and 2 active, 3 inactive; the
    received order 3 arrived on day 738905. *)
Definition shop_store : Store :=
  mkStore shop_db
    [Supplier.mk 1 "North" "T1" true; Supplier.mk 2 "South" "T2" true;
     Supplier.mk 3 "West" "T3" false]
    (fun po => if (PurchaseOrder.id po =? 3)%Z then Some 738905%Z else None)
    (fun m => match StockMovement.id m with
              | 5%Z => Some 3%Z
              | _ => None
              end)
    (fun m => match StockMovement.movement_type m with
              | StockMovement.PURCHASE => Some 6
              | StockMovement.LOSS => Some 30
              | _ => None
              end).

(** ** Recorded losses ([tools/loss_detection.py], [get_explicit_losses]) *)

Module ExplicitLoss.

Record row := mk_row {
  movement_id : Z;
  product_id : Z;
  sku : string;
  product_name : string;
  category : string;
  quantity_lost : Q;
  loss_value : Q;
  loss_date : datetime;
  days_ago : Z
}.

(** [StockMovement JOIN Product WHERE movement_type = 'LOSS' AND
    movement_date >= cutoff ORDER BY movement_date DESC] *)
Definition losses (db : Database) (cutoff_date : datetime)
  : list (StockMovement.t * Product.t) :=
  sort_by
    (fun y x =>
       (StockMovement.movement_date (fst x)
        <? StockMovement.movement_date (fst y))%Z)
    (flat_map
       (fun m =>
          map (pair m)
            (filter (fun p => (StockMovement.product_id m =? Product.id p)%Z)
               (products db)))
       (filter (fun m => StockMovement.is_loss m
                         && (cutoff_date <=? StockMovement.movement_date m)%Z)
          (stock_movements db))).

(** [quantity_lost * float(loss.unit_cost) if loss.unit_cost else 0]: a
    missing cost and a cost of 0 both give 0. *)
Definition loss_value_of (quantity_lost : Q) (unit_cost : option Q) : Q :=
  match unit_cost with
  | Some c => if Qeq_bool c 0 then 0 else quantity_lost * c
  | None => 0
  end.

Definition row_of (st : Store) (now : datetime)
    (loss : StockMovement.t * Product.t) : row :=
  let m := fst loss in
  let p := snd loss in
  let quantity_lost := Qabs (StockMovement.quantity m) in
  let loss_value := loss_value_of quantity_lost (unit_cost st m) in
  mk_row (StockMovement.id m) (StockMovement.product_id m)
    (Product.sku p) (Product.name p) (category_or_na (Product.category p))
    quantity_lost (py_round_to 2 loss_value)
    (StockMovement.movement_date m)
    (days_between now (StockMovement.movement_date m)).

Definition get_explicit_losses (st : Store) (now : datetime)
    (days_period : Z) : list row :=
  let cutoff_date := minus_days now days_period in
  map (row_of st now) (losses (tables st) cutoff_date).

End ExplicitLoss.

(** ** Pending orders ([tools/stockout_risk.py],
    [get_pending_order_summary])

    The function follows three ORM relationships: [po.items],
    [item.product] and [po.supplier].  A many-to-one relationship whose
    key resolves to no row yields Python's [None], and the attribute read
    on it raises AttributeError: the result is then [None] here. *)

Module PendingSummary.

(** [po.items] *)
Definition items_of (db : Database) (po : PurchaseOrder.t)
  : list PurchaseOrderItem.t :=
  filter (fun it => (PurchaseOrderItem.purchase_order_id it =? PurchaseOrder.id po)%Z)
    (purchase_order_items db).

(** [item.product] *)
Definition product_of (db : Database) (item : PurchaseOrderItem.t)
  : option Product.t :=
  find (fun p => (Product.id p =? PurchaseOrderItem.product_id item)%Z)
    (products db).

(** [po.supplier] *)
Definition supplier_of (st : Store) (po : PurchaseOrder.t)
  : option Supplier.t :=
  find (fun s => (Supplier.id s =? PurchaseOrder.supplier_id po)%Z)
    (suppliers st).

Record item_row := mk_item {
  product_id : Z;
  product_name : string;
  sku : string;
  quantity : Q;
  unit_price : Q;
  subtotal : Q
}.

Record row := mk_row {
  purchase_order_id : Z;
  order_number : string;
  supplier_name : string;
  order_date : date;
  days_pending : Z;
  is_delayed : bool;
  products : list item_row;
  total_value : Q
}.

(** [product_id is not None and item.product_id != product_id] *)
Definition filtered_out (product_id : option Z) (item : PurchaseOrderItem.t)
  : bool :=
  match product_id with
  | Some pid => negb (PurchaseOrderItem.product_id item =? pid)%Z
  | None => false
  end.

(** The loop over the items of one order. *)
Fixpoint items_rows (db : Database) (product_id : option Z)
    (l : list PurchaseOrderItem.t) : option (list item_row) :=
  match l with
  | [] => Some []
  | item :: rest =>
      if filtered_out product_id item then items_rows db product_id rest
      else
        match product_of db item with
        | None => None
        | Some p =>
            match items_rows db product_id rest with
            | None => None
            | Some items =>
                Some (mk_item (PurchaseOrderItem.product_id item)
                        (Product.name p) (Product.sku p)
                        (PurchaseOrderItem.quantity item)
                        (PurchaseOrderItem.unit_price item)
                        (PurchaseOrderItem.quantity item
                         * PurchaseOrderItem.unit_price item)
                      :: items)
            end
        end
  end.

(** The body of the loop over the pending orders: [Some None] is
    [continue]. *)
Definition row_of (st : Store) (now : datetime) (product_id : option Z)
    (po : PurchaseOrder.t) : option (option row) :=
  let days_pending := (date_of now - PurchaseOrder.order_date po)%Z in
  match items_rows (tables st) product_id (items_of (tables st) po) with
  | None => None
  | Some items =>
      match product_id, items with
      | Some _, [] => Some None
      | _, _ =>
          match supplier_of st po with
          | None => None
          | Some s =>
              Some (Some
                      (mk_row (PurchaseOrder.id po)
                         (PurchaseOrder.order_number po)
                         (Supplier.name s)
                         (PurchaseOrder.order_date po)
                         days_pending
                         (7 <? days_pending)%Z
                         items
                         (PurchaseOrder.total_amount po)))
          end
      end
  end.

Fixpoint rows_of (st : Store) (now : datetime) (product_id : option Z)
    (l : list PurchaseOrder.t) : option (list row) :=
  match l with
  | [] => Some []
  | po :: rest =>
      match row_of st now product_id po with
      | None => None
      | Some r =>
          match rows_of st now product_id rest with
          | None => None
          | Some rs => Some (match r with Some x => x :: rs | None => rs end)
          end
      end
  end.

Definition get_pending_order_summary (st : Store) (now : datetime)
    (product_id : option Z) : option (list row) :=
  let pending_orders :=
    filter PurchaseOrder.is_pending (purchase_orders (tables st)) in
  match rows_of st now product_id pending_orders with
  | None => None
  | Some result =>
      Some (sort_by (fun y x => (days_pending x <? days_pending y)%Z) result)
  end.

End PendingSummary.

(** ** Suggestions by supplier ([tools/purchase_suggestions.py],
    [group_suggestions_by_supplier]) *)

Module SupplierGroups.

(** [Supplier JOIN PurchaseOrder JOIN PurchaseOrderItem WHERE
    product_id = pid ORDER BY order_date DESC], first row. *)
Definition last_purchase (st : Store) (pid : Z) : option Supplier.t :=
  hd_error
    (map fst
       (sort_by
          (fun y x : Supplier.t * PurchaseOrder.t =>
             (PurchaseOrder.order_date (snd x)
              <? PurchaseOrder.order_date (snd y))%Z)
          (flat_map
             (fun s =>
                flat_map
                  (fun po =>
                     map (fun _ => (s, po))
                       (filter
                          (fun it =>
                             (PurchaseOrder.id po
                              =? PurchaseOrderItem.purchase_order_id it)%Z
                             && (PurchaseOrderItem.product_id it =? pid)%Z)
                          (purchase_order_items (tables st))))
                  (filter
                     (fun po => (Supplier.id s =? PurchaseOrder.supplier_id po)%Z)
                     (purchase_orders (tables st))))
             (suppliers st)))).

Record product_row := mk_product_row {
  product_id : Z;
  sku : string;
  name : string;
  quantity : Z;
  unit_cost : Q;
  order_value : Q;
  priority : Purchase.priority_t
}.

(** A value of the dictionary [supplier_groups]. *)
Record bucket := mk_bucket {
  b_supplier_id : Z;
  b_supplier_name : string;
  b_products : list product_row;
  b_total_order_value : Q;
  b_high_priority_items : Z
}.

(** An element of the result: the dictionary value with its
    [products_count]. *)
Record group := mk_group {
  supplier_id : Z;
  supplier_name : string;
  products : list product_row;
  total_order_value : Q;
  high_priority_items : Z;
  products_count : Z
}.

Definition product_row_of (s : Purchase.suggestion) : product_row :=
  mk_product_row (Purchase.product_id s) (Purchase.sku s) (Purchase.name s)
    (Purchase.suggested_quantity s) (Purchase.unit_cost s)
    (Purchase.order_value s) (Purchase.priority s).

Definition is_high (p : Purchase.priority_t) : bool :=
  match p with Purchase.HIGH => true | _ => false end.

(** The three updates of a dictionary value. *)
Definition add_product (s : Purchase.suggestion) (g : bucket) : bucket :=
  mk_bucket (b_supplier_id g) (b_supplier_name g)
    (b_products g ++ [product_row_of s])
    (b_total_order_value g + Purchase.order_value s)
    (if is_high (Purchase.priority s)
     then (b_high_priority_items g + 1)%Z else b_high_priority_items g).

(** [supplier_groups], a dictionary in insertion order: the value of the
    supplier is created when missing, then updated. *)
Fixpoint update_groups (supplier : Supplier.t) (s : Purchase.suggestion)
    (supplier_groups : list bucket) : list bucket :=
  match supplier_groups with
  | [] =>
      [add_product s
         (mk_bucket (Supplier.id supplier) (Supplier.name supplier) [] 0 0)]
  | g :: rest =>
      if (b_supplier_id g =? Supplier.id supplier)%Z
      then add_product s g :: rest
      else g :: update_groups supplier s rest
  end.

(** One turn of the loop over the suggestions. *)
Definition visit (st : Store) (supplier_groups : list bucket)
    (s : Purchase.suggestion) : list bucket :=
  match last_purchase st (Purchase.product_id s) with
  | None => supplier_groups
  | Some supplier => update_groups supplier s supplier_groups
  end.

Definition group_of (g : bucket) : group :=
  mk_group (b_supplier_id g) (b_supplier_name g) (b_products g)
    (b_total_order_value g) (b_high_priority_items g)
    (Z.of_nat (List.length (b_products g))).

Definition group_suggestions_by_supplier (st : Store) (now : datetime)
  : result (list group) :=
  suggestions <- Purchase.suggest_purchase_order (tables st) now 30 90 100 ;;
  match suggestions with
  | [] => Ok []
  | _ =>
      let supplier_groups := fold_left (visit st) suggestions [] in
      Ok (sort_by
            (fun y x => Qlt_bool (total_order_value x) (total_order_value y))
            (map group_of supplier_groups))
  end.

End SupplierGroups.


(** ** Purchase-to-sale time ([tools/turnover_analysis.py],
    [analyze_purchase_to_sale_time]) *)

Module PurchaseToSale.

Inductive rating_t := FAST | MEDIUM | SLOW.

Record row := mk_row {
  product_id : Z;
  sku : string;
  name : string;
  category : string;
  purchases_count : Z;
  avg_days_to_sale : Q;
  min_days_to_sale : Z;
  max_days_to_sale : Z;
  still_unsold_count : Z;
  current_stock : Q;
  turnover_rating : rating_t
}.

Definition is_received (po : PurchaseOrder.t) : bool :=
  match PurchaseOrder.status po with
  | PurchaseOrder.RECEIVED => true
  | _ => false
  end.

(** [PurchaseOrder JOIN PurchaseOrderItem WHERE product_id = pid AND
    order_date >= cutoff AND status = 'RECEIVED'] *)
Definition received_orders (db : Database) (pid : Z) (cutoff : date)
  : list (PurchaseOrder.t * PurchaseOrderItem.t) :=
  flat_map
    (fun po =>
       map (pair po)
         (filter (fun it =>
                    (PurchaseOrder.id po =? PurchaseOrderItem.purchase_order_id it)%Z
                    && (PurchaseOrderItem.product_id it =? pid)%Z)
            (purchase_order_items db)))
    (filter (fun po => (cutoff <=? PurchaseOrder.order_date po)%Z
                       && is_received po)
       (purchase_orders db)).

(** [products_with_purchases]: the distinct ids of the products bought in
    the period. *)
Definition product_ids (db : Database) (cutoff : date) : list Z :=
  nodup Z.eq_dec
    (map Product.id
       (filter (fun p => match received_orders db (Product.id p) cutoff with
                         | [] => false
                         | _ => true
                         end)
          (products db))).

(** [purchases]: the rows above with a [received_date], ordered by it.
    Only the date of a row is read afterwards. *)
Definition purchases (st : Store) (pid : Z) (cutoff : date) : list date :=
  sort_by Z.ltb
    (flat_map
       (fun x => match received_date st (fst x) with
                 | Some d => [d]
                 | None => []
                 end)
       (received_orders (tables st) pid cutoff)).

(** The date of the first PAID sale on or after the purchase date. *)
Definition first_sale (db : Database) (pid : Z) (purchase_date : date)
  : option date :=
  hd_error
    (sort_by Z.ltb
       (map (fun io => SaleOrder.sale_date (snd io))
          (paid_sales_since db pid purchase_date))).

(** The loop over the purchases: [days_to_sale_list] and
    [unsold_count]. *)
Definition walk (db : Database) (pid : Z) (l : list date) : list Z * Z :=
  fold_left
    (fun acc purchase_date =>
       match first_sale db pid purchase_date with
       | Some sale_date =>
           (fst acc ++ [(sale_date - purchase_date)%Z], snd acc)
       | None => (fst acc, (snd acc + 1)%Z)
       end)
    l ([], 0%Z).

(** [min] and [max] of a list with first element [x]. *)
Definition list_min (x : Z) (l : list Z) : Z := fold_left Z.min l x.
Definition list_max (x : Z) (l : list Z) : Z := fold_left Z.max l x.

Definition rating_of (avg_days : Q) : rating_t :=
  if Qle_bool avg_days 7 then FAST
  else if Qle_bool avg_days 21 then MEDIUM
  else SLOW.

(** The body of the loop over the product ids. *)
Definition row_of (st : Store) (cutoff : date) (min_purchases : Z)
    (pid : Z) : option row :=
  match find (fun p => (Product.id p =? pid)%Z) (products (tables st)) with
  | None => None
  | Some product =>
      let purchases := purchases st pid cutoff in
      if (Z.of_nat (List.length purchases) <? min_purchases)%Z then None
      else
        let (days_to_sale_list, unsold_count) :=
          walk (tables st) pid purchases in
        match days_to_sale_list with
        | [] => None
        | d :: ds =>
            let avg_days :=
              inject_Z (fold_left Z.add days_to_sale_list 0%Z)
              / inject_Z (Z.of_nat (List.length days_to_sale_list)) in
            Some
              (mk_row (Product.id product) (Product.sku product)
                 (Product.name product)
                 (category_or_na (Product.category product))
                 (Z.of_nat (List.length purchases))
                 (py_round_to 1 avg_days)
                 (list_min d ds) (list_max d ds)
                 unsold_count
                 (Product.current_stock product)
                 (rating_of avg_days))
        end
  end.

Definition analyze_purchase_to_sale_time (st : Store) (now : datetime)
    (days_period min_purchases : Z) : list row :=
  let cutoff := date_of (minus_days now days_period) in
  sort_by
    (fun y x => Qlt_bool (avg_days_to_sale x) (avg_days_to_sale y))
    (flat_map
       (fun pid => match row_of st cutoff min_purchases pid with
                   | Some r => [r]
                   | None => []
                   end)
       (product_ids (tables st) cutoff)).

End PurchaseToSale.

(** Product 1 received twice, on days 738900 and 738950, and sold on
    days 738910 and 738990; product 2 received once and never sold. *)
Definition turnover_store : Store :=
  mkStore
    (mkDatabase
       [mk_product 1 10 6 5 true; mk_product 2 10 6 5 true]
       [mk_sale 1 738910 SaleOrder.PAID; mk_sale 2 738990 SaleOrder.PAID]
       [SaleOrderItem.mk 1 1 1 2 10; SaleOrderItem.mk 2 2 1 3 10]
       [PurchaseOrder.mk 1 "PO-1" 1 738895 60 PurchaseOrder.RECEIVED;
        PurchaseOrder.mk 2 "PO-2" 1 738945 90 PurchaseOrder.RECEIVED;
        PurchaseOrder.mk 3 "PO-3" 1 738991 30 PurchaseOrder.RECEIVED]
       [PurchaseOrderItem.mk 1 1 1 10 6; PurchaseOrderItem.mk 2 2 1 10 6;
        PurchaseOrderItem.mk 3 2 2 5 6; PurchaseOrderItem.mk 4 3 1 5 6]
       [])
    [Supplier.mk 1 "North" "T1" true]
    (fun po => match PurchaseOrder.id po with
               | 1%Z => Some 738900%Z
               | 2%Z => Some 738950%Z
               | 3%Z => Some 738995%Z
               | _ => None
               end)
    (fun _ => None)
    (fun _ => None).

(** ** Top-selling products ([tools/sales_analysis.py],
    [get_top_selling_products]) *)

Module TopSelling.

Inductive stock_status_t := OUT | LOW | OK.

(** One row of the grouped query. *)
Record query_row := mk_query_row {
  q_product : Product.t;
  q_total_revenue : Q;
  q_total_quantity : Q;
  q_sales_count : Z;
  q_avg_quantity : Q
}.

Record row := mk_row {
  rank : Z;
  product_id : Z;
  sku : string;
  name : string;
  category : string;
  total_revenue : Q;
  total_quantity : Q;
  sales_count : Z;
  avg_sale_value : Q;
  avg_quantity_per_sale : Q;
  current_stock : Q;
  stock_status : stock_status_t;
  percentage_of_total : Q
}.

(** [Product JOIN SaleOrderItem JOIN SaleOrder WHERE sale_date >= cutoff
    AND status = 'PAID' GROUP BY Product...] *)
Definition query (db : Database) (cutoff : date) : list query_row :=
  flat_map
    (fun p =>
       match paid_sales_since db (Product.id p) cutoff with
       | [] => []
       | rows =>
           [mk_query_row p (sum_revenue rows) (sum_quantity rows)
              (count_distinct_orders rows)
              (sum_quantity rows / inject_Z (Z.of_nat (List.length rows)))]
       end)
    (products db).

(** The [ORDER BY] of the chosen metric; another metric leaves the query
    unordered. *)
Definition order_by (metric : string) (rows : list query_row)
  : list query_row :=
  if String.eqb metric "revenue" then
    sort_by (fun y x => Qlt_bool (q_total_revenue x) (q_total_revenue y)) rows
  else if String.eqb metric "quantity" then
    sort_by (fun y x => Qlt_bool (q_total_quantity x) (q_total_quantity y))
      rows
  else if String.eqb metric "frequency" then
    sort_by (fun y x => (q_sales_count x <? q_sales_count y)%Z) rows
  else rows.

(** [query.limit(limit).all()] for a limit that is not negative. *)
Definition results (db : Database) (now : datetime) (period : string)
    (limit : Z) (metric : string) : list query_row :=
  firstn (Z.to_nat limit)
    (order_by metric (query db (Abc.cutoff_date now period))).

Definition metric_value (metric : string) (r : query_row) : Q :=
  if String.eqb metric "revenue" then q_total_revenue r
  else if String.eqb metric "quantity" then q_total_quantity r
  else inject_Z (q_sales_count r).

(** [total_metric]: the sum over the rows that were returned. *)
Definition total_metric (metric : string) (results : list query_row) : Q :=
  Qsum (map (metric_value metric) results).

Definition percentage (metric : string) (total_metric : Q) (r : query_row)
  : Q :=
  if Qlt_bool 0 total_metric
  then metric_value metric r / total_metric * 100 else 0.

Definition days_in_period (period : string) : Z :=
  let days_in_period :=
    if String.eqb period "week" then 7%Z
    else if String.eqb period "month" then 30%Z else 90%Z in
  if String.eqb period "all" then 180%Z else days_in_period.

Definition stock_status_of (current_stock week_demand : Q)
  : stock_status_t :=
  if Qeq_bool current_stock 0 then OUT
  else if Qlt_bool current_stock week_demand then LOW
  else OK.

(** The body of the loop over the enumerated results. *)
Definition row_of (period metric : string) (total_metric : Q) (rank : Z)
    (r : query_row) : row :=
  let total_revenue := q_total_revenue r in
  let total_quantity := q_total_quantity r in
  let sales_count := q_sales_count r in
  let avg_quantity :=
    if Qeq_bool (q_avg_quantity r) 0 then 0 else q_avg_quantity r in
  let avg_sale_value :=
    if (0 <? sales_count)%Z then total_revenue / inject_Z sales_count
    else 0 in
  let daily_sales :=
    if (0 <? days_in_period period)%Z
    then total_quantity / inject_Z (days_in_period period) else 0 in
  let week_demand := daily_sales * 7 in
  let current_stock := Product.current_stock (q_product r) in
  mk_row rank (Product.id (q_product r)) (Product.sku (q_product r))
    (Product.name (q_product r))
    (category_or_na (Product.category (q_product r)))
    (py_round_to 2 total_revenue) (py_round_to 2 total_quantity)
    sales_count (py_round_to 2 avg_sale_value) (py_round_to 2 avg_quantity)
    current_stock (stock_status_of current_stock week_demand)
    (py_round_to 1 (percentage metric total_metric r)).



End TopSelling.

(** ** Binary floating point

    Python's [float] is IEEE 754 binary64 with round-to-nearest, ties to
    even.  [fl x] is the binary64 number nearest to the rational [x];
    values beyond the range of binary64 (overflow) are not modelled.  A
    float operation is the exact operation followed by [fl]. *)

Module Binary64.

Definition pow2 (k : Z) : Q := 2 ^ k.

(** [floor (log2 a)] for a positive [a]. *)
Definition binade (a : Q) : Z :=
  let k := (Z.log2 (Qnum a) - Z.log2 (Zpos (Qden a)))%Z in
  if Qle_bool (pow2 k) a then k else (k - 1)%Z.

(** The exponent of the unit in the last place: 53 significant bits,
    subnormal numbers below [2 ^ -1022]. *)
Definition ulp_exponent (a : Q) : Z := Z.max (binade a - 52) (-1074).

Definition round_pos (a : Q) : Q :=
  let e := ulp_exponent a in
  inject_Z (py_round (a / pow2 e)) * pow2 e.

Definition fl (x : Q) : Q :=
  match Qcompare x 0 with
  | Eq => 0
  | Gt => round_pos x
  | Lt => - round_pos (- x)
  end.

End Binary64.

(** ** The loops in floating point

    The loops of the analyzers convert what the queries return with
    [float(...)] and compute on floats.  The definitions below follow the
    same loops with the rounding written out: [rnd] is the rounding of the
    float format, applied by every conversion and by every operation
    ([round(x, n)] is the decimal rounding of [x] read back as a float;
    [round(x)], [int(x)] and the comparisons are exact).  With the identity
    for [rnd] they compute in exact arithmetic, as the modules above do;
    with [Binary64.fl] they compute the values CPython computes. *)

(** [round(x, ndigits)] on a float. *)
Definition float_round (rnd : Q -> Q) (ndigits : nat) (x : Q) : Q :=
  rnd (py_round_to ndigits x).

(** [x / n] for a float [x] and an [int] day count [n]. *)
Definition float_div_days (rnd : Q -> Q) (x : Q) (n : Z) : result Q :=
  if (n =? 0)%Z then ZeroDivisionError
  else Ok (rnd (x / rnd (inject_Z n))).

(** What is asked of a rounding: it is monotone, and it leaves a number of
    the format as it is. *)
Definition rounding (rnd : Q -> Q) : Prop :=
  (forall x y, x <= y -> rnd x <= rnd y)
  /\ (forall x, rnd (rnd x) == rnd x)
  /\ rnd 0 == 0.

(** *** Stockout risk ([tools/stockout_risk.py]) *)

Module RiskFloat.
Section Rounding.
Variable rnd : Q -> Q.

Definition pending_total
    (q : list (PurchaseOrder.t * PurchaseOrderItem.t)) : Q :=
  fold_left
    (fun acc po => rnd (acc + rnd (PurchaseOrderItem.quantity (snd po))))
    q 0.

Definition pending_info (db : Database) (now : datetime) (pid : Z)
    (forecasted_demand current_stock : Q) : Risk.pending_orders_info :=
  match pending_orders_of db pid with
  | [] => Risk.mk_info 0 0 false None false []
  | q =>
      let total := pending_total q in
      let oldest_days :=
        option_map (fun d => (date_of now - d)%Z)
          (Risk.oldest_order_date q) in
      let delayed :=
        match oldest_days with Some n => (7 <? n)%Z | None => false end in
      let total_needed := rnd (forecasted_demand - current_stock) in
      Risk.mk_info (Z.of_nat (List.length q)) total
        (Qle_bool total_needed total)
        oldest_days delayed
        (map (fun po =>
                Risk.mk_pending_order (PurchaseOrder.id (fst po))
                  (PurchaseOrder.order_number (fst po))
                  (PurchaseOrder.order_date (fst po))
                  (rnd (PurchaseOrderItem.quantity (snd po)))
                  (rnd (PurchaseOrderItem.unit_price (snd po)))) q)
  end.

(** [avg_daily_sales] of a product, as the loop computes it. *)
Definition avg_daily_sales_of (db : Database) (now : datetime)
    (days_history : Z) (p : Product.t) : result Q :=
  let cutoff_date := minus_days now days_history in
  let total_sold :=
    rnd (sum_quantity
           (paid_sales_since db (Product.id p) (date_of cutoff_date))) in
  float_div_days rnd total_sold days_history.

(** The body of the loop over the active products with stock. *)
Definition row_of (db : Database) (now : datetime)
    (days_forecast days_history min_days_threshold : Z) (p : Product.t)
  : result (option Risk.row) :=
  let cutoff_date := minus_days now days_history in
  let total_sold :=
    rnd (sum_quantity
           (paid_sales_since db (Product.id p) (date_of cutoff_date))) in
  if Qeq_bool total_sold 0 then Ok None else
  avg_daily_sales <- float_div_days rnd total_sold days_history ;;
  let current_stock := rnd (Product.current_stock p) in
  if negb (Qlt_bool 0 avg_daily_sales) then Ok None else
  let days_until_stockout := rnd (current_stock / avg_daily_sales) in
  if Qlt_bool (inject_Z min_days_threshold) days_until_stockout then Ok None
  else
  let forecasted_demand :=
    rnd (avg_daily_sales * rnd (inject_Z days_forecast)) in
  let info :=
    pending_info db now (Product.id p) forecasted_demand current_stock in
  let total_available := rnd (current_stock + Risk.total_quantity info) in
  let gap_quantity := Risk.Qmax0 (rnd (forecasted_demand - total_available)) in
  let daily_revenue := rnd (avg_daily_sales * rnd (Product.sale_price p)) in
  let days_of_potential_loss :=
    Risk.Qmax0 (rnd (rnd (inject_Z days_forecast) - days_until_stockout)) in
  Ok (Some
        (Risk.mk_row (Product.id p) (Product.sku p) (Product.name p)
           (category_or_na (Product.category p))
           (float_round rnd 2 current_stock)
           (float_round rnd 2 avg_daily_sales)
           (float_round rnd 1 days_until_stockout)
           (float_round rnd 2 forecasted_demand)
           info
           (float_round rnd 2 gap_quantity)
           (Risk.risk_level_of days_until_stockout info)
           (float_round rnd 2 (rnd (daily_revenue * days_of_potential_loss)))
           (rnd (Product.sale_price p))
           (rnd (Product.cost_price p)))).

Definition detect_imminent_stockout_risk (db : Database) (now : datetime)
    (days_forecast days_history min_days_threshold : Z)
  : result (list Risk.row) :=
  let products :=
    filter (fun p => Product.is_active p
                     && Qlt_bool 0 (Product.current_stock p))
      (products db) in
  at_risk_products <-
    for_each (row_of db now days_forecast days_history min_days_threshold)
      products ;;
  Ok (sort_by Risk.before at_risk_products).

End Rounding.
End RiskFloat.

(** *** Purchase suggestions ([tools/purchase_suggestions.py]) *)

Module PurchaseFloat.
Section Rounding.
Variable rnd : Q -> Q.

(** The literal [1.2]. *)
Definition safety_buffer : Q := rnd (12 # 10).

(** "Round to reasonable quantity". *)
Definition round_quantity (suggested_quantity : Q) : Z :=
  if Qlt_bool suggested_quantity 10 then py_round suggested_quantity
  else if Qlt_bool suggested_quantity 100 then
    (py_round (rnd (suggested_quantity / 5)) * 5)%Z
  else (py_round (rnd (suggested_quantity / 10)) * 10)%Z.

Definition suggested_quantity_of (stock_needed : Q) : Z :=
  let suggested_quantity :=
    round_quantity (rnd (stock_needed * safety_buffer)) in
  if (suggested_quantity <? 1)%Z then 1%Z else suggested_quantity.

(** [stock_needed] of a product, as the loop computes it. *)
Definition stock_needed_of (db : Database) (now : datetime)
    (days_forecast days_history : Z) (p : Product.t) : result Q :=
  let cutoff_date := minus_days now days_history in
  let total_sold :=
    rnd (sum_quantity
           (paid_sales_since db (Product.id p) (date_of cutoff_date))) in
  avg_daily_sales <- float_div_days rnd total_sold days_history ;;
  Ok (rnd (rnd (avg_daily_sales * rnd (inject_Z days_forecast))
           - rnd (Product.current_stock p))).

(** The body of the loop over the active products. *)
Definition suggestion_of (db : Database) (now : datetime)
    (days_forecast days_history : Z) (min_order_value : Q) (p : Product.t)
  : result (option Purchase.suggestion) :=
  let cutoff_date := minus_days now days_history in
  let sales := paid_sales_since db (Product.id p) (date_of cutoff_date) in
  let total_sold := rnd (sum_quantity sales) in
  let last_sale := max_sale_date sales in
  if Qeq_bool total_sold 0 then Ok None else
  avg_daily_sales <- float_div_days rnd total_sold days_history ;;
  let forecasted_demand :=
    rnd (avg_daily_sales * rnd (inject_Z days_forecast)) in
  let current_stock := rnd (Product.current_stock p) in
  let stock_needed := rnd (forecasted_demand - current_stock) in
  if Qle_bool stock_needed 0 then Ok None else
  let suggested_quantity := suggested_quantity_of stock_needed in
  let unit_cost := rnd (Product.cost_price p) in
  let order_value := rnd (rnd (inject_Z suggested_quantity) * unit_cost) in
  if Qlt_bool order_value min_order_value then Ok None else
  let days_until_stockout :=
    if Qlt_bool 0 avg_daily_sales
    then py_int (rnd (current_stock / avg_daily_sales)) else 999%Z in
  let pending := pending_orders_of db (Product.id p) in
  let pending_quantity :=
    rnd (Qsum (map (fun po => PurchaseOrderItem.quantity (snd po)) pending)) in
  let pending_count := Z.of_nat (List.length pending) in
  let is_sufficient :=
    Qle_bool forecasted_demand (rnd (current_stock + pending_quantity)) in
  Ok (Some
        (Purchase.mk_suggestion (Product.id p) (Product.sku p)
           (Product.name p)
           (category_or_na (Product.category p))
           current_stock
           (float_round rnd 2 avg_daily_sales)
           (float_round rnd 2 forecasted_demand)
           (float_round rnd 2 stock_needed)
           suggested_quantity
           unit_cost
           (float_round rnd 2 order_value)
           (Purchase.priority_of days_until_stockout is_sufficient)
           last_sale
           (if (days_until_stockout <? 999)%Z
            then Some days_until_stockout else None)
           (Purchase.mk_pending (0 <? pending_count)%Z pending_quantity
              pending_count is_sufficient))).

Definition suggest_purchase_order (db : Database) (now : datetime)
    (days_forecast days_history : Z) (min_order_value : Q)
  : result (list Purchase.suggestion) :=
  let products := filter Product.is_active (products db) in
  suggestions <-
    for_each (suggestion_of db now days_forecast days_history min_order_value)
      products ;;
  Ok (sort_by Purchase.before suggestions).

End Rounding.
End PurchaseFloat.

(** *** ABC classification ([tools/abc_analysis.py]) *)

Module AbcFloat.
Section Rounding.
Variable rnd : Q -> Q.

Definition metric_of (metric : string) (row : Abc.sales_row) : Q :=
  let total_revenue := rnd (Abc.row_total_revenue row) in
  let total_quantity := rnd (Abc.row_total_quantity row) in
  let cost_price := rnd (Abc.row_cost_price row) in
  if String.eqb metric "revenue" then total_revenue
  else if String.eqb metric "profit" then
    let total_cost := rnd (total_quantity * cost_price) in
    rnd (total_revenue - total_cost)
  else total_quantity.

Definition entry_of (metric : string) (row : Abc.sales_row) : Abc.entry :=
  Abc.mk_entry (Abc.row_id row) (Abc.row_sku row) (Abc.row_name row)
    (category_or_na (Abc.row_category row))
    (metric_of metric row)
    (rnd (Abc.row_total_revenue row))
    (rnd (Abc.row_total_quantity row)).

(** [sum(p['metric_value'] for p in products_list)], added from the left.
    (CPython 3.12 and later compensate the rounding errors of [sum], which
    can change the last bits of the total; what is proved of the
    classification loop is proved for every total.) *)
Definition total_metric (l : list Abc.entry) : Q :=
  fold_left (fun acc p => rnd (acc + Abc.e_metric_value p)) l 0.

Definition percentage (total_metric : Q) (p : Abc.entry) : Q :=
  if Qlt_bool 0 total_metric
  then rnd (rnd (Abc.e_metric_value p / total_metric) * 100)
  else 0.

(** The classification loop; [cumulative] is the running value on entry. *)
Fixpoint classify (total_metric cumulative : Q) (l : list Abc.entry)
  : list Abc.classified :=
  match l with
  | [] => []
  | p :: rest =>
      let pct := percentage total_metric p in
      let cumulative := rnd (cumulative + pct) in
      Abc.mk_classified (Abc.e_product_id p) (Abc.e_sku p) (Abc.e_name p)
        (Abc.e_category p)
        (float_round rnd 2 (Abc.e_metric_value p))
        (float_round rnd 2 (Abc.e_total_revenue p))
        (float_round rnd 2 (Abc.e_total_quantity p))
        (float_round rnd 2 pct)
        (float_round rnd 2 cumulative)
        (Abc.class_of cumulative)
      :: classify total_metric cumulative rest
  end.

(** The part of [get_abc_analysis] after the query, on the rows the query
    returned. *)
Definition classification_of (metric : string) (rows : list Abc.sales_row)
  : list Abc.classified :=
  let products_list := Abc.sort_desc (map (entry_of metric) rows) in
  classify (total_metric products_list) 0 products_list.

Definition get_abc_analysis (db : Database) (now : datetime)
    (period metric : string) : list Abc.classified :=
  match Abc.products_data db (Abc.cutoff_date now period) with
  | [] => []
  | rows => classification_of metric rows
  end.

End Rounding.
End AbcFloat.

(** *** Profitability ([tools/profitability_analysis.py]) *)

Module ProfitabilityFloat.

(** One row of [sales_data], as the query returned it. *)
Record query_row := mk_query_row {
  q_product : Product.t;
  q_total_revenue : Q;
  q_units_sold : Q;
  q_avg_sale_price : Q
}.

(** Products joined with their PAID sales since the cutoff, grouped by
    product, [HAVING sum(quantity) >= min_sales]. *)
Definition query (db : Database) (cutoff : date) (min_sales : Z)
  : list query_row :=
  flat_map
    (fun p =>
       match paid_sales_since db (Product.id p) cutoff with
       | [] => []
       | rows =>
           if Qle_bool (inject_Z min_sales) (sum_quantity rows)
           then [mk_query_row p (sum_revenue rows) (sum_quantity rows)
                   (Profitability.avg_unit_price rows)]
           else []
       end)
    (products db).

Section Rounding.
Variable rnd : Q -> Q.

Definition total_cost_of (q : query_row) : Q :=
  rnd (rnd (q_units_sold q) * rnd (Product.cost_price (q_product q))).

Definition gross_profit_of (q : query_row) : Q :=
  rnd (rnd (q_total_revenue q) - total_cost_of q).

Definition margin_of (q : query_row) : Q :=
  if Qlt_bool 0 (rnd (q_total_revenue q))
  then rnd (rnd (gross_profit_of q / rnd (q_total_revenue q)) * 100)
  else 0.

(** The body of the loop over the rows of the query. *)
Definition row_of (q : query_row) : Profitability.row :=
  let p := q_product q in
  let total_revenue := rnd (q_total_revenue q) in
  let units_sold := rnd (q_units_sold q) in
  let avg_sale_price := rnd (q_avg_sale_price q) in
  let cost_price := rnd (Product.cost_price p) in
  let total_cost := total_cost_of q in
  let gross_profit := gross_profit_of q in
  let profit_margin_pct := margin_of q in
  let profit_per_unit :=
    if Qlt_bool 0 units_sold then rnd (gross_profit / units_sold) else 0 in
  let roi_percentage :=
    if Qlt_bool 0 total_cost
    then rnd (rnd (gross_profit / total_cost) * 100) else 0 in
  Profitability.mk_row (Product.id p) (Product.sku p) (Product.name p)
    (category_or_na (Product.category p))
    (float_round rnd 2 total_revenue)
    (float_round rnd 2 total_cost)
    (float_round rnd 2 gross_profit)
    (float_round rnd 1 profit_margin_pct)
    (float_round rnd 2 units_sold)
    (float_round rnd 2 avg_sale_price)
    (float_round rnd 2 cost_price)
    (float_round rnd 2 profit_per_unit)
    (float_round rnd 1 roi_percentage)
    (Profitability.rating_of profit_margin_pct).

(** The loop and the final sort, on the rows the query returned. *)
Definition results (sales_data : list query_row) : list Profitability.row :=
  sort_by Profitability.by_profit_desc (map row_of sales_data).

Definition calculate_profitability_analysis (db : Database) (now : datetime)
    (period : string) (min_sales : Z) : list Profitability.row :=
  results (query db (Abc.cutoff_date now period) min_sales).

End Rounding.
End ProfitabilityFloat.

(** *** The range of [datetime]

    [datetime.now() - timedelta(days=n)] raises [OverflowError] when [n] is
    beyond the range of [timedelta] or the result is before [datetime.min]
    or after [datetime.max]; [timedelta_ok now n] says that it does not. *)
Definition timedelta_ok (now : datetime) (n : Z) : bool :=
  ((-999999999 <=? n) && (n <=? 999999999)
   && (1 * day_us <=? minus_days now n)
   && (minus_days now n <? 3652060 * day_us))%Z.

(** *** Scenarios at the rounding boundaries *)

(** A product with 1.1 units in stock that sold 33 units in the last 90
    days: 3 days until stockout in exact arithmetic. *)
Definition risk_boundary_db : Database :=
  mkDatabase
    [mk_product 1 10 6 (11 # 10) true]
    [mk_sale 1 738990 SaleOrder.PAID]
    [SaleOrderItem.mk 1 1 1 33 10]
    [] [] [].

(** A product out of stock that sold 8.75 units in the last 90 days, at a
    unit cost of 200: the buffered need is 3.5 in exact arithmetic. *)
Definition purchase_boundary_db : Database :=
  mkDatabase
    [mk_product 1 300 200 0 true]
    [mk_sale 1 738990 SaleOrder.PAID]
    [SaleOrderItem.mk 1 1 1 (875 # 100) 300]
    [] [] [].

(** Two products sold at cost: 3 units at 0.70 and 3 units at 0.10. *)
Definition abc_at_cost_db : Database :=
  mkDatabase
    [mk_product 1 (70 # 100) (70 # 100) 5 true;
     mk_product 2 (10 # 100) (10 # 100) 5 true]
    [mk_sale 1 738990 SaleOrder.PAID]
    [SaleOrderItem.mk 1 1 1 3 (70 # 100);
     SaleOrderItem.mk 2 1 2 3 (10 # 100)]
    [] [] [].

(** One unit sold for 3.00 of a product that costs 2.70: a margin of 10%
    in exact arithmetic. *)
Definition margin_boundary_db : Database :=
  mkDatabase
    [mk_product 1 3 (27 # 10) 5 true]
    [mk_sale 1 738990 SaleOrder.PAID]
    [SaleOrderItem.mk 1 1 1 1 3]
    [] [] [].

(** A product with 2.2 units in stock that sold 46.5 units in the last 90
    days, and one PENDING purchase order of 13.3 units: stock and order
    cover the 30-day demand of 15.5 exactly. *)
Definition sufficiency_boundary_db : Database :=
  mkDatabase
    [mk_product 1 15 10 (22 # 10) true]
    [mk_sale 1 738990 SaleOrder.PAID]
    [SaleOrderItem.mk 1 1 1 (465 # 10) 15]
    [PurchaseOrder.mk 1 "PO-1" 1 738998 133 PurchaseOrder.PENDING]
    [PurchaseOrderItem.mk 1 1 1 (133 # 10) 10]
    [].

(** * Properties *)

(** ** Numbers *)

Lemma Qlt_bool_iff (x y : Q) : Qlt_bool x y = true <-> x < y.
Proof.
  unfold Qlt_bool. rewrite negb_true_iff.
  split; intros H.
  - apply Qnot_le_lt. intros Hle. apply Qle_bool_iff in Hle. congruence.
  - destruct (Qle_bool y x) eqn:E; [|reflexivity].
    apply Qle_bool_iff in E. exfalso. apply (Qlt_not_le _ _ H E).
Qed.

Lemma Qlt_bool_false_iff (x y : Q) : Qlt_bool x y = false <-> y <= x.
Proof.
  unfold Qlt_bool. rewrite negb_false_iff. apply Qle_bool_iff.
Qed.

Lemma Qle_bool_false_iff (x y : Q) : Qle_bool x y = false <-> y < x.
Proof.
  rewrite <- Qlt_bool_iff. unfold Qlt_bool.
  destruct (Qle_bool x y); simpl; intuition congruence.
Qed.

Lemma py_round_bounds (x : Q) :
  (Qfloor x <= py_round x <= Qfloor x + 1)%Z.
Proof.
  unfold py_round.
  destruct (Qcompare _ _); [destruct (Z.even _)| |]; lia.
Qed.

Lemma py_round_comp (x y : Q) : x == y -> py_round x = py_round y.
Proof.
  intros E. unfold py_round.
  rewrite (Qfloor_comp _ _ E).
  assert (E' : x - inject_Z (Qfloor y) == y - inject_Z (Qfloor y))
    by (rewrite E; reflexivity).
  rewrite (Qcompare_comp _ _ E' _ _ (Qeq_refl (1 # 2))).
  reflexivity.
Qed.

Lemma py_round_inject_Z (n : Z) : py_round (inject_Z n) = n.
Proof.
  unfold py_round. rewrite Qfloor_Z.
  assert (E : inject_Z n - inject_Z n == 0) by ring.
  rewrite (Qcompare_comp _ _ E _ _ (Qeq_refl (1 # 2))).
  reflexivity.
Qed.

Lemma py_round_mono (x y : Q) : x <= y -> (py_round x <= py_round y)%Z.
Proof.
  intros Hxy.
  pose proof (Qfloor_resp_le _ _ Hxy) as Hf.
  destruct (Z.eq_dec (Qfloor x) (Qfloor y)) as [E|N].
  - unfold py_round. rewrite <- E.
    destruct (Qcompare_spec (x - inject_Z (Qfloor x)) (1 # 2)) as [Hx|Hx|Hx];
      destruct (Qcompare_spec (y - inject_Z (Qfloor x)) (1 # 2)) as [Hy|Hy|Hy];
      try (destruct (Z.even (Qfloor x))); try lia; exfalso; lra.
  - pose proof (py_round_bounds x). pose proof (py_round_bounds y). lia.
Qed.

(** [round(x)] is a nearest integer. *)
Lemma py_round_nearest (x : Q) : Qabs (inject_Z (py_round x) - x) <= 1 # 2.
Proof.
  pose proof (Qfloor_le x) as Hlo.
  pose proof (Qlt_floor x) as Hhi.
  rewrite inject_Z_plus in Hhi.
  apply Qabs_Qle_condition.
  unfold py_round.
  destruct (Qcompare_spec (x - inject_Z (Qfloor x)) (1 # 2)) as [H|H|H];
    [destruct (Z.even (Qfloor x))| |];
    rewrite ?inject_Z_plus; change (inject_Z 1) with 1 in *; split; lra.
Qed.

Lemma py_round_to_mono (n : nat) (x y : Q) :
  x <= y -> py_round_to n x <= py_round_to n y.
Proof.
  intros Hxy. unfold py_round_to.
  set (s := inject_Z (10 ^ Z.of_nat n)).
  assert (Hs : 0 < s).
  { unfold s. change 0 with (inject_Z 0). rewrite <- Zlt_Qlt.
    apply Z.pow_pos_nonneg; lia. }
  apply Qmult_le_compat_r.
  - rewrite <- Zle_Qle. apply py_round_mono.
    apply Qmult_le_compat_r; [exact Hxy | lra].
  - apply Qlt_le_weak, Qinv_lt_0_compat, Hs.
Qed.

Lemma py_round_to_comp (n : nat) (x y : Q) :
  x == y -> py_round_to n x == py_round_to n y.
Proof.
  intros E. unfold py_round_to.
  set (s := inject_Z (10 ^ Z.of_nat n)).
  rewrite (py_round_comp (x * s) (y * s)); [reflexivity|].
  rewrite E. reflexivity.
Qed.

Lemma py_round_to_inject_Z (n : nat) (k : Z) :
  py_round_to n (inject_Z k) == inject_Z k.
Proof.
  unfold py_round_to.
  set (s := (10 ^ Z.of_nat n)%Z).
  assert (Hs : (0 < s)%Z) by (apply Z.pow_pos_nonneg; lia).
  rewrite <- inject_Z_mult, py_round_inject_Z, inject_Z_mult.
  field. rewrite (Zlt_Qlt 0) in Hs. change (inject_Z 0) with 0 in Hs. lra.
Qed.

(** ** Binary floating point *)

Section Binary64Facts.
Import Binary64.

Lemma pow2_pos (k : Z) : 0 < pow2 k.
Proof. apply Qpower_0_lt. reflexivity. Qed.

Lemma pow2_add (a b : Z) : pow2 (a + b) == pow2 a * pow2 b.
Proof. apply Qpower_plus. discriminate. Qed.

Lemma pow2_lt (a b : Z) : (a < b)%Z -> pow2 a < pow2 b.
Proof. intros H. apply Qpower_lt_compat_l; [exact H|reflexivity]. Qed.

Lemma pow2_le (a b : Z) : (a <= b)%Z -> pow2 a <= pow2 b.
Proof. intros H. apply Qpower_le_compat_l; [exact H|discriminate]. Qed.

Lemma pow2_lt_inv (a b : Z) : pow2 a < pow2 b -> (a < b)%Z.
Proof. intros H. apply (Qpower_lt_compat_l_inv 2); [exact H|reflexivity]. Qed.

Lemma pow2_inject (n : Z) : (0 <= n)%Z -> inject_Z (2 ^ n) == pow2 n.
Proof. intros H. apply (Zpower_Qpower 2 n H). Qed.

Lemma Qdiv_pow2_lt (a c : Q) (e : Z) : a < c * pow2 e -> a / pow2 e < c.
Proof. intros H. apply Qlt_shift_div_r; [apply pow2_pos|exact H]. Qed.

Lemma Qdiv_pow2_le (a c : Q) (e : Z) : c * pow2 e <= a -> c <= a / pow2 e.
Proof. intros H. apply Qle_shift_div_l; [apply pow2_pos|exact H]. Qed.

Lemma binade_spec (a : Q) :
  0 < a -> pow2 (binade a) <= a < pow2 (binade a + 1).
Proof.
  intros Ha. unfold binade.
  destruct a as [n d]. cbn [Qnum Qden].
  assert (Hn : (0 < n)%Z).
  { unfold Qlt in Ha. simpl in Ha. lia. }
  pose proof (Z.log2_spec n Hn) as [Hn1 Hn2].
  pose proof (Z.log2_spec (Zpos d) (Pos2Z.is_pos d)) as [Hd1 Hd2].
  set (ln := Z.log2 n) in *. set (ld := Z.log2 (Zpos d)) in *.
  assert (Hln : (0 <= ln)%Z) by apply Z.log2_nonneg.
  assert (Hld : (0 <= ld)%Z) by apply Z.log2_nonneg.
  assert (Ea : n # d == inject_Z n / inject_Z (Zpos d)) by apply Qmake_Qdiv.
  assert (HD : 0 < inject_Z (Zpos d)) by reflexivity.
  assert (HA1 : pow2 ln <= inject_Z n)
    by (rewrite <- pow2_inject by assumption; now rewrite <- Zle_Qle).
  assert (HA2 : inject_Z n < pow2 (ln + 1)).
  { rewrite <- pow2_inject by lia. rewrite <- Zlt_Qlt.
    replace (ln + 1)%Z with (Z.succ ln) by lia. exact Hn2. }
  assert (HD1 : pow2 ld <= inject_Z (Zpos d))
    by (rewrite <- pow2_inject by assumption; now rewrite <- Zle_Qle).
  assert (HD2 : inject_Z (Zpos d) < pow2 (ld + 1)).
  { rewrite <- pow2_inject by lia. rewrite <- Zlt_Qlt.
    replace (ld + 1)%Z with (Z.succ ld) by lia. exact Hd2. }
  set (k := (ln - ld)%Z).
  assert (Hup : n # d < pow2 (k + 1)).
  { rewrite Ea. apply Qlt_shift_div_r; [exact HD|].
    apply Qlt_le_trans with (pow2 (ln + 1)); [exact HA2|].
    replace (ln + 1)%Z with ((k + 1) + ld)%Z by (unfold k; lia).
    rewrite pow2_add. apply Qmult_le_l; [apply pow2_pos|exact HD1]. }
  assert (Hlow : pow2 (k - 1) <= n # d).
  { rewrite Ea. apply Qle_shift_div_l; [exact HD|].
    apply Qle_trans with (pow2 ln); [|exact HA1].
    assert (E : pow2 ln == pow2 (k - 1) * pow2 (ld + 1)).
    { rewrite <- pow2_add. apply Qpower_comp; [reflexivity|unfold k; lia]. }
    rewrite E. apply Qmult_le_l; [apply pow2_pos|].
    apply Qlt_le_weak. exact HD2. }
  destruct (Qle_bool (pow2 k) (n # d)) eqn:E.
  - apply Qle_bool_iff in E. split; assumption.
  - apply Qle_bool_false_iff in E. split; [exact Hlow|].
    replace (k - 1 + 1)%Z with k by lia. exact E.
Qed.

Lemma binade_unique (a : Q) (k : Z) :
  pow2 k <= a -> a < pow2 (k + 1) -> binade a = k.
Proof.
  intros H1 H2.
  assert (Ha : 0 < a) by (apply Qlt_le_trans with (pow2 k);
                          [apply pow2_pos|exact H1]).
  destruct (binade_spec a Ha) as [H3 H4].
  assert (binade a < k + 1)%Z
    by (apply pow2_lt_inv; apply Qle_lt_trans with a; assumption).
  assert (k < binade a + 1)%Z
    by (apply pow2_lt_inv; apply Qle_lt_trans with a; assumption).
  lia.
Qed.

Lemma binade_comp (a a' : Q) : 0 < a -> a == a' -> binade a = binade a'.
Proof.
  intros Ha E. symmetry. apply binade_unique.
  - rewrite <- E. now apply binade_spec.
  - rewrite <- E. now apply binade_spec.
Qed.

Lemma binade_mono (a b : Q) : 0 < a -> a <= b -> (binade a <= binade b)%Z.
Proof.
  intros Ha Hab.
  assert (Hb : 0 < b) by lra.
  destruct (binade_spec a Ha) as [H1 _].
  destruct (binade_spec b Hb) as [_ H2].
  assert (binade a < binade b + 1)%Z
    by (apply pow2_lt_inv; lra).
  lia.
Qed.

(** The scaled significand of a positive number is below [2 ^ 53], and
    at least [2 ^ 52] in the normal range. *)
Lemma scaled_lt (a : Q) :
  0 < a -> a / pow2 (ulp_exponent a) < inject_Z (2 ^ 53).
Proof.
  intros Ha. destruct (binade_spec a Ha) as [_ H].
  apply Qdiv_pow2_lt.
  apply Qlt_le_trans with (pow2 (binade a + 1)); [exact H|].
  rewrite (pow2_inject 53) by lia. rewrite <- pow2_add.
  apply pow2_le. unfold ulp_exponent. lia.
Qed.

Lemma scaled_ge (a : Q) :
  0 < a -> (-1074 <= binade a - 52)%Z ->
  inject_Z (2 ^ 52) <= a / pow2 (ulp_exponent a).
Proof.
  intros Ha Hn. destruct (binade_spec a Ha) as [H _].
  apply Qdiv_pow2_le.
  rewrite (pow2_inject 52) by lia. rewrite <- pow2_add.
  apply Qle_trans with (pow2 (binade a)); [|exact H].
  apply pow2_le. unfold ulp_exponent. lia.
Qed.

Lemma round_pos_significand (a : Q) :
  0 < a ->
  (0 <= py_round (a / pow2 (ulp_exponent a)) <= 2 ^ 53)%Z.
Proof.
  intros Ha. split.
  - rewrite <- (py_round_inject_Z 0). apply py_round_mono.
    apply Qlt_le_weak, Qlt_shift_div_l; [apply pow2_pos|].
    change (inject_Z 0) with 0. rewrite Qmult_0_l. exact Ha.
  - rewrite <- (py_round_inject_Z (2 ^ 53)). apply py_round_mono.
    apply Qlt_le_weak, scaled_lt, Ha.
Qed.

Lemma round_pos_nonneg (a : Q) : 0 < a -> 0 <= round_pos a.
Proof.
  intros Ha. unfold round_pos.
  destruct (round_pos_significand a Ha) as [H _].
  apply Qmult_le_0_compat.
  - change 0 with (inject_Z 0). now rewrite <- Zle_Qle.
  - apply Qlt_le_weak, pow2_pos.
Qed.

Lemma round_pos_le_top (a : Q) :
  0 < a -> round_pos a <= pow2 (ulp_exponent a + 53).
Proof.
  intros Ha. unfold round_pos.
  destruct (round_pos_significand a Ha) as [_ H].
  rewrite Z.add_comm, pow2_add, <- (pow2_inject 53) by lia.
  apply Qmult_le_compat_r; [|apply Qlt_le_weak, pow2_pos].
  now rewrite <- Zle_Qle.
Qed.

Lemma round_pos_ge_bottom (a : Q) :
  0 < a -> (-1074 <= binade a - 52)%Z ->
  pow2 (ulp_exponent a + 52) <= round_pos a.
Proof.
  intros Ha Hn. unfold round_pos.
  rewrite Z.add_comm, pow2_add, <- (pow2_inject 52) by lia.
  apply Qmult_le_compat_r; [|apply Qlt_le_weak, pow2_pos].
  rewrite <- Zle_Qle.
  rewrite <- (py_round_inject_Z (2 ^ 52)). apply py_round_mono.
  now apply scaled_ge.
Qed.

Lemma round_pos_mono (a b : Q) :
  0 < a -> a <= b -> round_pos a <= round_pos b.
Proof.
  intros Ha Hab. assert (Hb : 0 < b) by lra.
  pose proof (binade_mono a b Ha Hab) as Hbin.
  destruct (Z.eq_dec (ulp_exponent a) (ulp_exponent b)) as [E|N].
  - unfold round_pos. rewrite E.
    apply Qmult_le_compat_r; [|apply Qlt_le_weak, pow2_pos].
    rewrite <- Zle_Qle. apply py_round_mono.
    apply Qmult_le_compat_r; [exact Hab|].
    apply Qlt_le_weak, Qinv_lt_0_compat, pow2_pos.
  - assert (Hlt : (ulp_exponent a < ulp_exponent b)%Z)
      by (unfold ulp_exponent in *; lia).
    assert (Hn : (-1074 <= binade b - 52)%Z)
      by (unfold ulp_exponent in *; lia).
    apply Qle_trans with (pow2 (ulp_exponent a + 53));
      [now apply round_pos_le_top|].
    apply Qle_trans with (pow2 (ulp_exponent b + 52));
      [apply pow2_le; lia|now apply round_pos_ge_bottom].
Qed.

Lemma round_pos_comp (a a' : Q) :
  0 < a -> a == a' -> round_pos a == round_pos a'.
Proof.
  intros Ha E. unfold round_pos, ulp_exponent.
  rewrite <- (binade_comp a a' Ha E).
  rewrite (py_round_comp (a / pow2 (Z.max (binade a - 52) (-1074)))
             (a' / pow2 (Z.max (binade a - 52) (-1074))));
    [reflexivity|].
  unfold Qdiv. apply Qmult_comp; [exact E|reflexivity].
Qed.

Lemma fl_comp (x y : Q) : x == y -> fl x == fl y.
Proof.
  intros E. unfold fl.
  rewrite (Qcompare_comp x y E 0 0 (Qeq_refl 0)).
  destruct (Qcompare_spec y 0) as [H|H|H]; [reflexivity| |].
  - apply Qopp_comp. apply round_pos_comp; [lra|now rewrite E].
  - apply round_pos_comp; [lra|exact E].
Qed.

Lemma fl_zero : fl 0 == 0.
Proof. reflexivity. Qed.

(** Rounding is monotone. *)
Lemma fl_mono (x y : Q) : x <= y -> fl x <= fl y.
Proof.
  intros Hxy. unfold fl.
  destruct (Qcompare_spec x 0) as [Hx|Hx|Hx];
    destruct (Qcompare_spec y 0) as [Hy|Hy|Hy]; try lra.
  - apply round_pos_nonneg. exact Hy.
  - pose proof (round_pos_nonneg (- x) ltac:(lra)). lra.
  - pose proof (round_pos_mono (- y) (- x) ltac:(lra) ltac:(lra)). lra.
  - pose proof (round_pos_nonneg (- x) ltac:(lra)).
    pose proof (round_pos_nonneg y Hy). lra.
  - now apply round_pos_mono.
Qed.

(** A number with a 53-bit significand and an exponent in range is its
    own rounding. *)
Lemma round_pos_representable (m e : Z) :
  (0 < m <= 2 ^ 53)%Z -> (-1074 <= e)%Z ->
  round_pos (inject_Z m * pow2 e) == inject_Z m * pow2 e.
Proof.
  intros Hm He.
  pose proof (Z.log2_spec m ltac:(lia)) as [Hl1 Hl2].
  set (l := Z.log2 m) in *.
  assert (Hl0 : (0 <= l)%Z) by apply Z.log2_nonneg.
  assert (Hl53 : (l <= 53)%Z).
  { apply Z.pow_le_mono_r_iff with 2%Z; lia. }
  assert (Hbin : binade (inject_Z m * pow2 e) = (l + e)%Z).
  { apply binade_unique.
    - rewrite pow2_add. apply Qmult_le_compat_r;
        [|apply Qlt_le_weak, pow2_pos].
      rewrite <- pow2_inject by assumption. now rewrite <- Zle_Qle.
    - replace (l + e + 1)%Z with ((l + 1) + e)%Z by lia.
      rewrite pow2_add. apply Qmult_lt_compat_r; [apply pow2_pos|].
      rewrite <- pow2_inject by lia. rewrite <- Zlt_Qlt.
      replace (l + 1)%Z with (Z.succ l) by lia. exact Hl2. }
  unfold round_pos, ulp_exponent. rewrite Hbin.
  set (e' := Z.max (l + e - 52) (-1074)).
  assert (Hk : exists k, inject_Z m * pow2 e == inject_Z k * pow2 e').
  { destruct (Z.le_gt_cases l 52) as [Hle|Hgt].
    - exists (m * 2 ^ (e - e'))%Z.
      assert (He' : (e' <= e)%Z) by (unfold e'; lia).
      rewrite inject_Z_mult, pow2_inject by lia.
      rewrite <- Qmult_assoc, <- pow2_add.
      replace (e - e' + e')%Z with e by lia. reflexivity.
    - assert (El : l = 53%Z) by lia.
      assert (Em : m = (2 ^ 53)%Z).
      { rewrite El in Hl1. lia. }
      exists (2 ^ 52)%Z.
      assert (He' : e' = (e + 1)%Z) by (unfold e'; lia).
      rewrite He', Em, !pow2_inject by lia.
      rewrite <- !pow2_add. apply Qpower_comp;
        [reflexivity|lia]. }
  destruct Hk as [k Ek].
  rewrite (py_round_comp _ (inject_Z k)).
  - rewrite py_round_inject_Z. symmetry. exact Ek.
  - rewrite Ek. field.
    intros H0. pose proof (pow2_pos e'). lra.
Qed.

(** Rounding a rounded value changes nothing. *)
Lemma fl_idem (x : Q) : fl (fl x) == fl x.
Proof.
  assert (Hpos : forall a, 0 < a -> fl (round_pos a) == round_pos a).
  { intros a Ha.
    destruct (round_pos_significand a Ha) as [H0 H53].
    destruct (Z.eq_dec (py_round (a / pow2 (ulp_exponent a))) 0) as [E|N].
    - assert (Ez : round_pos a == 0).
      { unfold round_pos. rewrite E. ring. }
      rewrite (fl_comp _ 0 Ez). rewrite Ez. reflexivity.
    - assert (Hgt : 0 < round_pos a).
      { unfold round_pos. apply Qmult_lt_0_compat; [|apply pow2_pos].
        change 0 with (inject_Z 0). rewrite <- Zlt_Qlt. lia. }
      unfold fl at 1.
      destruct (Qcompare_spec (round_pos a) 0) as [H|H|H]; try lra.
      unfold round_pos at 1 3.
      apply round_pos_representable; [lia|unfold ulp_exponent; lia]. }
  unfold fl at 2 3.
  destruct (Qcompare_spec x 0) as [Hx|Hx|Hx].
  - reflexivity.
  - assert (Ha : 0 < - x) by lra.
    pose proof (round_pos_nonneg (- x) Ha) as Hnn.
    pose proof (Hpos (- x) Ha) as Hfix.
    destruct (Qeq_dec (round_pos (- x)) 0) as [Ez|Nz].
    + assert (Ez' : - round_pos (- x) == 0) by lra.
      rewrite (fl_comp _ 0 Ez'). rewrite Ez'. reflexivity.
    + unfold fl.
      destruct (Qcompare_spec (- round_pos (- x)) 0) as [H|H|H]; try lra.
      apply Qopp_comp.
      rewrite (round_pos_comp (- - round_pos (- x)) (round_pos (- x)));
        [|lra|ring].
      unfold fl in Hfix.
      destruct (Qcompare_spec (round_pos (- x)) 0) as [H'|H'|H']; lra.
  - apply Hpos. exact Hx.
Qed.

Lemma fl_nonneg (x : Q) : 0 <= x -> 0 <= fl x.
Proof. intros H. rewrite <- fl_zero. now apply fl_mono. Qed.

(** Integers of at most 53 bits are binary64 numbers. *)
Lemma fl_inject_Z (n : Z) :
  (Z.abs n <= 2 ^ 53)%Z -> fl (inject_Z n) == inject_Z n.
Proof.
  intros Hn. unfold fl.
  destruct (Qcompare_spec (inject_Z n) 0) as [H|H|H].
  - now rewrite H.
  - change 0 with (inject_Z 0) in H. rewrite <- Zlt_Qlt in H.
    rewrite <- inject_Z_opp.
    rewrite (round_pos_comp _ (inject_Z (- n) * pow2 0));
      [|change 0 with (inject_Z 0); rewrite <- Zlt_Qlt; lia
       |change (pow2 0) with 1; ring].
    rewrite round_pos_representable by lia.
    rewrite inject_Z_opp. change (pow2 0) with 1. ring.
  - change 0 with (inject_Z 0) in H. rewrite <- Zlt_Qlt in H.
    rewrite (round_pos_comp _ (inject_Z n * pow2 0));
      [|change 0 with (inject_Z 0); rewrite <- Zlt_Qlt; lia
       |change (pow2 0) with 1; ring].
    rewrite round_pos_representable by lia.
    change (pow2 0) with 1. ring.
Qed.

(** [fl x] is nearest to [x]: it is at most half a unit in the last place
    away. *)
Lemma round_pos_nearest (a : Q) :
  Qabs (round_pos a - a) <= (1 # 2) * pow2 (ulp_exponent a).
Proof.
  unfold round_pos. cbv zeta.
  set (p := pow2 (ulp_exponent a)).
  assert (Hp : 0 < p) by apply pow2_pos.
  set (y := a / p).
  assert (E : inject_Z (py_round y) * p - a
              == (inject_Z (py_round y) - y) * p)
    by (unfold y; field; lra).
  rewrite E, Qabs_Qmult, (Qabs_pos p) by lra.
  apply Qmult_le_compat_r; [apply py_round_nearest|lra].
Qed.

Lemma fl_nearest (x : Q) :
  Qabs (fl x - x) <= (1 # 2) * pow2 (ulp_exponent (Qabs x)).
Proof.
  unfold fl. destruct (Qcompare_spec x 0) as [H|H|H].
  - assert (E : 0 - x == 0) by lra. rewrite E. simpl Qabs at 1.
    pose proof (pow2_pos (ulp_exponent (Qabs x))). lra.
  - assert (E : - round_pos (- x) - x == - (round_pos (- x) - - x)) by ring.
    rewrite E, Qabs_opp.
    assert (Ea : Qabs x == - x) by (apply Qabs_neg; lra).
    assert (Hpos : 0 < Qabs x) by lra.
    unfold ulp_exponent at 1. rewrite (binade_comp _ _ Hpos Ea).
    apply round_pos_nearest.
  - assert (Ea : Qabs x == x) by (apply Qabs_pos; lra).
    assert (Hpos : 0 < Qabs x) by lra.
    unfold ulp_exponent at 1. rewrite (binade_comp _ _ Hpos Ea).
    apply round_pos_nearest.
Qed.

(** The binary64 number written [0.1]; a tie goes to the even
    significand; the smallest positive number is [2 ^ -1074]. *)
Example fl_values :
  fl (1 # 10) == 3602879701896397 # 36028797018963968
  /\ fl (inject_Z (2 ^ 53 + 1)) == inject_Z (2 ^ 53)
  /\ fl (inject_Z (2 ^ 53 + 3)) == inject_Z (2 ^ 53 + 4)
  /\ fl (pow2 (-1074)) == pow2 (-1074)
  /\ fl ((1 # 2) * pow2 (-1074)) == 0
  /\ fl (- (11 # 10)) == - fl (11 # 10).
Proof. repeat split; vm_compute; reflexivity. Qed.

End Binary64Facts.

(** Rounding to binary64 is a rounding. *)
Lemma fl_rounding : rounding Binary64.fl.
Proof.
  split; [exact fl_mono|]. split; [exact fl_idem|exact fl_zero].
Qed.

Section RoundingFacts.
Variable rnd : Q -> Q.
Hypothesis Hrnd : rounding rnd.

Lemma rounding_mono (x y : Q) : x <= y -> rnd x <= rnd y.
Proof. apply Hrnd. Qed.

Lemma rounding_comp (x y : Q) : x == y -> rnd x == rnd y.
Proof.
  intros E. apply Qle_antisym; apply rounding_mono; rewrite E; apply Qle_refl.
Qed.


Lemma rounding_nonpos (x : Q) : x <= 0 -> rnd x <= 0.
Proof.
  intros H. destruct Hrnd as [_ [_ H0]]. rewrite <- H0.
  now apply rounding_mono.
Qed.


(** A whole number of the format is a lower and an upper bound of the
    rounded values on its two sides. *)
Lemma float_round_ge_Z (n : nat) (x : Q) (k : Z) :
  rnd (inject_Z k) == inject_Z k ->
  inject_Z k <= x -> inject_Z k <= float_round rnd n x.
Proof.
  intros Hk H. rewrite <- Hk at 1. unfold float_round.
  apply rounding_mono. rewrite <- (py_round_to_inject_Z n k).
  now apply py_round_to_mono.
Qed.

Lemma float_round_le_Z (n : nat) (x : Q) (k : Z) :
  rnd (inject_Z k) == inject_Z k ->
  x <= inject_Z k -> float_round rnd n x <= inject_Z k.
Proof.
  intros Hk H. rewrite <- Hk. unfold float_round.
  apply rounding_mono. rewrite <- (py_round_to_inject_Z n k).
  now apply py_round_to_mono.
Qed.

End RoundingFacts.

(** ** Sorting and loops *)

Section SortFacts.
Context {A : Type} (before : A -> A -> bool).

Lemma insert_sorted_perm (x : A) (l : list A) :
  Permutation (x :: l) (insert_sorted before x l).
Proof.
  induction l as [|y ys IH]; simpl; [reflexivity|].
  destruct (before y x); [|reflexivity].
  rewrite perm_swap. now constructor.
Qed.

Lemma sort_by_perm (l : list A) : Permutation l (sort_by before l).
Proof.
  induction l as [|x l IH]; simpl; [constructor|].
  rewrite <- insert_sorted_perm. now constructor.
Qed.

Lemma sort_by_In (l : list A) (x : A) : In x (sort_by before l) <-> In x l.
Proof.
  split; apply Permutation_in; [symmetry|]; apply sort_by_perm.
Qed.

Lemma sort_by_nil (l : list A) : sort_by before l = [] -> l = [].
Proof.
  intros E. apply Permutation_nil. rewrite <- E. symmetry. apply sort_by_perm.
Qed.

(** The head of the sorted list: no element has to come strictly before
    it. *)
Lemma sort_by_head (key : A -> Z) (l : list A) (h : A) :
  (forall y x, before y x = (key y <? key x)%Z) ->
  hd_error (sort_by before l) = Some h ->
  In h l /\ forall x, In x l -> (key h <= key x)%Z.
Proof.
  intros Hb. revert h.
  induction l as [|a l IH]; intros h; simpl; [discriminate|].
  destruct (sort_by before l) as [|y ys] eqn:E; simpl.
  - apply sort_by_nil in E. subst l.
    intros [= <-]. split; [now left|]. intros x [<-|[]]. lia.
  - destruct (IH y eq_refl) as [Hy Hmin].
    rewrite Hb. destruct (Z.ltb_spec (key y) (key a)); simpl; intros [= <-].
    + split; [now right|]. intros x [<-|Hx]; [lia|now apply Hmin].
    + split; [now left|]. intros x [<-|Hx]; [lia|].
      specialize (Hmin x Hx). lia.
Qed.

End SortFacts.

Lemma for_each_In {A B} (body : A -> result (option B)) (l : list A)
    (rows : list B) (r : B) :
  for_each body l = Ok rows -> In r rows ->
  exists a, In a l /\ body a = Ok (Some r).
Proof.
  revert rows. induction l as [|a l IH]; simpl; intros rows.
  - intros [= <-] [].
  - destruct (body a) as [o|] eqn:Ea; simpl; [|discriminate].
    destruct (for_each body l) as [rs|]; simpl; [|discriminate].
    intros [= <-] Hin.
    destruct o as [b|].
    + destruct Hin as [<-|Hin].
      * exists a. split; [now left|assumption].
      * destruct (IH rs eq_refl Hin) as [a' [Ha' Hb']].
        exists a'. split; [now right|assumption].
    + destruct (IH rs eq_refl Hin) as [a' [Ha' Hb']].
      exists a'. split; [now right|assumption].
Qed.

Lemma key_injective {A} (key : A -> Z) (l : list A) (a b : A) :
  NoDup (map key l) -> In a l -> In b l -> key a = key b -> a = b.
Proof.
  induction l as [|x l IH]; simpl; [intros _ []|].
  intros Hnd Ha Hb E. inversion Hnd as [|? ? Hnot Hnd']; subst.
  destruct Ha as [<-|Ha], Hb as [<-|Hb]; auto.
  - exfalso. apply Hnot. rewrite E. now apply in_map.
  - exfalso. apply Hnot. rewrite <- E. now apply in_map.
Qed.

Lemma Qsum_perm (l l' : list Q) : Permutation l l' -> Qsum l == Qsum l'.
Proof.
  induction 1; simpl; try lra.
Qed.

(** ** ABC classification *)

Section AbcFacts.
Import Abc.

Lemma percentage_nonneg (total : Q) (p : entry) :
  0 <= e_metric_value p -> 0 <= percentage total p.
Proof.
  intros Hp. unfold percentage.
  destruct (Qlt_bool 0 total) eqn:E; [|lra].
  apply Qlt_bool_iff in E.
  apply Qmult_le_0_compat; [|lra].
  apply Qle_shift_div_l; [assumption|lra].
Qed.

Lemma classify_lower_bound (total : Q) (l : list entry) :
  Forall (fun p => 0 <= e_metric_value p) l ->
  forall cumulative,
    Forall (fun r => py_round_to 2 cumulative <= cumulative_percentage r)
      (classify total cumulative l).
Proof.
  induction 1 as [|p l Hp Hl IH]; intros c; simpl; constructor; simpl.
  - apply py_round_to_mono. pose proof (percentage_nonneg total p Hp). lra.
  - eapply Forall_impl; [|apply IH].
    intros r Hr. simpl in Hr.
    eapply Qle_trans; [|exact Hr].
    apply py_round_to_mono. pose proof (percentage_nonneg total p Hp). lra.
Qed.

Lemma classify_sorted (total : Q) (l : list entry) :
  Forall (fun p => 0 <= e_metric_value p) l ->
  forall cumulative,
    StronglySorted Qle
      (map cumulative_percentage (classify total cumulative l)).
Proof.
  induction 1 as [|p l Hp Hl IH]; intros c; simpl; constructor.
  - apply IH.
  - apply Forall_map. simpl. apply classify_lower_bound, Hl.
Qed.



Lemma sort_desc_perm (l : list entry) : Permutation l (sort_desc l).
Proof. apply sort_by_perm. Qed.


Lemma get_abc_analysis_classification (db : Database) (now : datetime)
    (period metric : string) :
  get_abc_analysis db now period metric
  = classification_of metric (products_data db (cutoff_date now period)).
Proof.
  unfold get_abc_analysis.
  destruct (products_data db (cutoff_date now period)); reflexivity.
Qed.

Lemma class_of_A (c : Q) : c <= 80 -> class_of c = A.
Proof.
  intros H. unfold class_of. apply Qle_bool_iff in H. now rewrite H.
Qed.






Section AbcFloatFacts.
Variable rnd : Q -> Q.
Hypothesis Hrnd : rounding rnd.






End AbcFloatFacts.



(** Two products sold at cost have a profit of 0 in exact arithmetic.  In
    binary64 the first profit comes out above 0 and the second below 0:
    the cumulative percentage goes from 114.29 down to 100. *)
Example abc_at_cost_binary64 :
  Forall (fun r => metric_of "profit" r == 0)
    (products_data abc_at_cost_db (cutoff_date noon "month"))
  /\ (exists m1 m2,
        map (AbcFloat.metric_of Binary64.fl "profit")
          (products_data abc_at_cost_db (cutoff_date noon "month"))
        = [m1; m2]
        /\ 0 < m1 /\ m2 < 0)
  /\ Forall2 Qeq
       (map cumulative_percentage
          (AbcFloat.get_abc_analysis Binary64.fl abc_at_cost_db noon
             "month" "profit"))
       [Binary64.fl (11429 # 100); 100].
Proof.
  split; [vm_compute; repeat constructor|].
  split.
  - eexists. eexists. split; [vm_compute; reflexivity|].
    split; reflexivity.
  - vm_compute. repeat constructor.
Qed.

(** The counterexamples to the monotonicity and to the last value are the
    same in binary64: profits 10 and -5 give 200 then 100, and a single
    product sold below cost ends at 0. *)
Example abc_loss_binary64 :
  Forall2 Qeq
    (map cumulative_percentage
       (AbcFloat.get_abc_analysis Binary64.fl abc_loss_db noon "month"
          "profit"))
    [200; 100]
  /\ Forall2 Qeq
       (map cumulative_percentage
          (AbcFloat.get_abc_analysis Binary64.fl abc_single_loss_db noon
             "month" "profit"))
       [0].
Proof. split; vm_compute; repeat constructor. Qed.


End AbcFacts.

(** ** Stock rupture and stockout risk *)

Lemma last_outbound_Some (db : Database) (pid : Z) (m : StockMovement.t) :
  Rupture.last_outbound db pid = Some m ->
  In m (stock_movements db)
  /\ StockMovement.product_id m = pid
  /\ StockMovement.stock_after m == 0
  /\ forall m', In m' (stock_movements db) ->
                StockMovement.product_id m' = pid ->
                StockMovement.stock_after m' == 0 ->
                (StockMovement.movement_date m'
                 <= StockMovement.movement_date m)%Z.
Proof.
  unfold Rupture.last_outbound, movements_of. intros H.
  apply (sort_by_head _ (fun m => (- StockMovement.movement_date m)%Z)) in H.
  - destruct H as [Hin Hmax].
    apply filter_In in Hin as [Hin Hz].
    apply filter_In in Hin as [Hin Hp].
    apply Qeq_bool_iff in Hz. apply Z.eqb_eq in Hp.
    repeat split; auto.
    intros m' Hin' Hp' Hz'.
    assert (Hm' : In m'
      (filter (fun m => Qeq_bool (StockMovement.stock_after m) 0)
         (filter (fun m => (StockMovement.product_id m =? pid)%Z)
            (stock_movements db)))).
    { apply filter_In. split; [|now apply Qeq_bool_iff].
      apply filter_In. split; [assumption|now apply Z.eqb_eq]. }
    specialize (Hmax m' Hm'). simpl in Hmax. lia.
  - intros y x.
    destruct (Z.ltb_spec (StockMovement.movement_date x)
                (StockMovement.movement_date y));
      destruct (Z.ltb_spec (- StockMovement.movement_date y)
                  (- StockMovement.movement_date x)); auto; lia.
Qed.

Lemma last_outbound_None (db : Database) (pid : Z) :
  Rupture.last_outbound db pid = None ->
  forall m, In m (stock_movements db) ->
            StockMovement.product_id m = pid ->
            ~ StockMovement.stock_after m == 0.
Proof.
  unfold Rupture.last_outbound, movements_of. intros H m Hin Hp Hz.
  destruct (sort_by _ _) as [|h t] eqn:E; [|discriminate].
  apply sort_by_nil in E.
  assert (Hm : In m
    (filter (fun m => Qeq_bool (StockMovement.stock_after m) 0)
       (filter (fun m => (StockMovement.product_id m =? pid)%Z)
          (stock_movements db)))).
  { apply filter_In. split; [|now apply Qeq_bool_iff].
    apply filter_In. split; [assumption|now apply Z.eqb_eq]. }
  rewrite E in Hm. exact Hm.
Qed.

(** Where a row of the rupture report comes from. *)
Lemma rupture_row_origin (db : Database) (now : datetime) (days_lookback : Z)
    (rows : list Rupture.row) (r : Rupture.row) :
  Rupture.detect_stock_rupture db now days_lookback = Ok rows ->
  In r rows ->
  exists p daily_demand,
    In p (products db)
    /\ Rupture.product_id r = Product.id p
    /\ Product.current_stock p <= 0
    /\ Rupture.days_out_of_stock r = Rupture.days_out db now (Product.id p)
    /\ Rupture.lost_revenue_estimate r
       = py_round_to 2
           (inject_Z (Rupture.days_out db now (Product.id p))
            * daily_demand * Product.sale_price p).
Proof.
  unfold Rupture.detect_stock_rupture. intros Hrun Hin.
  destruct (for_each_In _ _ _ _ Hrun Hin) as [q [Hq Hrow]].
  unfold Rupture.query in Hq.
  apply sort_by_In in Hq. apply in_flat_map in Hq as [p [Hp Hq]].
  destruct (Qle_bool (Product.current_stock p) 0) eqn:Hstock; [|destruct Hq].
  apply Qle_bool_iff in Hstock.
  destruct (paid_sales_since db (Product.id p) _) as [|s ss]; [destruct Hq|].
  destruct Hq as [<-|[]].
  unfold Rupture.row_of in Hrow. cbn [Rupture.q_product] in Hrow.
  destruct (div_days _ days_lookback) as [daily|]; simpl in Hrow;
    [|discriminate].
  injection Hrow as <-.
  exists p, daily. simpl. repeat split; auto.
Qed.

(** Where a row of the stockout-risk report comes from. *)
Lemma risk_row_origin (db : Database) (now : datetime)
    (days_forecast days_history min_days_threshold : Z)
    (rows : list Risk.row) (r : Risk.row) :
  Risk.detect_imminent_stockout_risk db now days_forecast days_history
    min_days_threshold = Ok rows ->
  In r rows ->
  exists p,
    In p (products db)
    /\ Product.is_active p = true
    /\ 0 < Product.current_stock p
    /\ Risk.row_of db now days_forecast days_history min_days_threshold p
       = Ok (Some r).
Proof.
  unfold Risk.detect_imminent_stockout_risk. intros Hrun Hin.
  destruct (for_each _ _) as [rs|] eqn:E; simpl in Hrun; [|discriminate].
  injection Hrun as <-.
  apply sort_by_In in Hin.
  destruct (for_each_In _ _ _ _ E Hin) as [p [Hp Hrow]].
  apply filter_In in Hp as [Hp Hf].
  apply andb_true_iff in Hf as [Ha Hs]. apply Qlt_bool_iff in Hs.
  exists p. auto.
Qed.

Lemma risk_row_of_fields (db : Database) (now : datetime)
    (days_forecast days_history min_days_threshold : Z)
    (p : Product.t) (r : Risk.row) :
  Risk.row_of db now days_forecast days_history min_days_threshold p
  = Ok (Some r) ->
  exists avg_daily_sales,
    div_days
      (sum_quantity
         (paid_sales_since db (Product.id p)
            (date_of (minus_days now days_history))))
      days_history = Ok avg_daily_sales
    /\ 0 < avg_daily_sales
    /\ Risk.product_id r = Product.id p
    /\ Risk.risk_level r
       = Risk.risk_level_of (Product.current_stock p / avg_daily_sales)
           (Risk.pending_orders r).
Proof.
  unfold Risk.row_of. intros H.
  destruct (Qeq_bool _ 0); [discriminate|].
  destruct (div_days _ days_history) as [avg|]; simpl in H; [|discriminate].
  destruct (Qlt_bool 0 avg) eqn:Havg; simpl in H; [|discriminate].
  apply Qlt_bool_iff in Havg.
  destruct (Qlt_bool (inject_Z min_days_threshold) _); [discriminate|].
  injection H as <-.
  exists avg. simpl. auto.
Qed.

(** C2.  On a database whose product ids are a key, no product id is both
    in the output of [detect_stock_rupture] and in the output of
    [detect_imminent_stockout_risk], whatever the parameters and the clock
    readings of the two runs. *)
Theorem rupture_risk_exclusive (db : Database) (now now' : datetime)
    (days_lookback days_forecast days_history min_days_threshold : Z)
    (ruptures : list Rupture.row) (risks : list Risk.row) :
  product_key db ->
  Rupture.detect_stock_rupture db now days_lookback = Ok ruptures ->
  Risk.detect_imminent_stockout_risk db now' days_forecast days_history
    min_days_threshold = Ok risks ->
  forall pid,
    ~ (In pid (map Rupture.product_id ruptures)
       /\ In pid (map Risk.product_id risks)).
Proof.
  intros Hkey Hrup Hrisk pid [H1 H2].
  apply in_map_iff in H1 as [r [Er Hr]].
  apply in_map_iff in H2 as [k [Ek Hk]].
  destruct (rupture_row_origin _ _ _ _ _ Hrup Hr)
    as [p [_ [Hp [Eid [Hle _]]]]].
  destruct (risk_row_origin _ _ _ _ _ _ _ Hrisk Hk)
    as [p' [Hp' [_ [Hlt Hrow]]]].
  destruct (risk_row_of_fields _ _ _ _ _ _ _ Hrow) as [_ [_ [_ [Eid' _]]]].
  assert (E : p = p').
  { apply (key_injective Product.id (products db)); auto. congruence. }
  subst p'. lra.
Qed.

Lemma rupture_risk_exclusive_witness :
  product_key rupture_negative_db
  /\ (exists ruptures risks,
        Rupture.detect_stock_rupture rupture_negative_db noon 14 = Ok ruptures
        /\ Risk.detect_imminent_stockout_risk rupture_negative_db noon 30 90 7
           = Ok risks
        /\ map Rupture.product_id ruptures = [1%Z]
        /\ map Risk.product_id risks = [2%Z]
        /\ forall pid,
             ~ (In pid (map Rupture.product_id ruptures)
                /\ In pid (map Risk.product_id risks))).
Proof.
  assert (Hkey : product_key rupture_negative_db).
  { unfold product_key. simpl.
    repeat constructor; simpl; intuition discriminate. }
  split; [exact Hkey|].
  destruct (Rupture.detect_stock_rupture rupture_negative_db noon 14)
    as [ruptures|] eqn:E1; [|vm_compute in E1; discriminate].
  destruct (Risk.detect_imminent_stockout_risk rupture_negative_db noon 30 90 7)
    as [risks|] eqn:E2; [|vm_compute in E2; discriminate].
  exists ruptures, risks.
  repeat split.
  - vm_compute in E1. injection E1 as <-. reflexivity.
  - vm_compute in E2. injection E2 as <-. reflexivity.
  - exact (rupture_risk_exclusive rupture_negative_db noon noon 14 30 90 7
             ruptures risks Hkey E1 E2).
Defined.

Lemma risk_level_first_match (d : Q) (info : Risk.pending_orders_info) :
  Risk.first_match Risk.spec_rules d (Risk.is_delayed info)
    (Risk.is_sufficient info)
  = Some (Risk.risk_level_of d info).
Proof.
  unfold Risk.risk_level_of. simpl.
  destruct (Qle_bool d 3), (Risk.is_delayed info), (Risk.is_sufficient info);
    reflexivity.
Qed.

(** Where a row of the stockout-risk report comes from, in floating
    point. *)
Lemma risk_float_row_origin (rnd : Q -> Q) (db : Database) (now : datetime)
    (days_forecast days_history min_days_threshold : Z)
    (rows : list Risk.row) (r : Risk.row) :
  RiskFloat.detect_imminent_stockout_risk rnd db now days_forecast
    days_history min_days_threshold = Ok rows ->
  In r rows ->
  exists p,
    In p (products db)
    /\ Product.is_active p = true
    /\ 0 < Product.current_stock p
    /\ RiskFloat.row_of rnd db now days_forecast days_history
         min_days_threshold p = Ok (Some r).
Proof.
  unfold RiskFloat.detect_imminent_stockout_risk. intros Hrun Hin.
  destruct (for_each _ _) as [rs|] eqn:E; simpl in Hrun; [|discriminate].
  injection Hrun as <-.
  apply sort_by_In in Hin.
  destruct (for_each_In _ _ _ _ E Hin) as [p [Hp Hrow]].
  apply filter_In in Hp as [Hp Hf].
  apply andb_true_iff in Hf as [Ha Hs]. apply Qlt_bool_iff in Hs.
  exists p. auto.
Qed.

Lemma risk_float_row_of_fields (rnd : Q -> Q) (db : Database)
    (now : datetime) (days_forecast days_history min_days_threshold : Z)
    (p : Product.t) (r : Risk.row) :
  RiskFloat.row_of rnd db now days_forecast days_history min_days_threshold p
  = Ok (Some r) ->
  exists avg_daily_sales,
    RiskFloat.avg_daily_sales_of rnd db now days_history p
    = Ok avg_daily_sales
    /\ 0 < avg_daily_sales
    /\ rnd (rnd (Product.current_stock p) / avg_daily_sales)
       <= inject_Z min_days_threshold
    /\ Risk.product_id r = Product.id p
    /\ Risk.current_stock r = float_round rnd 2 (rnd (Product.current_stock p))
    /\ Risk.avg_daily_sales r = float_round rnd 2 avg_daily_sales
    /\ Risk.days_until_stockout r
       = float_round rnd 1
           (rnd (rnd (Product.current_stock p) / avg_daily_sales))
    /\ Risk.forecasted_demand r
       = float_round rnd 2
           (rnd (avg_daily_sales * rnd (inject_Z days_forecast)))
    /\ Risk.count (Risk.pending_orders r)
       = Z.of_nat (List.length (pending_orders_of db (Product.id p)))
    /\ Risk.unit_cost r = rnd (Product.cost_price p)
    /\ Risk.risk_level r
       = Risk.risk_level_of
           (rnd (rnd (Product.current_stock p) / avg_daily_sales))
           (Risk.pending_orders r).
Proof.
  unfold RiskFloat.row_of, RiskFloat.avg_daily_sales_of. intros H.
  destruct (Qeq_bool _ 0); [discriminate|].
  destruct (float_div_days rnd _ days_history) as [avg|]; simpl in H;
    [|discriminate].
  destruct (Qlt_bool 0 avg) eqn:Havg; simpl in H; [|discriminate].
  apply Qlt_bool_iff in Havg.
  destruct (Qlt_bool (inject_Z min_days_threshold) _) eqn:Hd; [discriminate|].
  apply Qlt_bool_false_iff in Hd.
  injection H as <-.
  exists avg.
  cbn [Risk.product_id Risk.current_stock Risk.avg_daily_sales
       Risk.days_until_stockout Risk.forecasted_demand Risk.pending_orders
       Risk.unit_cost Risk.risk_level].
  repeat split; auto.
  unfold RiskFloat.pending_info.
  destruct (pending_orders_of db (Product.id p)); reflexivity.
Qed.

(** In exact arithmetic the loop in floating point is the loop of the
    module [Risk]. *)
Lemma risk_float_exact :
  RiskFloat.detect_imminent_stockout_risk (fun x => x)
  = Risk.detect_imminent_stockout_risk.
Proof. reflexivity. Qed.

(** C3.  For every row reported by [detect_imminent_stockout_risk], with
    [days_until_stockout] the float quotient of the product's stock by its
    average daily sales (the value the report shows rounded to one
    decimal), the risk level is the one given by the four rules tried in
    order (CRITICAL, HIGH, MEDIUM, LOW); this holds for every rounding of
    the float operations, binary64 and the exact one included.  In the
    scenario with stock 20, 5 sales a day, a 30-day forecast and one
    PENDING order of 140 units placed two days ago, computed in binary64,
    the product is reported with forecast demand 150, 4 days until
    stockout, [is_sufficient] true and risk level LOW. *)
Theorem risk_classification :
  (forall (rnd : Q -> Q) (db : Database) (now : datetime)
          (days_forecast days_history min_days_threshold : Z)
          (rows : list Risk.row) (r : Risk.row),
      RiskFloat.detect_imminent_stockout_risk rnd db now days_forecast
        days_history min_days_threshold = Ok rows ->
      In r rows ->
      exists p avg_daily_sales,
        In p (products db)
        /\ Product.id p = Risk.product_id r
        /\ RiskFloat.avg_daily_sales_of rnd db now days_history p
           = Ok avg_daily_sales
        /\ let days_until_stockout :=
             rnd (rnd (Product.current_stock p) / avg_daily_sales) in
           Risk.days_until_stockout r
           = float_round rnd 1 days_until_stockout
           /\ Risk.first_match Risk.spec_rules days_until_stockout
                (Risk.is_delayed (Risk.pending_orders r))
                (Risk.is_sufficient (Risk.pending_orders r))
              = Some (Risk.risk_level r))
  /\ (exists r,
        RiskFloat.detect_imminent_stockout_risk Binary64.fl risk_scenario_db
          noon 30 90 7 = Ok [r]
        /\ Risk.current_stock r == 20
        /\ Risk.avg_daily_sales r == 5
        /\ Risk.forecasted_demand r == 150
        /\ Risk.total_quantity (Risk.pending_orders r) == 140
        /\ Risk.oldest_order_days (Risk.pending_orders r) = Some 2%Z
        /\ Risk.days_until_stockout r == 4
        /\ Risk.is_sufficient (Risk.pending_orders r) = true
        /\ Risk.risk_level r = Risk.LOW).
Proof.
  split.
  - intros rnd db now days_forecast days_history min_days_threshold rows r
      Hrun Hin.
    destruct (risk_float_row_origin _ _ _ _ _ _ _ _ Hrun Hin)
      as [p [Hp [_ [_ Hrow]]]].
    destruct (risk_float_row_of_fields _ _ _ _ _ _ _ _ Hrow)
      as [avg [Havg [_ [_ [Eid [_ [_ [Edays [_ [_ [_ Elevel]]]]]]]]]]].
    exists p, avg. cbv zeta. repeat split; auto.
    rewrite Elevel. apply risk_level_first_match.
  - destruct (RiskFloat.detect_imminent_stockout_risk Binary64.fl
                risk_scenario_db noon 30 90 7)
      as [rows|] eqn:E; vm_compute in E; [|discriminate].
    injection E as <-.
    eexists. split; [reflexivity|]. simpl. repeat split; reflexivity.
Qed.

Lemma risk_classification_witness :
  exists rows r p avg_daily_sales,
    RiskFloat.detect_imminent_stockout_risk Binary64.fl risk_boundary_db
      noon 30 90 7 = Ok rows
    /\ In r rows
    /\ In p (products risk_boundary_db)
    /\ Product.id p = Risk.product_id r
    /\ RiskFloat.avg_daily_sales_of Binary64.fl risk_boundary_db noon 90 p
       = Ok avg_daily_sales
    /\ Risk.first_match Risk.spec_rules
         (Binary64.fl
            (Binary64.fl (Product.current_stock p) / avg_daily_sales))
         (Risk.is_delayed (Risk.pending_orders r))
         (Risk.is_sufficient (Risk.pending_orders r))
       = Some (Risk.risk_level r).
Proof.
  destruct (RiskFloat.detect_imminent_stockout_risk Binary64.fl
              risk_boundary_db noon 30 90 7)
    as [rows|] eqn:E; [|vm_compute in E; discriminate E].
  destruct rows as [|r rows]; [vm_compute in E; discriminate E|].
  destruct (proj1 risk_classification Binary64.fl risk_boundary_db noon
              30%Z 90%Z 7%Z (r :: rows) r E (or_introl eq_refl))
    as [p [avg [Hp [Eid [Havg [_ Hlevel]]]]]].
  exists (r :: rows), r, p, avg.
  split; [reflexivity|]. split; [left; reflexivity|].
  split; [exact Hp|]. split; [exact Eid|]. split; [exact Havg|].
  exact Hlevel.
Defined.

(** The rules read the unrounded quotient: a product at 3.04 days is
    reported with [days_until_stockout] 3.0 and, having no pending order,
    is MEDIUM. *)
Example risk_level_reads_unrounded_days :
  exists r,
    RiskFloat.detect_imminent_stockout_risk Binary64.fl risk_rounding_db
      noon 30 90 7 = Ok [r]
    /\ Risk.days_until_stockout r == 3
    /\ Risk.is_sufficient (Risk.pending_orders r) = false
    /\ Risk.risk_level r = Risk.MEDIUM.
Proof.
  destruct (RiskFloat.detect_imminent_stockout_risk Binary64.fl
              risk_rounding_db noon 30 90 7)
    as [rows|] eqn:E; vm_compute in E; [|discriminate].
  injection E as <-.
  eexists. split; [reflexivity|]. simpl. repeat split; reflexivity.
Qed.

(** The quotient is a float quotient.  With 1.1 units in stock and 33
    units sold in 90 days, the stock lasts 3 days in exact arithmetic; the
    binary64 quotient is just above 3, so the product, which has no pending
    order, is MEDIUM and not CRITICAL, and it is reported with
    [days_until_stockout] 3.0. *)
Example risk_boundary_binary64 :
  (exists r,
      RiskFloat.detect_imminent_stockout_risk Binary64.fl risk_boundary_db
        noon 30 90 7 = Ok [r]
      /\ Risk.days_until_stockout r == 3
      /\ Risk.risk_level r = Risk.MEDIUM)
  /\ (exists r,
        RiskFloat.detect_imminent_stockout_risk (fun x => x)
          risk_boundary_db noon 30 90 7 = Ok [r]
        /\ Risk.days_until_stockout r == 3
        /\ Risk.risk_level r = Risk.CRITICAL)
  /\ 3 < Binary64.fl (Binary64.fl (11 # 10)
                      / Binary64.fl (Binary64.fl 33 / Binary64.fl 90)).
Proof.
  split; [|split].
  - destruct (RiskFloat.detect_imminent_stockout_risk Binary64.fl
                risk_boundary_db noon 30 90 7)
      as [rows|] eqn:E; vm_compute in E; [|discriminate].
    injection E as <-.
    eexists. split; [reflexivity|]. simpl. repeat split; reflexivity.
  - destruct (RiskFloat.detect_imminent_stockout_risk (fun x => x)
                risk_boundary_db noon 30 90 7)
      as [rows|] eqn:E; vm_compute in E; [|discriminate].
    injection E as <-.
    eexists. split; [reflexivity|]. simpl. repeat split; reflexivity.
  - vm_compute. reflexivity.
Qed.

(** C10.  For every row reported by [detect_stock_rupture]: either
    [days_out_of_stock] is the whole number of days between the clock
    reading and the latest movement of the product whose [stock_after] is
    0; or the product has no such movement, and then [days_out_of_stock]
    and [lost_revenue_estimate] are both 0.  A product whose stock went
    from 5 to -2, with PAID sales in the period, is reported with both
    equal to 0. *)
Theorem rupture_days_out_of_stock :
  (forall (db : Database) (now : datetime) (days_lookback : Z)
          (rows : list Rupture.row) (r : Rupture.row),
      Rupture.detect_stock_rupture db now days_lookback = Ok rows ->
      In r rows ->
      (exists m,
          In m (stock_movements db)
          /\ StockMovement.product_id m = Rupture.product_id r
          /\ StockMovement.stock_after m == 0
          /\ (forall m', In m' (stock_movements db) ->
                StockMovement.product_id m' = Rupture.product_id r ->
                StockMovement.stock_after m' == 0 ->
                (StockMovement.movement_date m'
                 <= StockMovement.movement_date m)%Z)
          /\ Rupture.days_out_of_stock r
             = days_between now (StockMovement.movement_date m))
      \/ ((forall m, In m (stock_movements db) ->
             StockMovement.product_id m = Rupture.product_id r ->
             ~ StockMovement.stock_after m == 0)
          /\ Rupture.days_out_of_stock r = 0%Z
          /\ Rupture.lost_revenue_estimate r == 0))
  /\ (exists r,
        Rupture.detect_stock_rupture rupture_negative_db noon 14 = Ok [r]
        /\ Rupture.current_stock r < 0
        /\ 0 < Rupture.total_quantity_sold r
        /\ Rupture.days_out_of_stock r = 0%Z
        /\ Rupture.lost_revenue_estimate r == 0).
Proof.
  split.
  - intros db now days_lookback rows r Hrun Hin.
    destruct (rupture_row_origin _ _ _ _ _ Hrun Hin)
      as [p [daily [Hp [Eid [_ [Edays Elost]]]]]].
    unfold Rupture.days_out in Edays, Elost.
    destruct (Rupture.last_outbound db (Product.id p)) as [m|] eqn:E.
    + left. exists m. rewrite Eid.
      destruct (last_outbound_Some _ _ _ E) as [H1 [H2 [H3 H4]]].
      repeat split; auto.
    + right. rewrite Eid. split; [|split].
      * apply last_outbound_None, E.
      * exact Edays.
      * rewrite Elost.
        transitivity (py_round_to 2 (inject_Z 0));
          [|apply (py_round_to_inject_Z 2 0)].
        apply py_round_to_comp. change (inject_Z 0) with 0. ring.
  - destruct (Rupture.detect_stock_rupture rupture_negative_db noon 14)
      as [rows|] eqn:E; vm_compute in E; [|discriminate].
    injection E as <-.
    eexists. split; [reflexivity|]. simpl. repeat split; reflexivity.
Qed.

Lemma rupture_days_out_of_stock_witness :
  exists rows r m,
    Rupture.detect_stock_rupture rupture_zero_db noon 14 = Ok rows
    /\ In r rows
    /\ In m (stock_movements rupture_zero_db)
    /\ StockMovement.stock_after m == 0
    /\ Rupture.days_out_of_stock r
       = days_between noon (StockMovement.movement_date m)
    /\ Rupture.days_out_of_stock r = 4%Z.
Proof.
  destruct (Rupture.detect_stock_rupture rupture_zero_db noon 14)
    as [rows|] eqn:E; [|vm_compute in E; discriminate].
  destruct rows as [|r rows]; [vm_compute in E; discriminate|].
  destruct (proj1 rupture_days_out_of_stock rupture_zero_db noon 14%Z
              (r :: rows) r E (or_introl eq_refl))
    as [[m [Hm [Hp [Hz [Hmax Hdays]]]]]|[_ [Hdays _]]].
  - exists (r :: rows), r, m.
    repeat split; auto; [now left|].
    vm_compute in E. injection E as <- _. reflexivity.
  - exfalso. vm_compute in E. injection E as <- _. discriminate Hdays.
Defined.

(** ** Availability issues *)

(** Every reported product has a sale order dated in the period, of
    whatever status. *)
Lemma availability_row_has_sale (db : Database) (now : datetime)
    (days_period : Z) (r : Availability.row) :
  In r (Availability.detect_availability_issues db now days_period) ->
  sales_since db (Availability.product_id r)
    (date_of (minus_days now days_period)) <> [].
Proof.
  unfold Availability.detect_availability_issues. intros Hin.
  apply sort_by_In in Hin. apply in_flat_map in Hin as [pid [Hpid Hr]].
  unfold Availability.products_with_sales in Hpid.
  apply nodup_In in Hpid. apply in_flat_map in Hpid as [p [Hp Hmap]].
  apply in_map_iff in Hmap as [s [Es Hs]].
  destruct (Availability.row_of db now days_period pid) as [r'|] eqn:Erow;
    [|destruct Hr].
  destruct Hr as [<-|[]].
  unfold Availability.row_of in Erow.
  destruct (Availability.product_by_id db pid) as [product|] eqn:Eprod;
    [|discriminate].
  apply find_some in Eprod as [_ Eid]. apply Z.eqb_eq in Eid.
  destruct (Availability.stockout_movements db pid _); [discriminate|].
  injection Erow as <-. simpl. rewrite Eid, <- Es.
  intros E. rewrite E in Hs. exact Hs.
Qed.

(** C4 at its failing input.  The only sale of product 1 in the last 90
    days is CANCELLED, so it has no PAID sale in the period; its stock
    reached 0 in the period; [detect_availability_issues] reports it. *)
Theorem availability_reports_product_without_paid_sale :
  paid_sales_since availability_cancelled_db 1 (date_of (minus_days noon 90))
  = []
  /\ map (fun io => SaleOrder.status (snd io))
       (sales_since availability_cancelled_db 1 (date_of (minus_days noon 90)))
     = [SaleOrder.CANCELLED]
  /\ map Availability.product_id
       (Availability.detect_availability_issues availability_cancelled_db
          noon 90)
     = [1%Z].
Proof.
  repeat split; reflexivity.
Qed.

(** ** Alert aggregation *)

(** C8.  The health score is 100 minus 15 for each critical alert and 5
    for each warning, floored at 0; it lies between 0 and 100; the status
    is EXCELLENT from 80, GOOD from 60, FAIR from 40 and POOR below. *)
Theorem health_score_bands (d : Alerts.detector_outputs) :
  Alerts.health_score (Alerts.get_stock_alerts d)
  = Z.max 0
      (100
       - 15 * Z.of_nat (List.length
                          (Alerts.critical_alerts (Alerts.get_stock_alerts d)))
       - 5 * Z.of_nat (List.length
                         (Alerts.warnings (Alerts.get_stock_alerts d))))%Z
  /\ (0 <= Alerts.health_score (Alerts.get_stock_alerts d) <= 100)%Z
  /\ Alerts.health_status (Alerts.get_stock_alerts d)
     = (if Z_le_dec 80 (Alerts.health_score (Alerts.get_stock_alerts d))
        then Alerts.EXCELLENT
        else if Z_le_dec 60 (Alerts.health_score (Alerts.get_stock_alerts d))
        then Alerts.GOOD
        else if Z_le_dec 40 (Alerts.health_score (Alerts.get_stock_alerts d))
        then Alerts.FAIR
        else Alerts.POOR).
Proof.
  unfold Alerts.get_stock_alerts. cbn [Alerts.health_score
    Alerts.health_status Alerts.critical_alerts Alerts.warnings].
  set (c := Z.of_nat (List.length (Alerts.collect_critical_alerts d))).
  set (w := Z.of_nat (List.length (Alerts.collect_warnings d))).
  assert (Hc : (0 <= c)%Z) by apply Nat2Z.is_nonneg.
  assert (Hw : (0 <= w)%Z) by apply Nat2Z.is_nonneg.
  unfold Alerts.score_of. fold c w.
  split; [f_equal; lia|]. split; [lia|].
  unfold Alerts.status_of.
  set (hs := Z.max 0 (100 - c * 15 - w * 5)%Z).
  destruct (Z_le_dec 80 hs), (Z_le_dec 60 hs), (Z_le_dec 40 hs);
    destruct (Z.leb_spec 80 hs), (Z.leb_spec 60 hs), (Z.leb_spec 40 hs);
    try reflexivity; lia.
Qed.

(** The dashboard of the drifted ledger: one STOCK_LOSS alert, score 85. *)
Example drifted_dashboard :
  exists d,
    Alerts.run_detectors drifted_db noon [] [] [] = Ok d
    /\ map Alerts.type (Alerts.critical_alerts (Alerts.get_stock_alerts d))
       = [Alerts.STOCK_LOSS]
    /\ Alerts.health_score (Alerts.get_stock_alerts d) = 85%Z
    /\ Alerts.health_status (Alerts.get_stock_alerts d) = Alerts.EXCELLENT.
Proof.
  eexists. split; [vm_compute; reflexivity|]. repeat split; reflexivity.
Qed.

(** ** Purchase suggestions *)

(** The nearest multiple of a positive step is a multiple of the step at
    distance at most half a step. *)
Lemma nearest_multiple_is_nearest (step : Z) (x : Q) :
  (0 < step)%Z ->
  (step | Purchase.nearest_multiple step x)%Z
  /\ Qabs (inject_Z (Purchase.nearest_multiple step x) - x)
     <= inject_Z step / 2.
Proof.
  intros Hs. unfold Purchase.nearest_multiple. split.
  - exists (py_round (x / inject_Z step)). lia.
  - assert (Hq : 0 < inject_Z step)
      by (change 0 with (inject_Z 0); now rewrite <- Zlt_Qlt).
    pose proof (py_round_nearest (x / inject_Z step)) as Hn.
    apply Qabs_Qle_condition in Hn as [Hlo Hhi].
    set (n := inject_Z (py_round (x / inject_Z step))) in *.
    assert (Hx : x == x / inject_Z step * inject_Z step) by (field; lra).
    assert (Hlo' : (- (1 # 2)) * inject_Z step
                   <= (n - x / inject_Z step) * inject_Z step)
      by (apply Qmult_le_compat_r; lra).
    assert (Hhi' : (n - x / inject_Z step) * inject_Z step
                   <= (1 # 2) * inject_Z step)
      by (apply Qmult_le_compat_r; lra).
    apply Qabs_Qle_condition. rewrite inject_Z_mult. fold n.
    assert (E : (n - x / inject_Z step) * inject_Z step
                == inject_Z step * n - x) by (field; lra).
    rewrite E in Hlo', Hhi'.
    set (sn := inject_Z step * n) in *. clearbody sn.
    clear - Hlo' Hhi'.
    set (t := inject_Z step) in *. clearbody t.
    assert (Ht : t / 2 == (1 # 2) * t) by field.
    rewrite Ht. split; lra.
Qed.

Lemma round_quantity_spec (q : Q) :
  Purchase.round_quantity q = Purchase.spec_tiered_rounding q.
Proof.
  unfold Purchase.round_quantity, Purchase.spec_tiered_rounding,
    Purchase.nearest_multiple.
  destruct (Qlt_bool q 10); [|destruct (Qlt_bool q 100)].
  - rewrite (py_round_comp (q / inject_Z 1) q) by (field; lra). lia.
  - change (inject_Z 5) with 5. lia.
  - change (inject_Z 10) with 10. lia.
Qed.

Lemma suggestion_of_fields (db : Database) (now : datetime)
    (days_forecast days_history : Z) (min_order_value : Q)
    (p : Product.t) (s : Purchase.suggestion) :
  Purchase.suggestion_of db now days_forecast days_history min_order_value p
  = Ok (Some s) ->
  exists stock_needed,
    Purchase.stock_needed_of db now days_forecast days_history p
    = Ok stock_needed
    /\ 0 < stock_needed
    /\ Purchase.product_id s = Product.id p
    /\ Purchase.suggested_quantity s
       = Purchase.suggested_quantity_of stock_needed.
Proof.
  unfold Purchase.suggestion_of, Purchase.stock_needed_of. intros H.
  destruct (Qeq_bool _ 0); [discriminate|].
  destruct (div_days _ days_history) as [avg|]; simpl in H; [|discriminate].
  destruct (Qle_bool _ 0) eqn:Hneed; [discriminate|].
  apply Qle_bool_false_iff in Hneed.
  destruct (Qlt_bool _ min_order_value); [discriminate|].
  injection H as <-.
  eexists. simpl. repeat split. exact Hneed.
Qed.

Lemma float_round_quantity_exact (q : Q) :
  PurchaseFloat.round_quantity (fun x => x) q
  = Purchase.spec_tiered_rounding q.
Proof. apply round_quantity_spec. Qed.

Lemma float_suggestion_of_fields (rnd : Q -> Q) (db : Database)
    (now : datetime) (days_forecast days_history : Z) (min_order_value : Q)
    (p : Product.t) (s : Purchase.suggestion) :
  PurchaseFloat.suggestion_of rnd db now days_forecast days_history
    min_order_value p = Ok (Some s) ->
  exists stock_needed,
    PurchaseFloat.stock_needed_of rnd db now days_forecast days_history p
    = Ok stock_needed
    /\ 0 < stock_needed
    /\ Purchase.product_id s = Product.id p
    /\ Purchase.suggested_quantity s
       = PurchaseFloat.suggested_quantity_of rnd stock_needed.
Proof.
  unfold PurchaseFloat.suggestion_of, PurchaseFloat.stock_needed_of.
  intros H.
  destruct (Qeq_bool _ 0); [discriminate|].
  destruct (float_div_days rnd _ days_history) as [avg|]; simpl in H;
    [|discriminate].
  destruct (Qle_bool _ 0) eqn:Hneed; [discriminate|].
  apply Qle_bool_false_iff in Hneed.
  destruct (Qlt_bool _ min_order_value); [discriminate|].
  injection H as <-.
  eexists. simpl. repeat split. exact Hneed.
Qed.

Lemma purchase_float_row_origin (rnd : Q -> Q) (db : Database)
    (now : datetime) (days_forecast days_history : Z) (min_order_value : Q)
    (rows : list Purchase.suggestion) (s : Purchase.suggestion) :
  PurchaseFloat.suggest_purchase_order rnd db now days_forecast days_history
    min_order_value = Ok rows ->
  In s rows ->
  exists p,
    In p (products db)
    /\ Product.is_active p = true
    /\ PurchaseFloat.suggestion_of rnd db now days_forecast days_history
         min_order_value p = Ok (Some s).
Proof.
  unfold PurchaseFloat.suggest_purchase_order. intros Hrun Hin.
  destruct (for_each _ _) as [rs|] eqn:E; simpl in Hrun; [|discriminate].
  injection Hrun as <-.
  apply sort_by_In in Hin.
  destruct (for_each_In _ _ _ _ E Hin) as [p [Hp Hs]].
  apply filter_In in Hp as [Hp Ha].
  exists p. auto.
Qed.

(** In exact arithmetic the loop in floating point is the loop of the
    module [Purchase]. *)
Lemma purchase_float_exact :
  PurchaseFloat.suggest_purchase_order (fun x => x)
  = Purchase.suggest_purchase_order.
Proof. reflexivity. Qed.

(** C6.  For every suggestion returned by [suggest_purchase_order], the
    product's [stock_needed] is positive and [suggested_quantity] is the
    tiered rounding of the float product [stock_needed * 1.2], raised to 1
    when the rounding gives less; so it is at least 1.  The tiered rounding
    of [q] is [round(q)] below 10, [round(q / 5) * 5] from 10 to below 100
    and [round(q / 10) * 10] from 100, where [round] gives an integer at
    distance at most one half (ties to even) and the quotients are float
    quotients.  This holds for every rounding of the float operations; in
    exact arithmetic the tiers are the nearest unit, the nearest multiple
    of 5 and the nearest multiple of 10, each at distance at most half a
    step. *)
Theorem purchase_quantity_floor :
  (forall (rnd : Q -> Q) (db : Database) (now : datetime)
          (days_forecast days_history : Z) (min_order_value : Q)
          (rows : list Purchase.suggestion) (s : Purchase.suggestion),
      PurchaseFloat.suggest_purchase_order rnd db now days_forecast
        days_history min_order_value = Ok rows ->
      In s rows ->
      exists p stock_needed,
        In p (products db)
        /\ Product.id p = Purchase.product_id s
        /\ PurchaseFloat.stock_needed_of rnd db now days_forecast
             days_history p = Ok stock_needed
        /\ 0 < stock_needed
        /\ Purchase.suggested_quantity s
           = Z.max 1
               (PurchaseFloat.round_quantity rnd
                  (rnd (stock_needed * rnd (12 # 10))))
        /\ (1 <= Purchase.suggested_quantity s)%Z)
  /\ (forall (rnd : Q -> Q) (q : Q),
        (q < 10 -> PurchaseFloat.round_quantity rnd q = py_round q)
        /\ (10 <= q -> q < 100 ->
            PurchaseFloat.round_quantity rnd q
            = (py_round (rnd (q / 5)%Q) * 5)%Z)
        /\ (100 <= q ->
            PurchaseFloat.round_quantity rnd q
            = (py_round (rnd (q / 10)%Q) * 10)%Z))
  /\ (forall x : Q, Qabs (inject_Z (py_round x) - x) <= 1 # 2)
  /\ (forall q : Q,
        PurchaseFloat.round_quantity (fun x => x) q
        = Purchase.spec_tiered_rounding q)
  /\ (forall (step : Z) (x : Q),
        In step [1%Z; 5%Z; 10%Z] ->
        (step | Purchase.nearest_multiple step x)%Z
        /\ Qabs (inject_Z (Purchase.nearest_multiple step x) - x)
           <= inject_Z step / 2).
Proof.
  split; [|split; [|split; [|split]]].
  - intros rnd db now days_forecast days_history min_order_value rows s
      Hrun Hin.
    destruct (purchase_float_row_origin _ _ _ _ _ _ _ _ Hrun Hin)
      as [p [Hp [_ Hs]]].
    destruct (float_suggestion_of_fields _ _ _ _ _ _ _ _ Hs)
      as [need [Hneed [Hpos [Eid Eqty]]]].
    exists p, need. repeat split; auto.
    + rewrite Eqty.
      unfold PurchaseFloat.suggested_quantity_of, PurchaseFloat.safety_buffer.
      destruct (Z.ltb_spec (PurchaseFloat.round_quantity rnd
                              (rnd (need * rnd (12 # 10)))) 1); lia.
    + rewrite Eqty. unfold PurchaseFloat.suggested_quantity_of.
      destruct (Z.ltb_spec (PurchaseFloat.round_quantity rnd
                  (rnd (need * PurchaseFloat.safety_buffer rnd))) 1); lia.
  - intros rnd q. unfold PurchaseFloat.round_quantity. split; [|split].
    + intros H. apply Qlt_bool_iff in H. now rewrite H.
    + intros H1 H2. apply Qlt_bool_false_iff in H1.
      apply Qlt_bool_iff in H2. now rewrite H1, H2.
    + intros H.
      assert (H' : 10 <= q) by lra.
      apply Qlt_bool_false_iff in H, H'. now rewrite H', H.
  - apply py_round_nearest.
  - apply float_round_quantity_exact.
  - intros step x Hstep. apply nearest_multiple_is_nearest.
    simpl in Hstep. lia.
Qed.

Lemma purchase_quantity_floor_witness :
  exists rows s p stock_needed,
    PurchaseFloat.suggest_purchase_order Binary64.fl purchase_boundary_db
      noon 30 90 100 = Ok rows
    /\ In s rows
    /\ In p (products purchase_boundary_db)
    /\ PurchaseFloat.stock_needed_of Binary64.fl purchase_boundary_db noon
         30 90 p = Ok stock_needed
    /\ 0 < stock_needed
    /\ Purchase.suggested_quantity s
       = Z.max 1
           (PurchaseFloat.round_quantity Binary64.fl
              (Binary64.fl (stock_needed * Binary64.fl (12 # 10))))
    /\ (1 <= Purchase.suggested_quantity s)%Z.
Proof.
  destruct (PurchaseFloat.suggest_purchase_order Binary64.fl
              purchase_boundary_db noon 30 90 100)
    as [rows|] eqn:E; [|vm_compute in E; discriminate E].
  destruct rows as [|s rows]; [vm_compute in E; discriminate E|].
  destruct (proj1 purchase_quantity_floor Binary64.fl purchase_boundary_db
              noon 30%Z 90%Z 100 (s :: rows) s E (or_introl eq_refl))
    as [p [need [Hp [Eid [Hneed [Hpos [Eqty Hone]]]]]]].
  exists (s :: rows), s, p, need.
  split; [reflexivity|]. split; [left; reflexivity|].
  split; [exact Hp|]. split; [exact Hneed|]. split; [exact Hpos|].
  split; [exact Eqty|exact Hone].
Defined.

(** The raw quantity 0.48 rounds to 0; the suggestion is 1. *)
Example small_need_quantity :
  PurchaseFloat.round_quantity Binary64.fl
    (Binary64.fl (Binary64.fl (4 # 10) * PurchaseFloat.safety_buffer Binary64.fl))
  = 0%Z
  /\ PurchaseFloat.suggested_quantity_of Binary64.fl (Binary64.fl (4 # 10))
     = 1%Z.
Proof. split; vm_compute; reflexivity. Qed.

(** The buffered need is a float product.  With 8.75 units sold in 90
    days, a 30-day forecast and no stock, the buffered need is 3.5 in exact
    arithmetic, which rounds to 4; in binary64 it is just below 3.5 and the
    suggestion is 3. *)
Example purchase_boundary_binary64 :
  (exists s,
      PurchaseFloat.suggest_purchase_order Binary64.fl purchase_boundary_db
        noon 30 90 100 = Ok [s]
      /\ Purchase.suggested_quantity s = 3%Z)
  /\ (exists s,
        PurchaseFloat.suggest_purchase_order (fun x => x)
          purchase_boundary_db noon 30 90 100 = Ok [s]
        /\ Purchase.suggested_quantity s = 4%Z).
Proof.
  split.
  - destruct (PurchaseFloat.suggest_purchase_order Binary64.fl
                purchase_boundary_db noon 30 90 100)
      as [rows|] eqn:E; vm_compute in E; [|discriminate].
    injection E as <-.
    eexists. split; reflexivity.
  - destruct (PurchaseFloat.suggest_purchase_order (fun x => x)
                purchase_boundary_db noon 30 90 100)
      as [rows|] eqn:E; vm_compute in E; [|discriminate].
    injection E as <-.
    eexists. split; reflexivity.
Qed.

(** ** Loss detection *)

Lemma walk_sum (ms : list StockMovement.t) (acc : Q * Z) :
  fst (fold_left
         (fun acc movement =>
            (fst acc + StockMovement.quantity movement,
             if StockMovement.is_loss movement
             then (snd acc + 1)%Z else snd acc))
         ms acc)
  == fst acc + Qsum (map StockMovement.quantity ms).
Proof.
  revert acc. induction ms as [|m ms IH]; intros acc; simpl.
  - ring.
  - rewrite IH. simpl. ring.
Qed.

(** [expected_stock] is the signed sum of the product's movements. *)
Lemma expected_stock_signed_sum (db : Database) (pid : Z) :
  Loss.expected_stock_of db pid
  == Qsum (map StockMovement.quantity (movements_of db pid)).
Proof.
  unfold Loss.expected_stock_of, Loss.walk, Loss.movements.
  rewrite walk_sum. simpl.
  rewrite <- (Qsum_perm _ _
    (Permutation_map StockMovement.quantity (sort_by_perm _ (movements_of db pid)))).
  ring.
Qed.


Lemma discrepancy_pct_consistent (expected actual : Q) :
  actual == expected -> Loss.discrepancy_pct expected actual == 0.
Proof.
  intros E. unfold Loss.discrepancy_pct.
  destruct (Qeq_bool expected 0) eqn:Ez; cbn [negb]; [reflexivity|].
  apply Qeq_bool_neq in Ez.
  assert (H : (expected - actual) / expected * 100 == 0)
    by (rewrite E; field; assumption).
  rewrite H. reflexivity.
Qed.

Lemma discrepancy_pct_zero_expected (expected actual : Q) :
  expected == 0 -> Loss.discrepancy_pct expected actual = 0.
Proof.
  intros E. unfold Loss.discrepancy_pct.
  apply Qeq_bool_iff in E. now rewrite E.
Qed.

Lemma loss_row_of_Some (db : Database) (tolerance : Q) (p : Product.t)
    (r : Loss.row) :
  Loss.row_of db tolerance p = Some r ->
  Loss.movements db (Product.id p) <> []
  /\ tolerance
     < Loss.discrepancy_pct (Loss.expected_stock_of db (Product.id p))
         (Product.current_stock p)
  /\ Loss.product_id r = Product.id p
  /\ Loss.severity r
     = Loss.severity_of
         (Loss.discrepancy_pct (Loss.expected_stock_of db (Product.id p))
            (Product.current_stock p)).
Proof.
  unfold Loss.row_of, Loss.expected_stock_of.
  destruct (Loss.movements db (Product.id p)) as [|m ms]; [discriminate|].
  destruct (Loss.walk (m :: ms)) as [e c].
  destruct (Qle_bool _ tolerance) eqn:E; [discriminate|].
  apply Qle_bool_false_iff in E.
  intros [= <-]. simpl. repeat split; auto. discriminate.
Qed.

Lemma loss_row_of_reports (db : Database) (tolerance : Q) (p : Product.t) :
  Loss.movements db (Product.id p) <> [] ->
  tolerance
  < Loss.discrepancy_pct (Loss.expected_stock_of db (Product.id p))
      (Product.current_stock p) ->
  exists r, Loss.row_of db tolerance p = Some r
            /\ Loss.product_id r = Product.id p.
Proof.
  unfold Loss.row_of, Loss.expected_stock_of.
  destruct (Loss.movements db (Product.id p)) as [|m ms]; [congruence|].
  destruct (Loss.walk (m :: ms)) as [e c].
  intros _ Hlt. simpl in Hlt. apply Qle_bool_false_iff in Hlt. rewrite Hlt.
  eexists. split; reflexivity.
Qed.

Lemma loss_row_origin (db : Database) (tolerance : Q) (r : Loss.row) :
  In r (Loss.detect_stock_losses db tolerance) ->
  exists p, In p (products db)
            /\ Product.is_active p = true
            /\ Loss.row_of db tolerance p = Some r.
Proof.
  unfold Loss.detect_stock_losses. intros Hin.
  apply sort_by_In in Hin. apply in_flat_map in Hin as [p [Hp Hr]].
  apply filter_In in Hp as [Hp Ha].
  destruct (Loss.row_of db tolerance p) as [r'|] eqn:E; [|destruct Hr].
  destruct Hr as [<-|[]]. exists p. auto.
Qed.





(** C9.  When the movements of a product sum to 0, the discrepancy
    percentage is 0 whatever the recorded stock, and for every tolerance
    that is not negative the product is not reported. *)
Theorem loss_zero_expected_not_reported (db : Database) (tolerance : Q)
    (pid : Z) :
  Loss.expected_stock_of db pid == 0 ->
  0 <= tolerance ->
  (forall actual_stock,
      Loss.discrepancy_pct (Loss.expected_stock_of db pid) actual_stock = 0)
  /\ ~ Loss.reported db tolerance pid.
Proof.
  intros Hz Htol. split.
  - intros actual. now apply discrepancy_pct_zero_expected.
  - unfold Loss.reported. intros Hin.
    apply in_map_iff in Hin as [r [Eid Hr]].
    destruct (loss_row_origin _ _ _ Hr) as [p [_ [_ Hrow]]].
    destruct (loss_row_of_Some _ _ _ _ Hrow) as [_ [Hlt [Eid' _]]].
    assert (E : Product.id p = pid) by congruence.
    rewrite E in Hlt.
    rewrite (discrepancy_pct_zero_expected _ _ Hz) in Hlt. lra.
Qed.

Lemma loss_zero_expected_not_reported_witness :
  Loss.expected_stock_of ledger_db 2 == 0
  /\ 0 <= 0
  /\ In (mk_product 2 10 6 3 true) (products ledger_db)
  /\ Loss.discrepancy_pct (Loss.expected_stock_of ledger_db 2) 3 = 0
  /\ ~ Loss.reported ledger_db 0 2.
Proof.
  assert (Hz : Loss.expected_stock_of ledger_db 2 == 0) by reflexivity.
  assert (Htol : 0 <= 0) by discriminate.
  destruct (loss_zero_expected_not_reported ledger_db 0 2 Hz Htol)
    as [Hpct Hnot].
  repeat split; auto. right. now left.
Defined.

(** * Further properties *)

(** ** Sorted reports *)

Section SortOrder.
Context {A : Type} (before : A -> A -> bool).
Hypothesis before_asym : forall x y, before y x = true -> before x y = false.
Hypothesis not_before_trans :
  forall a b c, before b a = false -> before c b = false ->
                before c a = false.

Lemma insert_sorted_sorted (x : A) (l : list A) :
  StronglySorted (fun a b => before b a = false) l ->
  StronglySorted (fun a b => before b a = false) (insert_sorted before x l).
Proof.
  induction 1 as [|y ys Hs IH Hy]; simpl.
  - repeat constructor.
  - destruct (before y x) eqn:E.
    + constructor; [exact IH|].
      apply (Permutation_Forall (insert_sorted_perm before x ys)).
      constructor; [now apply before_asym|exact Hy].
    + constructor; [now constructor|].
      constructor; [exact E|].
      eapply Forall_impl; [|exact Hy].
      intros z Hz. now apply (not_before_trans x y z).
Qed.

Lemma sort_by_sorted (l : list A) :
  StronglySorted (fun a b => before b a = false) (sort_by before l).
Proof.
  induction l as [|x l IH]; simpl; [constructor|].
  now apply insert_sorted_sorted.
Qed.

End SortOrder.

Lemma StronglySorted_impl {A} (R R' : A -> A -> Prop) (l : list A) :
  (forall a b, R a b -> R' a b) ->
  StronglySorted R l -> StronglySorted R' l.
Proof.
  intros HR. induction 1 as [|x l Hs IH Hx]; constructor; auto.
  eapply Forall_impl; [|exact Hx]. auto.
Qed.

(** A sort on a tuple key (integer, number) yields a list ordered by
    that tuple. *)
Lemma sort_by_lex_sorted {A} (before : A -> A -> bool)
    (k : A -> Z) (v : A -> Q) (l : list A) :
  (forall y x, before y x
               = ((k y <? k x)%Z || ((k y =? k x)%Z && Qlt_bool (v y) (v x)))) ->
  StronglySorted (lex_le k v) (sort_by before l).
Proof.
  intros Hb.
  assert (Htrue : forall y x, before y x = true
                    <-> (k y < k x)%Z \/ (k y = k x /\ v y < v x)).
  { intros y x. rewrite Hb, orb_true_iff, andb_true_iff,
      Z.ltb_lt, Z.eqb_eq, Qlt_bool_iff. reflexivity. }
  assert (Hfalse : forall y x, before y x = false
                     <-> (k x < k y)%Z \/ (k x = k y /\ v x <= v y)).
  { intros y x. rewrite Hb, orb_false_iff, andb_false_iff,
      Z.ltb_ge, Z.eqb_neq, Qlt_bool_false_iff.
    split.
    - intros [H1 [H2|H2]]; [left; lia|].
      destruct (Z.eq_dec (k x) (k y)); [right; auto|left; lia].
    - intros [H|[H1 H2]]; (split; [lia|]); [left; lia|right; exact H2]. }
  apply (StronglySorted_impl (fun a b => before b a = false)).
  - intros a b H. apply Hfalse in H. exact H.
  - apply sort_by_sorted.
    + intros x y H. apply Htrue in H. apply Hfalse.
      destruct H as [H|[H1 H2]]; [left; exact H|].
      right. split; [congruence|lra].
    + intros a b c H1 H2. apply Hfalse in H1, H2. apply Hfalse.
      destruct H1 as [H1|[H1 H1']], H2 as [H2|[H2 H2']];
        try (left; lia).
      right. split; [congruence|lra].
Qed.

Lemma for_each_total {A B} (body : A -> result (option B)) (l : list A) :
  (forall a, In a l -> exists b, body a = Ok (Some b)) ->
  exists rows,
    for_each body l = Ok rows
    /\ Forall2 (fun a b => body a = Ok (Some b)) l rows.
Proof.
  induction l as [|a l IH]; intros Hall.
  - exists []. split; [reflexivity|constructor].
  - destruct (Hall a (or_introl eq_refl)) as [b Hb].
    destruct IH as [rows [Hrows Hf]].
    { intros a' Ha'. apply Hall. now right. }
    exists (b :: rows). simpl. rewrite Hb, Hrows. simpl.
    split; [reflexivity|now constructor].
Qed.

Lemma for_each_raises {A B} (body : A -> result (option B)) (l : list A) :
  l <> [] ->
  (forall a, In a l -> body a = ZeroDivisionError) ->
  for_each body l = ZeroDivisionError.
Proof.
  destruct l as [|a l]; [congruence|].
  intros _ Hall. simpl. now rewrite (Hall a (or_introl eq_refl)).
Qed.

Lemma Forall2_In_r {A B} (R : A -> B -> Prop) (l : list A) (l' : list B)
    (b : B) :
  Forall2 R l l' -> In b l' -> exists a, In a l /\ R a b.
Proof.
  induction 1 as [|x y l l' Hxy Hf IH]; simpl; [intros []|].
  intros [<-|Hin].
  - exists x. auto.
  - destruct (IH Hin) as [a [Ha Hr]]. exists a. auto.
Qed.

Lemma Forall2_In_l {A B} (R : A -> B -> Prop) (l : list A) (l' : list B)
    (a : A) :
  Forall2 R l l' -> In a l -> exists b, In b l' /\ R a b.
Proof.
  induction 1 as [|x y l l' Hxy Hf IH]; simpl; [intros []|].
  intros [<-|Hin].
  - exists y. auto.
  - destruct (IH Hin) as [b [Hb Hr]]. exists b. auto.
Qed.

(** ** Stock rupture *)

Lemma rupture_query_In (db : Database) (cutoff : date)
    (q : Rupture.query_row) :
  In q (Rupture.query db cutoff)
  <-> exists p,
        In p (products db)
        /\ Product.current_stock p <= 0
        /\ paid_sales_since db (Product.id p) cutoff <> []
        /\ q = Rupture.mk_query_row p
                 (count_distinct_orders
                    (paid_sales_since db (Product.id p) cutoff))
                 (max_sale_date (paid_sales_since db (Product.id p) cutoff))
                 (sum_quantity (paid_sales_since db (Product.id p) cutoff)).
Proof.
  unfold Rupture.query. rewrite sort_by_In, in_flat_map. split.
  - intros [p [Hp Hq]].
    destruct (Qle_bool (Product.current_stock p) 0) eqn:E; [|destruct Hq].
    apply Qle_bool_iff in E.
    destruct (paid_sales_since db (Product.id p) cutoff) as [|s ss] eqn:Es;
      [destruct Hq|].
    destruct Hq as [<-|[]].
    exists p. rewrite Es. repeat split; auto; discriminate.
  - intros [p [Hp [Hs [Hne ->]]]].
    exists p. split; [assumption|].
    apply Qle_bool_iff in Hs. rewrite Hs.
    destruct (paid_sales_since db (Product.id p) cutoff) as [|s ss];
      [congruence|]. now left.
Qed.

Lemma rupture_row_of_id (db : Database) (now : datetime) (days_lookback : Z)
    (q : Rupture.query_row) (r : Rupture.row) :
  Rupture.row_of db now days_lookback q = Ok (Some r) ->
  Rupture.product_id r = Product.id (Rupture.q_product q)
  /\ Rupture.total_quantity_sold r = Rupture.q_total_quantity_sold q.
Proof.
  unfold Rupture.row_of. intros H.
  destruct (div_days _ days_lookback); simpl in H; [|discriminate].
  injection H as <-. split; reflexivity.
Qed.

Lemma rupture_row_of_total (db : Database) (now : datetime)
    (days_lookback : Z) (q : Rupture.query_row) :
  days_lookback <> 0%Z ->
  exists r, Rupture.row_of db now days_lookback q = Ok (Some r).
Proof.
  intros Hne. unfold Rupture.row_of, div_days.
  apply Z.eqb_neq in Hne. rewrite Hne. simpl. eexists. reflexivity.
Qed.

(** X1.  With a lookback that is not 0 and within the range of the date
    arithmetic, [detect_stock_rupture] returns, and a product id is in its
    report exactly when a product with that id has [current_stock <= 0] and
    a PAID sale dated on or after the cutoff date. *)
Theorem rupture_report_membership (db : Database) (now : datetime)
    (days_lookback : Z) :
  timedelta_ok now days_lookback = true ->
  days_lookback <> 0%Z ->
  exists rows,
    Rupture.detect_stock_rupture db now days_lookback = Ok rows
    /\ forall pid,
         In pid (map Rupture.product_id rows)
         <-> exists p,
               In p (products db)
               /\ Product.id p = pid
               /\ Product.current_stock p <= 0
               /\ paid_sales_since db pid
                    (date_of (minus_days now days_lookback)) <> [].
Proof.
  intros _ Hne. unfold Rupture.detect_stock_rupture.
  destruct (for_each_total (Rupture.row_of db now days_lookback)
              (Rupture.query db (date_of (minus_days now days_lookback))))
    as [rows [Hrows Hf]].
  { intros q _. now apply rupture_row_of_total. }
  exists rows. split; [exact Hrows|].
  intros pid. rewrite in_map_iff. split.
  - intros [r [<- Hr]].
    destruct (Forall2_In_r _ _ _ _ Hf Hr) as [q [Hq Hrow]].
    apply rupture_query_In in Hq as [p [Hp [Hs [Hsales ->]]]].
    apply rupture_row_of_id in Hrow as [Eid _]. simpl in Eid.
    exists p. rewrite Eid. auto.
  - intros [p [Hp [<- [Hs Hsales]]]].
    assert (Hq : In (Rupture.mk_query_row p
                 (count_distinct_orders
                    (paid_sales_since db (Product.id p)
                       (date_of (minus_days now days_lookback))))
                 (max_sale_date
                    (paid_sales_since db (Product.id p)
                       (date_of (minus_days now days_lookback))))
                 (sum_quantity
                    (paid_sales_since db (Product.id p)
                       (date_of (minus_days now days_lookback)))))
               (Rupture.query db (date_of (minus_days now days_lookback)))).
    { apply rupture_query_In. exists p. auto. }
    destruct (Forall2_In_l _ _ _ _ Hf Hq) as [r [Hr Hrow]].
    apply rupture_row_of_id in Hrow as [Eid _].
    exists r. auto.
Qed.

Lemma rupture_report_membership_witness :
  timedelta_ok noon 14 = true
  /\ exists rows,
       Rupture.detect_stock_rupture shop_db noon 14 = Ok rows
       /\ map Rupture.product_id rows = [1%Z; 6%Z]
       /\ (In 6%Z (map Rupture.product_id rows)
           <-> exists p,
                 In p (products shop_db)
                 /\ Product.id p = 6%Z
                 /\ Product.current_stock p <= 0
                 /\ paid_sales_since shop_db 6 (date_of (minus_days noon 14))
                    <> []).
Proof.
  assert (Hok : timedelta_ok noon 14 = true) by reflexivity.
  assert (Hne : 14%Z <> 0%Z) by discriminate.
  split; [exact Hok|].
  destruct (rupture_report_membership shop_db noon 14 Hok Hne)
    as [rows [E H]].
  exists rows. split; [exact E|]. split; [|apply H].
  vm_compute in E. injection E as <-. reflexivity.
Defined.

(** A lookback of 800000 days would put the cutoff before [datetime.min]:
    it is outside the range of the date arithmetic. *)
Example timedelta_out_of_range :
  timedelta_ok noon 800000 = false
  /\ timedelta_ok noon 14 = true
  /\ timedelta_ok noon 1000000000 = false.
Proof. repeat split; reflexivity. Qed.

(** X2.  With a lookback of 0 days the per-row division fails:
    [detect_stock_rupture] raises ZeroDivisionError when some product has
    [current_stock <= 0] and a PAID sale dated today or later, and returns
    the empty list otherwise. *)
Theorem rupture_zero_lookback (db : Database) (now : datetime) :
  ((exists p,
       In p (products db)
       /\ Product.current_stock p <= 0
       /\ paid_sales_since db (Product.id p) (date_of now) <> []) ->
   Rupture.detect_stock_rupture db now 0 = ZeroDivisionError)
  /\ ((forall p,
         In p (products db) ->
         Product.current_stock p <= 0 ->
         paid_sales_since db (Product.id p) (date_of now) = []) ->
      Rupture.detect_stock_rupture db now 0 = Ok []).
Proof.
  unfold Rupture.detect_stock_rupture.
  replace (minus_days now 0) with now by (unfold minus_days; lia).
  split.
  - intros [p [Hp [Hs Hsales]]].
    apply for_each_raises; [|reflexivity].
    intros E.
    assert (Hq : In (Rupture.mk_query_row p
                 (count_distinct_orders
                    (paid_sales_since db (Product.id p) (date_of now)))
                 (max_sale_date
                    (paid_sales_since db (Product.id p) (date_of now)))
                 (sum_quantity
                    (paid_sales_since db (Product.id p) (date_of now))))
               (Rupture.query db (date_of now))).
    { apply rupture_query_In. exists p. auto. }
    rewrite E in Hq. exact Hq.
  - intros Hnone.
    destruct (Rupture.query db (date_of now)) as [|q qs] eqn:E;
      [reflexivity|].
    exfalso.
    assert (Hq : In q (Rupture.query db (date_of now)))
      by (rewrite E; now left).
    apply rupture_query_In in Hq as [p [Hp [Hs [Hsales _]]]].
    apply Hsales. now apply Hnone.
Qed.

Lemma rupture_zero_lookback_witness :
  Rupture.detect_stock_rupture rupture_today_db noon 0 = ZeroDivisionError
  /\ Rupture.detect_stock_rupture rupture_zero_db noon 0 = Ok [].
Proof.
  split.
  - apply (proj1 (rupture_zero_lookback rupture_today_db noon)).
    exists (mk_product 1 10 6 0 true).
    split; [now left|]. split; [discriminate|]. vm_compute. discriminate.
  - apply (proj2 (rupture_zero_lookback rupture_zero_db noon)).
    intros p [<-|[]] _. reflexivity.
Defined.

Lemma Forall2_StronglySorted {A B} (R : A -> B -> Prop)
    (P : A -> A -> Prop) (P' : B -> B -> Prop) (l : list A) (l' : list B) :
  (forall a a' b b', R a b -> R a' b' -> P a a' -> P' b b') ->
  Forall2 R l l' -> StronglySorted P l -> StronglySorted P' l'.
Proof.
  intros HP Hf. induction Hf as [|a b l l' Hab Hf IH]; intros Hs.
  - constructor.
  - apply StronglySorted_inv in Hs as [Hs Ha].
    constructor; [now apply IH|].
    apply Forall_forall. intros b' Hb'.
    destruct (Forall2_In_r _ _ _ _ Hf Hb') as [a' [Ha' Hab']].
    rewrite Forall_forall in Ha. eauto.
Qed.

(** X3.  The rupture report is ordered by the quantity sold in the
    period, largest first. *)
Theorem rupture_report_sorted (db : Database) (now : datetime)
    (days_lookback : Z) (rows : list Rupture.row) :
  Rupture.detect_stock_rupture db now days_lookback = Ok rows ->
  StronglySorted
    (fun a b => Rupture.total_quantity_sold b <= Rupture.total_quantity_sold a)
    rows.
Proof.
  unfold Rupture.detect_stock_rupture. intros Hrun.
  assert (Hf : Forall2
                 (fun q r => Rupture.row_of db now days_lookback q
                             = Ok (Some r))
                 (Rupture.query db (date_of (minus_days now days_lookback)))
                 rows).
  { revert rows Hrun.
    induction (Rupture.query db (date_of (minus_days now days_lookback)))
      as [|q qs IH]; simpl; intros rows Hrun.
    - injection Hrun as <-. constructor.
    - destruct (Rupture.row_of db now days_lookback q) as [o|] eqn:Eq;
        simpl in Hrun; [|discriminate].
      destruct (for_each _ qs) as [rs|]; simpl in Hrun; [|discriminate].
      injection Hrun as <-.
      assert (Ho : exists r, o = Some r).
      { unfold Rupture.row_of in Eq.
        destruct (div_days _ days_lookback); simpl in Eq; [|discriminate].
        injection Eq as <-. eexists. reflexivity. }
      destruct Ho as [r ->]. constructor; [exact Eq|now apply IH]. }
  eapply Forall2_StronglySorted; [|exact Hf|].
  - intros q q' r r' Hr Hr' Hle.
    apply rupture_row_of_id in Hr as [_ ->].
    apply rupture_row_of_id in Hr' as [_ ->]. exact Hle.
  - unfold Rupture.query.
    apply (StronglySorted_impl
             (fun a b =>
                Qlt_bool (Rupture.q_total_quantity_sold a)
                  (Rupture.q_total_quantity_sold b) = false)).
    + intros a b H. now apply Qlt_bool_false_iff in H.
    + apply (sort_by_sorted
               (fun y x => Qlt_bool (Rupture.q_total_quantity_sold x)
                             (Rupture.q_total_quantity_sold y))).
      * intros x y H. apply Qlt_bool_iff in H. apply Qlt_bool_false_iff. lra.
      * intros a b c H1 H2.
        apply Qlt_bool_false_iff in H1, H2. apply Qlt_bool_false_iff. lra.
Qed.

Lemma rupture_report_sorted_witness :
  exists rows,
    Rupture.detect_stock_rupture shop_db noon 14 = Ok rows
    /\ map Rupture.total_quantity_sold rows = [14; 7]
    /\ StronglySorted
         (fun a b =>
            Rupture.total_quantity_sold b <= Rupture.total_quantity_sold a)
         rows.
Proof.
  destruct (Rupture.detect_stock_rupture shop_db noon 14) as [rows|] eqn:E;
    [|vm_compute in E; discriminate].
  exists rows. split; [reflexivity|].
  split; [|exact (rupture_report_sorted shop_db noon 14 rows E)].
  vm_compute in E. injection E as <-. reflexivity.
Defined.

(** ** Stockout risk *)

Lemma Qmax0_nonneg (x : Q) : 0 <= Risk.Qmax0 x.
Proof.
  unfold Risk.Qmax0. destruct (Qlt_bool 0 x) eqn:E; [|lra].
  apply Qlt_bool_iff in E. lra.
Qed.


Lemma py_round_to_nonneg (n : nat) (x : Q) : 0 <= x -> 0 <= py_round_to n x.
Proof.
  intros H.
  assert (E : py_round_to n (inject_Z 0) == 0) by apply py_round_to_inject_Z.
  rewrite <- E. now apply py_round_to_mono.
Qed.

Lemma py_round_to_zero (n : nat) (x : Q) : x == 0 -> py_round_to n x == 0.
Proof.
  intros H. rewrite (py_round_to_comp n x (inject_Z 0) H).
  apply py_round_to_inject_Z.
Qed.

(** The row built for a product, with the intermediate values of the
    loop body. *)
Lemma risk_row_of_inv (db : Database) (now : datetime)
    (days_forecast days_history min_days_threshold : Z)
    (p : Product.t) (r : Risk.row) :
  Risk.row_of db now days_forecast days_history min_days_threshold p
  = Ok (Some r) ->
  exists avg,
    div_days
      (sum_quantity
         (paid_sales_since db (Product.id p)
            (date_of (minus_days now days_history))))
      days_history = Ok avg
    /\ 0 < avg
    /\ Product.current_stock p / avg <= inject_Z min_days_threshold
    /\ Risk.product_id r = Product.id p
    /\ Risk.pending_orders r
       = Risk.pending_info db now (Product.id p)
           (avg * inject_Z days_forecast) (Product.current_stock p)
    /\ Risk.gap_quantity r
       = py_round_to 2
           (Risk.Qmax0
              (avg * inject_Z days_forecast
               - (Product.current_stock p
                  + Risk.total_quantity (Risk.pending_orders r))))
    /\ Risk.risk_level r
       = Risk.risk_level_of (Product.current_stock p / avg)
           (Risk.pending_orders r).
Proof.
  unfold Risk.row_of. intros H.
  destruct (Qeq_bool _ 0); [discriminate|].
  destruct (div_days _ days_history) as [avg|]; simpl in H; [|discriminate].
  destruct (Qlt_bool 0 avg) eqn:Havg; simpl in H; [|discriminate].
  apply Qlt_bool_iff in Havg.
  destruct (Qlt_bool (inject_Z min_days_threshold) _) eqn:Hth;
    [discriminate|].
  apply Qlt_bool_false_iff in Hth.
  injection H as <-.
  exists avg. simpl. repeat split; auto.
Qed.






(** X5.  The risk report is ordered by risk level (CRITICAL, HIGH, MEDIUM,
    LOW) and, within a level, by the reported days until stockout,
    smallest first. *)
Theorem risk_report_sorted (db : Database) (now : datetime)
    (days_forecast days_history min_days_threshold : Z)
    (rows : list Risk.row) :
  Risk.detect_imminent_stockout_risk db now days_forecast days_history
    min_days_threshold = Ok rows ->
  StronglySorted
    (lex_le (fun r => Risk.risk_order (Risk.risk_level r))
       Risk.days_until_stockout)
    rows.
Proof.
  unfold Risk.detect_imminent_stockout_risk. intros Hrun.
  destruct (for_each _ _) as [rs|]; simpl in Hrun; [|discriminate].
  injection Hrun as <-.
  apply sort_by_lex_sorted. intros y x. reflexivity.
Qed.

Lemma risk_report_sorted_witness :
  exists rows,
    Risk.detect_imminent_stockout_risk shop_db noon 30 90 7 = Ok rows
    /\ map Risk.risk_level rows = [Risk.CRITICAL; Risk.HIGH; Risk.LOW]
    /\ StronglySorted
         (lex_le (fun r => Risk.risk_order (Risk.risk_level r))
            Risk.days_until_stockout)
         rows.
Proof.
  destruct (Risk.detect_imminent_stockout_risk shop_db noon 30 90 7)
    as [rows|] eqn:E; [|vm_compute in E; discriminate].
  exists rows. split; [reflexivity|].
  split; [|exact (risk_report_sorted shop_db noon 30 90 7 rows E)].
  vm_compute in E. injection E as <-. reflexivity.
Defined.

Lemma NoDup_by_nodup (l : list Z) : nodup Z.eq_dec l = l -> NoDup l.
Proof. intros E. rewrite <- E. apply NoDup_nodup. Qed.

Lemma shop_db_key : product_key shop_db.
Proof. apply NoDup_by_nodup. reflexivity. Qed.

(** ** Purchase suggestions *)






Lemma float_suggestion_of_inv (rnd : Q -> Q) (db : Database)
    (now : datetime) (days_forecast days_history : Z) (min_order_value : Q)
    (p : Product.t) (s : Purchase.suggestion) :
  PurchaseFloat.suggestion_of rnd db now days_forecast days_history
    min_order_value p = Ok (Some s) ->
  exists avg,
    RiskFloat.avg_daily_sales_of rnd db now days_history p = Ok avg
    /\ Purchase.product_id s = Product.id p
    /\ Purchase.current_stock s = rnd (Product.current_stock p)
    /\ Purchase.avg_daily_sales s = float_round rnd 2 avg
    /\ Purchase.forecasted_demand s
       = float_round rnd 2 (rnd (avg * rnd (inject_Z days_forecast)))
    /\ Purchase.unit_cost s = rnd (Product.cost_price p)
    /\ Purchase.order_count (Purchase.pending_orders s)
       = Z.of_nat (List.length (pending_orders_of db (Product.id p)))
    /\ Purchase.has_pending (Purchase.pending_orders s)
       = (0 <? Z.of_nat (List.length (pending_orders_of db (Product.id p))))%Z.
Proof.
  unfold PurchaseFloat.suggestion_of, RiskFloat.avg_daily_sales_of.
  intros H.
  destruct (Qeq_bool _ 0); [discriminate|].
  destruct (float_div_days rnd _ days_history) as [avg|]; simpl in H;
    [|discriminate].
  destruct (Qle_bool _ 0); [discriminate|].
  destruct (Qlt_bool _ min_order_value); [discriminate|].
  injection H as <-.
  exists avg.
  cbn [Purchase.product_id Purchase.current_stock Purchase.avg_daily_sales
       Purchase.forecasted_demand Purchase.unit_cost Purchase.pending_orders
       Purchase.order_count Purchase.has_pending].
  repeat split.
Qed.

(** X7.  The risk report and the purchase suggestions describe the same
    demand.  For the same database, clock reading, forecast and history
    windows, a product that is in both outputs has the same number of
    pending order items, the same [avg_daily_sales], the same
    [forecasted_demand] and the same unit cost in both, and the stock of
    the risk report is the stock of the suggestion rounded to cents; the
    suggestion has pending orders exactly when that number is positive.
    This holds for every rounding of the float operations. *)
Theorem risk_purchase_agree (rnd : Q -> Q) (db : Database) (now : datetime)
    (days_forecast days_history min_days_threshold : Z) (min_order_value : Q)
    (risks : list Risk.row) (suggestions : list Purchase.suggestion)
    (r : Risk.row) (s : Purchase.suggestion) :
  product_key db ->
  RiskFloat.detect_imminent_stockout_risk rnd db now days_forecast
    days_history min_days_threshold = Ok risks ->
  PurchaseFloat.suggest_purchase_order rnd db now days_forecast days_history
    min_order_value = Ok suggestions ->
  In r risks ->
  In s suggestions ->
  Risk.product_id r = Purchase.product_id s ->
  Risk.count (Risk.pending_orders r)
  = Purchase.order_count (Purchase.pending_orders s)
  /\ (Purchase.has_pending (Purchase.pending_orders s) = true
      <-> (0 < Risk.count (Risk.pending_orders r))%Z)
  /\ Risk.avg_daily_sales r = Purchase.avg_daily_sales s
  /\ Risk.forecasted_demand r = Purchase.forecasted_demand s
  /\ Risk.current_stock r = float_round rnd 2 (Purchase.current_stock s)
  /\ Risk.unit_cost r = Purchase.unit_cost s.
Proof.
  intros Hkey Hrisk Hpur Hr Hs Eid.
  destruct (risk_float_row_origin _ _ _ _ _ _ _ _ Hrisk Hr)
    as [p [Hp [_ [_ Hrow]]]].
  destruct (risk_float_row_of_fields _ _ _ _ _ _ _ _ Hrow)
    as [avg [Havg [_ [_ [Eidr [Estock [Eavg [_ [Efd [Ecount [Ecost _]]]]]]]]]]].
  destruct (purchase_float_row_origin _ _ _ _ _ _ _ _ Hpur Hs)
    as [p' [Hp' [_ Hsug]]].
  destruct (float_suggestion_of_inv _ _ _ _ _ _ _ _ Hsug)
    as [avg' [Havg' [Eids [Estock' [Eavg' [Efd' [Ecost' [Ecount' Ehas]]]]]]]].
  assert (E : p' = p)
    by (apply (key_injective Product.id (products db)); auto; congruence).
  subst p'.
  assert (Ea : avg' = avg) by congruence. subst avg'.
  split; [congruence|].
  split; [rewrite Ehas, Ecount; apply Z.ltb_lt|].
  split; [congruence|]. split; [congruence|].
  split; [rewrite Estock, Estock'; reflexivity|congruence].
Qed.

Lemma risk_purchase_agree_witness :
  product_key sufficiency_boundary_db
  /\ exists risks suggestions r s,
       RiskFloat.detect_imminent_stockout_risk Binary64.fl
         sufficiency_boundary_db noon 30 90 7 = Ok risks
       /\ PurchaseFloat.suggest_purchase_order Binary64.fl
            sufficiency_boundary_db noon 30 90 100 = Ok suggestions
       /\ In r risks /\ In s suggestions
       /\ Risk.product_id r = 1%Z /\ Purchase.product_id s = 1%Z
       /\ Risk.count (Risk.pending_orders r) = 1%Z
       /\ Risk.count (Risk.pending_orders r)
          = Purchase.order_count (Purchase.pending_orders s)
       /\ Risk.forecasted_demand r = Purchase.forecasted_demand s.
Proof.
  assert (Hkey : product_key sufficiency_boundary_db).
  { unfold product_key. simpl. repeat constructor. intros []. }
  split; [exact Hkey|].
  destruct (RiskFloat.detect_imminent_stockout_risk Binary64.fl
              sufficiency_boundary_db noon 30 90 7)
    as [risks|] eqn:E1; [|vm_compute in E1; discriminate E1].
  destruct (PurchaseFloat.suggest_purchase_order Binary64.fl
              sufficiency_boundary_db noon 30 90 100)
    as [suggestions|] eqn:E2; [|vm_compute in E2; discriminate E2].
  destruct risks as [|r1 risks]; [vm_compute in E1; discriminate E1|].
  destruct suggestions as [|s1 suggestions];
    [vm_compute in E2; discriminate E2|].
  assert (Hr : In r1 (r1 :: risks)) by (left; reflexivity).
  assert (Hs : In s1 (s1 :: suggestions)) by (left; reflexivity).
  assert (Er : Risk.product_id r1 = 1%Z)
    by (vm_compute in E1; injection E1 as <- _; reflexivity).
  assert (Es : Purchase.product_id s1 = 1%Z)
    by (vm_compute in E2; injection E2 as <- _; reflexivity).
  assert (Ec : Risk.count (Risk.pending_orders r1) = 1%Z)
    by (vm_compute in E1; injection E1 as <- _; reflexivity).
  assert (Eid : Risk.product_id r1 = Purchase.product_id s1)
    by (rewrite Er, Es; reflexivity).
  destruct (risk_purchase_agree Binary64.fl sufficiency_boundary_db noon
              30 90 7 100 _ _ r1 s1 Hkey E1 E2 Hr Hs Eid)
    as [Hcount [_ [_ [Hfd _]]]].
  exists (r1 :: risks), (s1 :: suggestions), r1, s1.
  split; [reflexivity|]. split; [reflexivity|].
  split; [exact Hr|]. split; [exact Hs|].
  split; [exact Er|]. split; [exact Es|].
  split; [exact Ec|]. split; [exact Hcount|exact Hfd].
Defined.

(** The two reports compute [is_sufficient] by different float formulas
    and can disagree.  With 2.2 units in stock, 46.5 units sold in 90 days
    and 13.3 units on order, stock and order cover the 30-day demand
    exactly: in exact arithmetic both flags are true; in binary64 the risk
    report says the order is sufficient and the purchase suggestion says it
    is not. *)
Example sufficiency_boundary_binary64 :
  (exists r s,
      RiskFloat.detect_imminent_stockout_risk Binary64.fl
        sufficiency_boundary_db noon 30 90 7 = Ok [r]
      /\ PurchaseFloat.suggest_purchase_order Binary64.fl
           sufficiency_boundary_db noon 30 90 100 = Ok [s]
      /\ Risk.is_sufficient (Risk.pending_orders r) = true
      /\ Purchase.is_sufficient (Purchase.pending_orders s) = false)
  /\ (exists r s,
        RiskFloat.detect_imminent_stockout_risk (fun x => x)
          sufficiency_boundary_db noon 30 90 7 = Ok [r]
        /\ PurchaseFloat.suggest_purchase_order (fun x => x)
             sufficiency_boundary_db noon 30 90 100 = Ok [s]
        /\ Risk.is_sufficient (Risk.pending_orders r) = true
        /\ Purchase.is_sufficient (Purchase.pending_orders s) = true).
Proof.
  split.
  - destruct (RiskFloat.detect_imminent_stockout_risk Binary64.fl
                sufficiency_boundary_db noon 30 90 7)
      as [risks|] eqn:E1; vm_compute in E1; [|discriminate E1].
    destruct (PurchaseFloat.suggest_purchase_order Binary64.fl
                sufficiency_boundary_db noon 30 90 100)
      as [suggestions|] eqn:E2; vm_compute in E2; [|discriminate E2].
    injection E1 as <-. injection E2 as <-.
    eexists. eexists. repeat split; reflexivity.
  - destruct (RiskFloat.detect_imminent_stockout_risk (fun x => x)
                sufficiency_boundary_db noon 30 90 7)
      as [risks|] eqn:E1; vm_compute in E1; [|discriminate E1].
    destruct (PurchaseFloat.suggest_purchase_order (fun x => x)
                sufficiency_boundary_db noon 30 90 100)
      as [suggestions|] eqn:E2; vm_compute in E2; [|discriminate E2].
    injection E1 as <-. injection E2 as <-.
    eexists. eexists. repeat split; reflexivity.
Qed.

(** ** Loss detection *)

Lemma walk_count (ms : list StockMovement.t) (acc : Q * Z) :
  snd (fold_left
         (fun acc movement =>
            (fst acc + StockMovement.quantity movement,
             if StockMovement.is_loss movement
             then (snd acc + 1)%Z else snd acc))
         ms acc)
  = (snd acc
     + Z.of_nat (List.length (filter StockMovement.is_loss ms)))%Z.
Proof.
  revert acc. induction ms as [|m ms IH]; intros acc; simpl.
  - lia.
  - rewrite IH. simpl. destruct (StockMovement.is_loss m); simpl; lia.
Qed.

Lemma filter_perm_length {A} (f : A -> bool) (l l' : list A) :
  Permutation l l' ->
  List.length (filter f l) = List.length (filter f l').
Proof.
  induction 1 as [|x l l' Hp IH|x y l|l l' l'' H1 IH1 H2 IH2]; simpl.
  - reflexivity.
  - destruct (f x); simpl; congruence.
  - destruct (f x), (f y); reflexivity.
  - congruence.
Qed.

Lemma loss_row_of_inv (db : Database) (tolerance : Q) (p : Product.t)
    (r : Loss.row) :
  Loss.row_of db tolerance p = Some r ->
  Loss.product_id r = Product.id p
  /\ Loss.current_stock r = Product.current_stock p
  /\ Loss.expected_stock r = Loss.expected_stock_of db (Product.id p)
  /\ Loss.discrepancy r = Loss.expected_stock r - Loss.current_stock r
  /\ Loss.loss_movements r
     = Z.of_nat (List.length
                   (filter StockMovement.is_loss
                      (movements_of db (Product.id p))))
  /\ tolerance
     < Loss.discrepancy_pct (Loss.expected_stock r) (Loss.current_stock r).
Proof.
  unfold Loss.row_of, Loss.expected_stock_of.
  destruct (Loss.movements db (Product.id p)) as [|m ms] eqn:Ems;
    [discriminate|].
  destruct (Loss.walk (m :: ms)) as [e c] eqn:Ew.
  destruct (Qle_bool _ tolerance) eqn:E; [discriminate|].
  apply Qle_bool_false_iff in E.
  intros [= <-]. simpl. repeat split; auto.
  assert (Ec : c = snd (Loss.walk (m :: ms))) by (now rewrite Ew).
  rewrite Ec. unfold Loss.walk. rewrite walk_count. simpl snd.
  rewrite <- Ems. unfold Loss.movements.
  rewrite <- (filter_perm_length _ _ _ (sort_by_perm _ (movements_of db (Product.id p)))).
  lia.
Qed.

(** X8.  Tightening the tolerance never removes a product from the loss
    report: a product reported at a tolerance is reported at every
    smaller one. *)
Theorem loss_tolerance_monotone (db : Database) (tolerance tolerance' : Q)
    (pid : Z) :
  tolerance <= tolerance' ->
  Loss.reported db tolerance' pid ->
  Loss.reported db tolerance pid.
Proof.
  unfold Loss.reported. intros Hle Hin.
  apply in_map_iff in Hin as [r [Eid Hr]].
  destruct (loss_row_origin _ _ _ Hr) as [p [Hp [Ha Hrow]]].
  destruct (loss_row_of_Some _ _ _ _ Hrow) as [Hne [Hlt [Eid' _]]].
  assert (Hlt' : tolerance
                 < Loss.discrepancy_pct
                     (Loss.expected_stock_of db (Product.id p))
                     (Product.current_stock p)) by lra.
  destruct (loss_row_of_reports _ _ _ Hne Hlt') as [r' [Hrow' Eid'']].
  apply in_map_iff. exists r'. split; [congruence|].
  unfold Loss.detect_stock_losses. apply sort_by_In.
  apply in_flat_map. exists p. split.
  - apply filter_In. auto.
  - rewrite Hrow'. now left.
Qed.

Lemma loss_tolerance_monotone_witness :
  2 <= 5 /\ Loss.reported shop_db 5 5 /\ Loss.reported shop_db 2 5.
Proof.
  assert (Hle : 2 <= 5) by discriminate.
  assert (H5 : Loss.reported shop_db 5 5) by (vm_compute; auto).
  split; [exact Hle|]. split; [exact H5|].
  exact (loss_tolerance_monotone shop_db 2 5 5 Hle H5).
Defined.

(** X9.  Every row of the loss report carries the product's recorded
    stock, the signed sum of its movements as [expected_stock], their
    difference as [discrepancy] and the number of its LOSS movements as
    [loss_movements].  With a tolerance that is not negative, neither the
    expected stock nor the discrepancy of a reported row is 0. *)
Theorem loss_row_facts (db : Database) (tolerance : Q) (r : Loss.row) :
  0 <= tolerance ->
  In r (Loss.detect_stock_losses db tolerance) ->
  (exists p, In p (products db)
             /\ Product.is_active p = true
             /\ Product.id p = Loss.product_id r
             /\ Product.current_stock p = Loss.current_stock r)
  /\ Loss.expected_stock r
     == Qsum (map StockMovement.quantity
                (movements_of db (Loss.product_id r)))
  /\ Loss.discrepancy r = Loss.expected_stock r - Loss.current_stock r
  /\ Loss.loss_movements r
     = Z.of_nat (List.length
                   (filter StockMovement.is_loss
                      (movements_of db (Loss.product_id r))))
  /\ ~ Loss.expected_stock r == 0
  /\ ~ Loss.discrepancy r == 0.
Proof.
  intros Htol Hr.
  destruct (loss_row_origin _ _ _ Hr) as [p [Hp [Ha Hrow]]].
  destruct (loss_row_of_inv _ _ _ _ Hrow)
    as [Eid [Ecur [Eexp [Edis [Eloss Hlt]]]]].
  split; [exists p; auto|].
  rewrite Eid.
  split; [rewrite Eexp; apply expected_stock_signed_sum|].
  split; [exact Edis|]. split; [exact Eloss|].
  split.
  - intros Hz.
    rewrite (discrepancy_pct_zero_expected _ _ Hz) in Hlt. lra.
  - intros Hz. rewrite Edis in Hz.
    rewrite discrepancy_pct_consistent in Hlt; [lra|]. lra.
Qed.

Lemma loss_row_facts_witness :
  exists r,
    0 <= 5
    /\ In r (Loss.detect_stock_losses shop_db 5)
    /\ Loss.product_id r = 5%Z
    /\ Loss.loss_movements r = 1%Z
    /\ Loss.discrepancy r = Loss.expected_stock r - Loss.current_stock r
    /\ ~ Loss.discrepancy r == 0.
Proof.
  assert (Htol : 0 <= 5) by discriminate.
  destruct (Loss.detect_stock_losses shop_db 5) as [|r1 [|r2 rows]] eqn:E;
    try (vm_compute in E; discriminate E).
  assert (Hin : In r2 (Loss.detect_stock_losses shop_db 5))
    by (rewrite E; right; now left).
  destruct (loss_row_facts shop_db 5 r2 Htol Hin)
    as [_ [_ [Edis [_ [_ Hne]]]]].
  rewrite E in Hin.
  exists r2. split; [exact Htol|]. split; [exact Hin|].
  split; [vm_compute in E; injection E as _ <- _; reflexivity|].
  split; [vm_compute in E; injection E as _ <- _; reflexivity|].
  split; [exact Edis|exact Hne].
Defined.

(** X10.  The loss report is ordered by severity (CRITICAL, HIGH, MEDIUM)
    and, within a severity, by estimated loss value, largest first. *)
Theorem loss_report_sorted (db : Database) (tolerance : Q) :
  StronglySorted
    (lex_le (fun r => Loss.severity_order (Loss.severity r))
       (fun r => - Loss.estimated_loss_value r))
    (Loss.detect_stock_losses db tolerance).
Proof.
  unfold Loss.detect_stock_losses.
  apply sort_by_lex_sorted. intros y x. reflexivity.
Qed.

(** ** Alert aggregation *)

Lemma In_firstn {A} (n : nat) (l : list A) (x : A) :
  In x (firstn n l) -> In x l.
Proof.
  revert l. induction n as [|n IH]; intros l; simpl; [intros []|].
  destruct l as [|y l]; simpl; [intros []|].
  intros [<-|H]; auto.
Qed.

Lemma critical_alert_origin (d : Alerts.detector_outputs) (a : Alerts.alert) :
  In a (Alerts.collect_critical_alerts d) ->
  (exists r, In r (Alerts.stockout_risks d)
             /\ Alerts.type a = Alerts.IMMINENT_STOCKOUT
             /\ Alerts.product_id a = Some (Risk.product_id r))
  \/ (exists r, In r (Alerts.ruptures d)
                /\ Alerts.type a = Alerts.STOCK_RUPTURE
                /\ Alerts.product_id a = Some (Rupture.product_id r))
  \/ (exists r, In r (Alerts.losses d)
                /\ Alerts.type a = Alerts.STOCK_LOSS
                /\ Alerts.product_id a = Some (Loss.product_id r)).
Proof.
  unfold Alerts.collect_critical_alerts. intros Hin.
  apply in_app_or in Hin as [Hin|Hin]; [|apply in_app_or in Hin as [Hin|Hin]];
    apply in_map_iff in Hin as [r [<- Hr]]; apply In_firstn in Hr.
  - left. apply filter_In in Hr as [Hr _]. exists r. auto.
  - right. left. exists r. auto.
  - right. right. exists r. auto.
Qed.

(** X11.  The dashboard built from one database state (product ids a key)
    holds at most 13 critical alerts, and no product carries both an
    IMMINENT_STOCKOUT and a STOCK_RUPTURE alert. *)
Theorem dashboard_no_double_count (db : Database) (now : datetime)
    (urgent_slow low_stock explicit_losses : list Z)
    (d : Alerts.detector_outputs) :
  product_key db ->
  Alerts.run_detectors db now urgent_slow low_stock explicit_losses = Ok d ->
  (List.length (Alerts.critical_alerts (Alerts.get_stock_alerts d)) <= 13)%nat
  /\ forall a b,
       In a (Alerts.critical_alerts (Alerts.get_stock_alerts d)) ->
       In b (Alerts.critical_alerts (Alerts.get_stock_alerts d)) ->
       Alerts.type a = Alerts.IMMINENT_STOCKOUT ->
       Alerts.type b = Alerts.STOCK_RUPTURE ->
       Alerts.product_id a <> Alerts.product_id b.
Proof.
  intros Hkey Hrun. unfold Alerts.run_detectors in Hrun.
  destruct (Risk.detect_imminent_stockout_risk db now 30 90 7)
    as [risks|] eqn:Erisk; simpl in Hrun; [|discriminate Hrun].
  destruct (Rupture.detect_stock_rupture db now 14)
    as [ruptures|] eqn:Erup; simpl in Hrun; [|discriminate Hrun].
  injection Hrun as <-.
  cbn [Alerts.get_stock_alerts Alerts.critical_alerts]. split.
  - unfold Alerts.collect_critical_alerts.
    rewrite !length_app, !length_map.
    cbn [Alerts.stockout_risks Alerts.ruptures Alerts.losses].
    pose proof (firstn_le_length 5
                  (filter Alerts.is_critical_or_high risks)).
    pose proof (firstn_le_length 5 ruptures).
    pose proof (firstn_le_length 3 (Loss.detect_stock_losses db 5)).
    lia.
  - intros a b Ha Hb Ta Tb Eab.
    apply critical_alert_origin in Ha, Hb.
    destruct Ha as [[r [Hr [_ Ea]]]|[[r [_ [Ta' _]]]|[r [_ [Ta' _]]]]];
      try congruence.
    destruct Hb as [[k [_ [Tb' _]]]|[[k [Hk [_ Eb]]]|[k [_ [Tb' _]]]]];
      try congruence.
    cbn [Alerts.stockout_risks Alerts.ruptures] in Hr, Hk.
    destruct (risk_row_origin _ _ _ _ _ _ _ Erisk Hr)
      as [p [Hp [_ [Hlt Hrow]]]].
    destruct (risk_row_of_fields _ _ _ _ _ _ _ Hrow) as [_ [_ [_ [Eid _]]]].
    destruct (rupture_row_origin _ _ _ _ _ Erup Hk)
      as [p' [_ [Hp' [Eid' [Hle _]]]]].
    assert (E : p = p').
    { apply (key_injective Product.id (products db)); auto. congruence. }
    subst p'. lra.
Qed.

Lemma dashboard_no_double_count_witness :
  product_key shop_db
  /\ exists d,
       Alerts.run_detectors shop_db noon [] [] [] = Ok d
       /\ map Alerts.type (Alerts.critical_alerts (Alerts.get_stock_alerts d))
          = [Alerts.IMMINENT_STOCKOUT; Alerts.IMMINENT_STOCKOUT;
             Alerts.STOCK_RUPTURE; Alerts.STOCK_RUPTURE;
             Alerts.STOCK_LOSS; Alerts.STOCK_LOSS]
       /\ (List.length (Alerts.critical_alerts (Alerts.get_stock_alerts d))
           <= 13)%nat.
Proof.
  split; [exact shop_db_key|].
  destruct (Alerts.run_detectors shop_db noon [] [] []) as [d|] eqn:E;
    [|vm_compute in E; discriminate E].
  exists d. split; [reflexivity|].
  split; [|exact (proj1 (dashboard_no_double_count shop_db noon [] [] [] d
                           shop_db_key E))].
  vm_compute in E. injection E as <-. reflexivity.
Defined.

(** ** ABC classification *)

Lemma StronglySorted_map {A B} (f : A -> B) (R : B -> B -> Prop)
    (l : list A) :
  StronglySorted (fun a b => R (f a) (f b)) l ->
  StronglySorted R (map f l).
Proof.
  induction 1 as [|x l Hs IH Hx]; simpl; constructor; auto.
  apply Forall_map. exact Hx.
Qed.

Lemma classify_metric_values (total cumulative : Q) (l : list Abc.entry) :
  map Abc.metric_value (Abc.classify total cumulative l)
  = map (fun e => py_round_to 2 (Abc.e_metric_value e)) l.
Proof.
  revert cumulative. induction l as [|p l IH]; intros c; simpl;
    [reflexivity|]. now rewrite IH.
Qed.

Lemma sort_desc_sorted (l : list Abc.entry) :
  StronglySorted
    (fun a b => Abc.e_metric_value b <= Abc.e_metric_value a)
    (Abc.sort_desc l).
Proof.
  unfold Abc.sort_desc.
  apply (StronglySorted_impl
           (fun a b => Qlt_bool (Abc.e_metric_value a)
                         (Abc.e_metric_value b) = false)).
  - intros a b H. now apply Qlt_bool_false_iff in H.
  - apply (sort_by_sorted
             (fun y x => Qlt_bool (Abc.e_metric_value x)
                           (Abc.e_metric_value y))).
    + intros x y H. apply Qlt_bool_iff in H. apply Qlt_bool_false_iff. lra.
    + intros a b c H1 H2.
      apply Qlt_bool_false_iff in H1, H2. apply Qlt_bool_false_iff. lra.
Qed.

(** X12.  The classification is ranked: the returned [metric_value]s
    never increase along the list. *)
Theorem abc_ranked_descending (db : Database) (now : datetime)
    (period metric : string) :
  StronglySorted (fun x y => y <= x)
    (map Abc.metric_value (Abc.get_abc_analysis db now period metric)).
Proof.
  rewrite get_abc_analysis_classification. unfold Abc.classification_of.
  rewrite classify_metric_values.
  apply StronglySorted_map.
  eapply StronglySorted_impl; [|apply sort_desc_sorted].
  intros a b H. simpl. now apply py_round_to_mono.
Qed.


Lemma class_of_mono (x y : Q) :
  x <= y -> (abc_rank (Abc.class_of x) <= abc_rank (Abc.class_of y))%Z.
Proof.
  intros H. unfold Abc.class_of.
  destruct (Qle_bool x 80) eqn:Ex80; destruct (Qle_bool y 80) eqn:Ey80;
    destruct (Qle_bool x 95) eqn:Ex95; destruct (Qle_bool y 95) eqn:Ey95;
    simpl; try lia; exfalso;
    repeat match goal with
           | E : Qle_bool _ _ = true |- _ => apply Qle_bool_iff in E
           | E : Qle_bool _ _ = false |- _ => apply Qle_bool_false_iff in E
           end; lra.
Qed.

Lemma classify_class_lower (total : Q) (l : list Abc.entry) :
  Forall (fun p => 0 <= Abc.e_metric_value p) l ->
  forall cumulative,
    Forall (fun r => (abc_rank (Abc.class_of cumulative)
                      <= abc_rank (Abc.abc_class r))%Z)
      (Abc.classify total cumulative l).
Proof.
  induction 1 as [|p l Hp Hl IH]; intros c; simpl; constructor; simpl.
  - apply class_of_mono. pose proof (percentage_nonneg total p Hp). lra.
  - eapply Forall_impl; [|apply IH].
    intros r Hr. simpl in Hr.
    assert (H : (abc_rank (Abc.class_of c)
                 <= abc_rank (Abc.class_of (c + Abc.percentage total p)))%Z).
    { apply class_of_mono. pose proof (percentage_nonneg total p Hp). lra. }
    lia.
Qed.

Lemma classify_class_sorted (total : Q) (l : list Abc.entry) :
  Forall (fun p => 0 <= Abc.e_metric_value p) l ->
  forall cumulative,
    StronglySorted
      (fun a b => (abc_rank (Abc.abc_class a) <= abc_rank (Abc.abc_class b))%Z)
      (Abc.classify total cumulative l).
Proof.
  induction 1 as [|p l Hp Hl IH]; intros c; simpl; constructor.
  - apply IH.
  - simpl. apply classify_class_lower, Hl.
Qed.

(** X13.  When no product has a negative metric value, the classes run
    in blocks along the ranking: every A comes before every B, and every
    B before every C. *)
Theorem abc_classes_in_blocks (db : Database) (now : datetime)
    (period metric : string) :
  Forall (fun r => 0 <= Abc.metric_of metric r)
    (Abc.products_data db (Abc.cutoff_date now period)) ->
  StronglySorted
    (fun a b => (abc_rank (Abc.abc_class a) <= abc_rank (Abc.abc_class b))%Z)
    (Abc.get_abc_analysis db now period metric).
Proof.
  intros Hnn. rewrite get_abc_analysis_classification.
  unfold Abc.classification_of. apply classify_class_sorted.
  apply Forall_forall. intros e He.
  apply (Permutation_in _ (Permutation_sym (sort_desc_perm _))) in He.
  apply in_map_iff in He as [r [<- Hr]].
  rewrite Forall_forall in Hnn. apply (Hnn r Hr).
Qed.

Lemma abc_classes_in_blocks_witness :
  Forall (fun r => 0 <= Abc.metric_of "revenue" r)
    (Abc.products_data shop_db (Abc.cutoff_date noon "quarter"))
  /\ map Abc.abc_class (Abc.get_abc_analysis shop_db noon "quarter" "revenue")
     = [Abc.A; Abc.B; Abc.C; Abc.C; Abc.C]
  /\ StronglySorted
       (fun a b =>
          (abc_rank (Abc.abc_class a) <= abc_rank (Abc.abc_class b))%Z)
       (Abc.get_abc_analysis shop_db noon "quarter" "revenue").
Proof.
  assert (Hnn : Forall (fun r => 0 <= Abc.metric_of "revenue" r)
                  (Abc.products_data shop_db (Abc.cutoff_date noon "quarter")))
    by (vm_compute; repeat constructor; discriminate).
  split; [exact Hnn|]. split; [reflexivity|].
  exact (abc_classes_in_blocks shop_db noon "quarter" "revenue" Hnn).
Defined.




(** ** Slow-moving stock *)

Lemma slow_row_In (db : Database) (now : datetime) (days_threshold : Z)
    (r : SlowMoving.row) :
  In r (SlowMoving.analyze_slow_moving_stock db now days_threshold)
  <-> exists p,
        In p (products db)
        /\ 0 < Product.current_stock p
        /\ SlowMoving.row_of db now days_threshold p = Some r.
Proof.
  unfold SlowMoving.analyze_slow_moving_stock.
  rewrite sort_by_In, in_flat_map. split.
  - intros [p [Hp Hr]]. apply filter_In in Hp as [Hp Hs].
    apply Qlt_bool_iff in Hs.
    destruct (SlowMoving.row_of db now days_threshold p) as [r'|] eqn:E;
      [|destruct Hr].
    destruct Hr as [<-|[]]. exists p. auto.
  - intros [p [Hp [Hs Hrow]]]. exists p. split.
    + apply filter_In. split; [assumption|now apply Qlt_bool_iff].
    + rewrite Hrow. now left.
Qed.

Lemma slow_row_of_inv (db : Database) (now : datetime) (days_threshold : Z)
    (p : Product.t) (r : SlowMoving.row) :
  SlowMoving.row_of db now days_threshold p = Some r ->
  (days_threshold
   <= SlowMoving.days_without_sale_of db now (Product.id p))%Z
  /\ r = SlowMoving.mk_row (Product.id p) (Product.sku p) (Product.name p)
           (category_or_na (Product.category p))
           (Product.current_stock p)
           (py_round_to 2 (Product.current_stock p * Product.cost_price p))
           (SlowMoving.last_sale db (Product.id p))
           (if (SlowMoving.days_without_sale_of db now (Product.id p)
                <? 9999)%Z
            then Some (SlowMoving.days_without_sale_of db now (Product.id p))
            else None)
           (SlowMoving.last_purchase db (Product.id p))
           (SlowMoving.recommendation_of
              (SlowMoving.days_without_sale_of db now (Product.id p))).
Proof.
  unfold SlowMoving.row_of.
  destruct (Z.ltb_spec (SlowMoving.days_without_sale_of db now (Product.id p))
              days_threshold); [discriminate|].
  intros [= <-]. split; [assumption|reflexivity].
Qed.



(** X16.  On a database whose product ids are a key, no product is both
    in the rupture report and in the slow-moving report, whatever their
    parameters. *)
Theorem rupture_slow_exclusive (db : Database) (now now' : datetime)
    (days_lookback days_threshold : Z) (ruptures : list Rupture.row) :
  product_key db ->
  Rupture.detect_stock_rupture db now days_lookback = Ok ruptures ->
  forall pid,
    ~ (In pid (map Rupture.product_id ruptures)
       /\ In pid (map SlowMoving.product_id
                    (SlowMoving.analyze_slow_moving_stock db now'
                       days_threshold))).
Proof.
  intros Hkey Hrup pid [H1 H2].
  apply in_map_iff in H1 as [r [Er Hr]].
  apply in_map_iff in H2 as [k [Ek Hk]].
  destruct (rupture_row_origin _ _ _ _ _ Hrup Hr)
    as [p [_ [Hp [Eid [Hle _]]]]].
  apply slow_row_In in Hk as [p' [Hp' [Hlt Hrow]]].
  destruct (slow_row_of_inv _ _ _ _ _ Hrow) as [_ Ek'].
  assert (E : p = p').
  { apply (key_injective Product.id (products db)); auto.
    rewrite Ek' in Ek. simpl in Ek. congruence. }
  subst p'. lra.
Qed.

Lemma rupture_slow_exclusive_witness :
  product_key shop_db
  /\ exists ruptures,
       Rupture.detect_stock_rupture shop_db noon 14 = Ok ruptures
       /\ map Rupture.product_id ruptures = [1%Z; 6%Z]
       /\ map SlowMoving.product_id
            (SlowMoving.analyze_slow_moving_stock shop_db noon 30)
          = [5%Z; 4%Z; 7%Z]
       /\ ~ (In 1%Z (map Rupture.product_id ruptures)
             /\ In 1%Z (map SlowMoving.product_id
                          (SlowMoving.analyze_slow_moving_stock shop_db noon
                             30))).
Proof.
  split; [exact shop_db_key|].
  destruct (Rupture.detect_stock_rupture shop_db noon 14)
    as [ruptures|] eqn:E; [|vm_compute in E; discriminate E].
  exists ruptures. split; [reflexivity|].
  split; [vm_compute in E; injection E as <-; reflexivity|].
  split; [reflexivity|].
  exact (rupture_slow_exclusive shop_db noon noon 14 30 ruptures
           shop_db_key E 1%Z).
Defined.



(** ** Profitability *)

Lemma profit_row_In (db : Database) (now : datetime) (period : string)
    (min_sales : Z) (r : Profitability.row) :
  In r (Profitability.calculate_profitability_analysis db now period min_sales)
  <-> exists p,
        In p (products db)
        /\ paid_sales_since db (Product.id p) (Abc.cutoff_date now period)
           <> []
        /\ inject_Z min_sales
           <= sum_quantity
                (paid_sales_since db (Product.id p)
                   (Abc.cutoff_date now period))
        /\ r = Profitability.row_of p
                 (paid_sales_since db (Product.id p)
                    (Abc.cutoff_date now period)).
Proof.
  unfold Profitability.calculate_profitability_analysis,
    Profitability.sales_data.
  rewrite sort_by_In, in_flat_map. split.
  - intros [p [Hp Hr]].
    destruct (paid_sales_since db (Product.id p) (Abc.cutoff_date now period))
      as [|s ss] eqn:Es; [destruct Hr|].
    destruct (Qle_bool (inject_Z min_sales) (sum_quantity (s :: ss))) eqn:Eq;
      [|destruct Hr].
    apply Qle_bool_iff in Eq. destruct Hr as [<-|[]].
    exists p. rewrite Es. repeat split; auto. discriminate.
  - intros [p [Hp [Hne [Hmin ->]]]]. exists p. split; [assumption|].
    destruct (paid_sales_since db (Product.id p) (Abc.cutoff_date now period))
      as [|s ss]; [congruence|].
    apply Qle_bool_iff in Hmin. rewrite Hmin. now left.
Qed.

Lemma margin_ge (revenue cost k : Q) :
  0 < revenue ->
  (k <= (revenue - cost) / revenue * 100
   <-> k * revenue <= (revenue - cost) * 100).
Proof.
  intros Hr.
  assert (E : (revenue - cost) * 100
              == (revenue - cost) / revenue * 100 * revenue)
    by (field; lra).
  rewrite E. symmetry. apply Qmult_le_r. exact Hr.
Qed.

Lemma margin_lt (revenue cost k : Q) :
  0 < revenue ->
  ((revenue - cost) / revenue * 100 < k
   <-> (revenue - cost) * 100 < k * revenue).
Proof.
  intros Hr. pose proof (margin_ge revenue cost k Hr) as H.
  split; intros Hlt; apply Qnot_le_lt; intros Hle; apply H in Hle;
    apply (Qlt_not_le _ _ Hlt); assumption.
Qed.

Lemma profit_float_row_In (rnd : Q -> Q)
    (sales_data : list ProfitabilityFloat.query_row) (r : Profitability.row) :
  In r (ProfitabilityFloat.results rnd sales_data)
  <-> exists q, In q sales_data /\ r = ProfitabilityFloat.row_of rnd q.
Proof.
  unfold ProfitabilityFloat.results. rewrite sort_by_In, in_map_iff.
  split; intros [q [H1 H2]]; exists q; auto.
Qed.

Lemma rating_of_bands (m : Q) :
  (Profitability.rating_of m = Profitability.HIGH <-> 40 <= m)
  /\ (Profitability.rating_of m = Profitability.MEDIUM <-> 25 <= m /\ m < 40)
  /\ (Profitability.rating_of m = Profitability.LOW <-> 10 <= m /\ m < 25)
  /\ (Profitability.rating_of m = Profitability.POOR <-> m < 10).
Proof.
  unfold Profitability.rating_of.
  destruct (Qle_bool 40 m) eqn:E40; [|destruct (Qle_bool 25 m) eqn:E25;
    [|destruct (Qle_bool 10 m) eqn:E10]];
    repeat match goal with
           | E : Qle_bool _ _ = true |- _ => apply Qle_bool_iff in E
           | E : Qle_bool _ _ = false |- _ => apply Qle_bool_false_iff in E
           end;
    repeat split; intros;
    first [reflexivity | congruence | lra | exfalso; lra].
Qed.

(** X18.  Rating of the profitability analysis.  The loop runs on floats.
    For every row of the report, whatever rows the query returned: the
    rating is HIGH, MEDIUM, LOW or POOR as the float margin is at least 40,
    from 25 to below 40, from 10 to below 25, or below 10; the margin is 0
    when the revenue is not positive, and it is not positive when the
    float profit is not positive, so both cases are POOR; and the margin
    shown, rounded to one decimal, stays within the closed band of the
    rating.  This holds for every rounding of the float format that is
    monotone and leaves 0, 10, 25 and 40 as they are. *)
Theorem profitability_rating_bands (rnd : Q -> Q)
    (sales_data : list ProfitabilityFloat.query_row)
    (r : Profitability.row) :
  rounding rnd ->
  rnd 10 == 10 -> rnd 25 == 25 -> rnd 40 == 40 ->
  In r (ProfitabilityFloat.results rnd sales_data) ->
  exists q,
    In q sales_data
    /\ Profitability.product_id r = Product.id (ProfitabilityFloat.q_product q)
    /\ let R := rnd (ProfitabilityFloat.q_total_revenue q) in
       let G := ProfitabilityFloat.gross_profit_of rnd q in
       let m := ProfitabilityFloat.margin_of rnd q in
       Profitability.gross_profit r = float_round rnd 2 G
       /\ Profitability.profit_margin_pct r = float_round rnd 1 m
       /\ (0 < R -> m = rnd (rnd (G / R) * 100))
       /\ (R <= 0 \/ G <= 0 ->
           m <= 0
           /\ Profitability.profitability_rating r = Profitability.POOR)
       /\ (Profitability.profitability_rating r = Profitability.HIGH
           <-> 40 <= m)
       /\ (Profitability.profitability_rating r = Profitability.MEDIUM
           <-> 25 <= m /\ m < 40)
       /\ (Profitability.profitability_rating r = Profitability.LOW
           <-> 10 <= m /\ m < 25)
       /\ (Profitability.profitability_rating r = Profitability.POOR
           <-> m < 10)
       /\ (Profitability.profitability_rating r = Profitability.HIGH ->
           40 <= Profitability.profit_margin_pct r)
       /\ (Profitability.profitability_rating r = Profitability.MEDIUM ->
           25 <= Profitability.profit_margin_pct r
           /\ Profitability.profit_margin_pct r <= 40)
       /\ (Profitability.profitability_rating r = Profitability.LOW ->
           10 <= Profitability.profit_margin_pct r
           /\ Profitability.profit_margin_pct r <= 25)
       /\ (Profitability.profitability_rating r = Profitability.POOR ->
           Profitability.profit_margin_pct r <= 10).
Proof.
  intros Hrnd H10 H25 H40 Hr.
  apply profit_float_row_In in Hr as [q [Hq ->]].
  exists q. split; [exact Hq|]. split; [reflexivity|].
  cbv zeta. unfold ProfitabilityFloat.row_of.
  cbn [Profitability.gross_profit Profitability.profit_margin_pct
       Profitability.profitability_rating].
  set (R := rnd (ProfitabilityFloat.q_total_revenue q)).
  set (G := ProfitabilityFloat.gross_profit_of rnd q).
  set (m := ProfitabilityFloat.margin_of rnd q).
  destruct (rating_of_bands m) as [BH [BM [BL BP]]].
  assert (Hnonpos : R <= 0 \/ G <= 0 -> m <= 0).
  { intros H. unfold m, ProfitabilityFloat.margin_of. fold R. fold G.
    destruct (Qlt_bool 0 R) eqn:ER; [|apply Qle_refl].
    apply Qlt_bool_iff in ER.
    destruct H as [H|H]; [exfalso; lra|].
    apply (rounding_nonpos rnd Hrnd).
    assert (Hq' : rnd (G / R) <= 0).
    { apply (rounding_nonpos rnd Hrnd).
      apply Qle_shift_div_r; [exact ER|lra]. }
    set (x := rnd (G / R)) in *. clearbody x. lra. }
  split; [reflexivity|]. split; [reflexivity|].
  split.
  { intros HR. unfold m, ProfitabilityFloat.margin_of. fold R. fold G.
    apply Qlt_bool_iff in HR. now rewrite HR. }
  split.
  { intros H. split; [now apply Hnonpos|].
    apply BP. specialize (Hnonpos H). lra. }
  split; [exact BH|]. split; [exact BM|]. split; [exact BL|].
  split; [exact BP|].
  change 10 with (inject_Z 10) in H10 |- *.
  change 25 with (inject_Z 25) in H25 |- *.
  change 40 with (inject_Z 40) in H40 |- *.
  split; [|split; [|split]].
  - intros H. apply BH in H.
    apply (float_round_ge_Z rnd Hrnd); assumption.
  - intros H. apply BM in H as [Hlo Hhi]. split.
    + apply (float_round_ge_Z rnd Hrnd); assumption.
    + apply (float_round_le_Z rnd Hrnd); [assumption|].
      apply Qlt_le_weak. exact Hhi.
  - intros H. apply BL in H as [Hlo Hhi]. split.
    + apply (float_round_ge_Z rnd Hrnd); assumption.
    + apply (float_round_le_Z rnd Hrnd); [assumption|].
      apply Qlt_le_weak. exact Hhi.
  - intros H. apply BP in H.
    apply (float_round_le_Z rnd Hrnd); [assumption|].
    apply Qlt_le_weak. exact H.
Qed.

Lemma profitability_rating_bands_witness :
  exists r q,
    In r (ProfitabilityFloat.calculate_profitability_analysis Binary64.fl
            margin_boundary_db noon "month" 1)
    /\ In q (ProfitabilityFloat.query margin_boundary_db
               (Abc.cutoff_date noon "month") 1)
    /\ Profitability.product_id r = Product.id (ProfitabilityFloat.q_product q)
    /\ ProfitabilityFloat.margin_of Binary64.fl q < 10
    /\ Profitability.profitability_rating r = Profitability.POOR
    /\ Profitability.profit_margin_pct r <= 10.
Proof.
  destruct (ProfitabilityFloat.calculate_profitability_analysis Binary64.fl
              margin_boundary_db noon "month" 1) as [|r rows] eqn:E;
    [vm_compute in E; discriminate E|].
  assert (Hin : In r (ProfitabilityFloat.results Binary64.fl
                        (ProfitabilityFloat.query margin_boundary_db
                           (Abc.cutoff_date noon "month") 1))).
  { unfold ProfitabilityFloat.calculate_profitability_analysis in E.
    rewrite E. left; reflexivity. }
  assert (H10 : Binary64.fl 10 == 10) by (vm_compute; reflexivity).
  assert (H25 : Binary64.fl 25 == 25) by (vm_compute; reflexivity).
  assert (H40 : Binary64.fl 40 == 40) by (vm_compute; reflexivity).
  destruct (profitability_rating_bands Binary64.fl _ r fl_rounding
              H10 H25 H40 Hin)
    as [q [Hq [Eid [_ [_ [_ [_ [_ [_ [_ [HP [_ [_ [_ HPm]]]]]]]]]]]]]].
  assert (Hrating : Profitability.profitability_rating r = Profitability.POOR)
    by (vm_compute in E; injection E as <- _; reflexivity).
  exists r, q. split; [left; reflexivity|]. split; [exact Hq|].
  split; [exact Eid|]. split; [apply HP; exact Hrating|].
  split; [exact Hrating|]. apply HPm. exact Hrating.
Defined.

(** The margin is a float quotient.  One unit sold for 3.00 that costs
    2.70 has a margin of 10% in exact arithmetic, which is rated LOW; the
    binary64 margin is just below 10, so the rating is POOR, and the margin
    shown is 10.0. *)
Example margin_boundary_binary64 :
  (exists r,
      ProfitabilityFloat.calculate_profitability_analysis Binary64.fl
        margin_boundary_db noon "month" 1 = [r]
      /\ Profitability.profit_margin_pct r == 10
      /\ Profitability.profitability_rating r = Profitability.POOR)
  /\ (exists r,
        ProfitabilityFloat.calculate_profitability_analysis (fun x => x)
          margin_boundary_db noon "month" 1 = [r]
        /\ Profitability.profit_margin_pct r == 10
        /\ Profitability.profitability_rating r = Profitability.LOW).
Proof.
  split.
  - eexists. split; [vm_compute; reflexivity|]. split; reflexivity.
  - eexists. split; [vm_compute; reflexivity|]. split; reflexivity.
Qed.

Lemma classify_In (total cumulative : Q) (l : list Abc.entry)
    (e : Abc.entry) :
  In e l ->
  exists c,
    In c (Abc.classify total cumulative l)
    /\ Abc.product_id c = Abc.e_product_id e
    /\ Abc.metric_value c = py_round_to 2 (Abc.e_metric_value e)
    /\ Abc.total_revenue c = py_round_to 2 (Abc.e_total_revenue e).
Proof.
  revert cumulative. induction l as [|p l IH]; intros c; [intros []|].
  intros [<-|Hin].
  - eexists. split; [now left|]. simpl. auto.
  - destruct (IH (c + Abc.percentage total p) Hin) as [x [Hx H]].
    exists x. split; [now right|exact H].
Qed.

(** X19.  The profitability analysis and the ABC classification by
    profit agree: every product of the profitability analysis of a period
    is in the ABC classification of that period under the profit metric,
    with [metric_value] equal to its [gross_profit] and the same
    [total_revenue]. *)
Theorem profitability_abc_agree (db : Database) (now : datetime)
    (period : string) (min_sales : Z) (r : Profitability.row) :
  In r (Profitability.calculate_profitability_analysis db now period
          min_sales) ->
  exists c,
    In c (Abc.get_abc_analysis db now period "profit")
    /\ Abc.product_id c = Profitability.product_id r
    /\ Abc.metric_value c = Profitability.gross_profit r
    /\ Abc.total_revenue c = Profitability.total_revenue r.
Proof.
  intros Hr. apply profit_row_In in Hr as [p [Hp [Hne [_ ->]]]].
  rewrite get_abc_analysis_classification. unfold Abc.classification_of.
  set (rows := paid_sales_since db (Product.id p)
                 (Abc.cutoff_date now period)) in *.
  set (e := Abc.entry_of "profit"
              (Abc.mk_row (Product.id p) (Product.sku p) (Product.name p)
                 (Product.category p) (Product.cost_price p)
                 (sum_revenue rows) (sum_quantity rows))).
  assert (He : In e (Abc.sort_desc
                       (map (Abc.entry_of "profit")
                          (Abc.products_data db
                             (Abc.cutoff_date now period))))).
  { apply (Permutation_in _ (sort_desc_perm _)).
    apply in_map. unfold Abc.products_data. apply in_flat_map.
    exists p. split; [assumption|]. fold rows.
    destruct rows; [congruence|]. now left. }
  destruct (classify_In
              (Qsum (map Abc.e_metric_value
                       (Abc.sort_desc
                          (map (Abc.entry_of "profit")
                             (Abc.products_data db
                                (Abc.cutoff_date now period))))))
              0 _ e He) as [c [Hc [Eid [Em Er]]]].
  exists c. split; [exact Hc|]. rewrite Eid, Em, Er. repeat split.
Qed.

Lemma profitability_abc_agree_witness :
  exists r c,
    In r (Profitability.calculate_profitability_analysis abc_loss_db noon
            "month" 1)
    /\ In c (Abc.get_abc_analysis abc_loss_db noon "month" "profit")
    /\ Abc.product_id c = Profitability.product_id r
    /\ Abc.metric_value c = Profitability.gross_profit r.
Proof.
  destruct (Profitability.calculate_profitability_analysis abc_loss_db noon
              "month" 1) as [|r1 rows] eqn:E;
    try (vm_compute in E; discriminate E).
  assert (Hin : In r1 (Profitability.calculate_profitability_analysis
                         abc_loss_db noon "month" 1))
    by (rewrite E; now left).
  destruct (profitability_abc_agree abc_loss_db noon "month" 1 r1 Hin)
    as [c [Hc [Eid [Em _]]]].
  exists r1, c. rewrite E in Hin. auto.
Defined.

Lemma sort_by_idempotent {A} (before : A -> A -> bool) (l : list A) :
  StronglySorted (fun a b => before b a = false) l ->
  sort_by before l = l.
Proof.
  induction 1 as [|x l Hs IH Hx]; simpl; [reflexivity|].
  rewrite IH. destruct l as [|y ys]; [reflexivity|].
  simpl. inversion Hx as [|? ? Hy _]; subst. now rewrite Hy.
Qed.

Lemma by_profit_desc_sorted (l : list Profitability.row) :
  StronglySorted (fun a b => Profitability.by_profit_desc b a = false)
    (sort_by Profitability.by_profit_desc l).
Proof.
  apply sort_by_sorted; unfold Profitability.by_profit_desc.
  - intros x y H. apply Qlt_bool_iff in H. apply Qlt_bool_false_iff. lra.
  - intros a b c H1 H2.
    apply Qlt_bool_false_iff in H1, H2. apply Qlt_bool_false_iff. lra.
Qed.

Lemma profit_partition (l : list Profitability.row) :
  (List.length (filter (fun p => Qlt_bool 0 (Profitability.gross_profit p)) l)
   + List.length
       (filter (fun p => Qle_bool (Profitability.gross_profit p) 0) l)
   = List.length l)%nat.
Proof.
  induction l as [|r l IH]; simpl; [reflexivity|].
  unfold Qlt_bool.
  destruct (Qle_bool (Profitability.gross_profit r) 0); simpl;
    unfold Qlt_bool in IH; lia.
Qed.

(** X20.  In the profitability summary the profitable and the
    unprofitable products add up to the products analysed, and the top
    profit makers are the first five rows of the analysis, in its order
    (re-sorting the sorted analysis changes nothing). *)
Theorem profitability_summary_counts (db : Database) (now : datetime)
    (period : string) :
  Profitability.products_analyzed
    (Profitability.get_profitability_summary db now period)
  = Z.of_nat (List.length
                (Profitability.calculate_profitability_analysis db now
                   period 1))
  /\ (Profitability.profitable_products
        (Profitability.get_profitability_summary db now period)
      + Profitability.unprofitable_products
          (Profitability.get_profitability_summary db now period)
      = Profitability.products_analyzed
          (Profitability.get_profitability_summary db now period))%Z
  /\ Profitability.top_profit_makers
       (Profitability.get_profitability_summary db now period)
     = map Profitability.performer_of
         (firstn 5
            (Profitability.calculate_profitability_analysis db now period 1)).
Proof.
  unfold Profitability.get_profitability_summary.
  pose proof (by_profit_desc_sorted
                (Profitability.sales_data db (Abc.cutoff_date now period) 1))
    as Hsorted.
  fold (Profitability.calculate_profitability_analysis db now period 1)
    in Hsorted.
  destruct (Profitability.calculate_profitability_analysis db now period 1)
    as [|r rows] eqn:E.
  - simpl. repeat split.
  - cbn [Profitability.products_analyzed Profitability.profitable_products
         Profitability.unprofitable_products Profitability.top_profit_makers].
    split; [reflexivity|]. split.
    + rewrite <- Nat2Z.inj_add. f_equal. apply profit_partition.
    + now rewrite (sort_by_idempotent _ _ Hsorted).
Qed.

(** ** Inventory age *)

Lemma bracket_indicator (it : InventoryAge.item) :
  fold_right Z.add 0%Z
    (map (fun b => if InventoryAge.in_bracket b it then 1%Z else 0%Z)
       InventoryAge.brackets)
  = if ((0 <=? InventoryAge.age_days it)%Z
        && (InventoryAge.age_days it <=? 9999)%Z)%bool
    then 1%Z else 0%Z.
Proof.
  unfold InventoryAge.brackets, InventoryAge.in_bracket. simpl.
  set (a := InventoryAge.age_days it).
  repeat match goal with
         | |- context [(?x <=? ?y)%Z] =>
             destruct (Z.leb_spec x y); try lia
         end; reflexivity.
Qed.

Lemma bracket_counts_sum (items : list InventoryAge.item)
    (bs : list InventoryAge.bracket) :
  fold_right Z.add 0%Z
    (map (fun b => Z.of_nat (List.length
                               (filter (InventoryAge.in_bracket b) items)))
       bs)
  = fold_right Z.add 0%Z
      (map (fun it =>
              fold_right Z.add 0%Z
                (map (fun b => if InventoryAge.in_bracket b it
                               then 1%Z else 0%Z) bs))
         items).
Proof.
  induction items as [|it items IH]; simpl.
  - induction bs as [|b bs IHb]; simpl; [reflexivity|]. now rewrite IHb.
  - rewrite <- IH. clear IH.
    induction bs as [|b bs IHb]; simpl; [reflexivity|].
    destruct (InventoryAge.in_bracket b it); simpl List.length;
      rewrite ?Nat2Z.inj_succ; lia.
Qed.

(** X21.  The five age brackets count exactly the stocked products whose
    age lies between 0 and 9999 days: a product whose last purchase
    movement is dated in the future (negative age) or is older than 9999
    days is counted in [total_products] but in no bracket. *)
Theorem inventory_age_brackets (db : Database) (now : datetime) :
  InventoryAge.total_products
    (InventoryAge.get_inventory_age_distribution db now)
  = Z.of_nat (List.length (InventoryAge.age_data db now))
  /\ fold_right Z.add 0%Z
       (map InventoryAge.products_count
          (InventoryAge.age_brackets
             (InventoryAge.get_inventory_age_distribution db now)))
     = Z.of_nat
         (List.length
            (filter (fun it => (0 <=? InventoryAge.age_days it)%Z
                               && (InventoryAge.age_days it <=? 9999)%Z)
               (InventoryAge.age_data db now))).
Proof.
  unfold InventoryAge.get_inventory_age_distribution.
  cbn [InventoryAge.total_products InventoryAge.age_brackets].
  split; [reflexivity|].
  rewrite map_map.
  cbn [InventoryAge.bracket_row_of InventoryAge.products_count].
  rewrite (bracket_counts_sum (InventoryAge.age_data db now)
             InventoryAge.brackets).
  induction (InventoryAge.age_data db now) as [|it items IH];
    [reflexivity|].
  cbn [map fold_right filter]. rewrite IH, bracket_indicator.
  destruct ((0 <=? InventoryAge.age_days it)%Z
            && (InventoryAge.age_days it <=? 9999)%Z)%bool;
    simpl List.length; rewrite ?Nat2Z.inj_succ; lia.
Qed.

Lemma oldest_of_invariant (items seen : list InventoryAge.item)
    (o : option InventoryAge.oldest) (m : Z) :
  ((0 <= m)%Z
   /\ (forall it, In it seen -> (InventoryAge.age_days it <= m)%Z)
   /\ match o with
      | None => m = 0%Z
      | Some x =>
          InventoryAge.o_age_days x = m /\ (0 < m)%Z
          /\ exists it, In it seen
                        /\ InventoryAge.age_days it = m
                        /\ InventoryAge.o_name x
                           = Product.name (InventoryAge.product it)
      end) ->
  let res :=
    fold_left
      (fun acc it =>
         if (snd acc <? InventoryAge.age_days it)%Z
         then (Some (InventoryAge.mk_oldest
                       (Product.name (InventoryAge.product it))
                       (Product.sku (InventoryAge.product it))
                       (InventoryAge.age_days it)
                       (Product.current_stock (InventoryAge.product it))
                       (InventoryAge.stock_value it)),
               InventoryAge.age_days it)
         else acc)
      items (o, m) in
  (0 <= snd res)%Z
  /\ (forall it, In it (seen ++ items) ->
                 (InventoryAge.age_days it <= snd res)%Z)
  /\ match fst res with
     | None => snd res = 0%Z
     | Some x =>
         InventoryAge.o_age_days x = snd res /\ (0 < snd res)%Z
         /\ exists it, In it (seen ++ items)
                       /\ InventoryAge.age_days it = snd res
                       /\ InventoryAge.o_name x
                          = Product.name (InventoryAge.product it)
     end.
Proof.
  revert seen o m. induction items as [|it items IH]; intros seen o m Hinv.
  - simpl. rewrite app_nil_r. exact Hinv.
  - cbn [fold_left snd].
    replace (seen ++ it :: items) with ((seen ++ [it]) ++ items)
      by (rewrite <- app_assoc; reflexivity).
    destruct Hinv as [Hm [Hall Ho]].
    destruct (Z.ltb_spec m (InventoryAge.age_days it)) as [Hlt|Hge].
    + apply IH. split; [lia|]. split.
      * intros x Hx. apply in_app_or in Hx as [Hx|[<-|[]]]; [|lia].
        specialize (Hall x Hx). lia.
      * cbn [InventoryAge.o_age_days InventoryAge.o_name].
        split; [reflexivity|]. split; [lia|].
        exists it. split; [apply in_or_app; right; now left|]. auto.
    + apply IH. split; [lia|]. split.
      * intros x Hx. apply in_app_or in Hx as [Hx|[<-|[]]]; [|lia].
        now apply Hall.
      * destruct o as [x|]; [|exact Ho].
        destruct Ho as [H1 [H2 [y [Hy H3]]]].
        split; [exact H1|]. split; [exact H2|].
        exists y. split; [apply in_or_app; now left|exact H3].
Qed.

(** X22.  [oldest_product] is the first product of greatest age when
    that age is positive, and is missing otherwise: when every stocked
    product was received today (or is dated in the future) no oldest
    product is returned, although products were analysed. *)
Theorem inventory_oldest_product (db : Database) (now : datetime) :
  match InventoryAge.oldest_product
          (InventoryAge.get_inventory_age_distribution db now) with
  | None =>
      forall it, In it (InventoryAge.age_data db now) ->
                 (InventoryAge.age_days it <= 0)%Z
  | Some x =>
      (0 < InventoryAge.o_age_days x)%Z
      /\ (forall it, In it (InventoryAge.age_data db now) ->
            (InventoryAge.age_days it <= InventoryAge.o_age_days x)%Z)
      /\ exists it, In it (InventoryAge.age_data db now)
                    /\ InventoryAge.age_days it = InventoryAge.o_age_days x
                    /\ InventoryAge.o_name x
                       = Product.name (InventoryAge.product it)
  end.
Proof.
  unfold InventoryAge.get_inventory_age_distribution.
  cbn [InventoryAge.oldest_product]. unfold InventoryAge.oldest_of.
  pose proof (oldest_of_invariant (InventoryAge.age_data db now) [] None 0)
    as H.
  cbv zeta in H. simpl app in H.
  destruct H as [Hm [Hall Ho]].
  { split; [lia|]. split; [intros it []|reflexivity]. }
  destruct (fst (fold_left _ (InventoryAge.age_data db now) (None, 0%Z)))
    as [x|].
  - destruct Ho as [H1 [H2 H3]]. rewrite H1.
    split; [exact H2|]. split; [exact Hall|exact H3].
  - intros it Hit. specialize (Hall it Hit). lia.
Qed.

(** Products received today: two products analysed, all in the first
    bracket, and no oldest product. *)
Example fresh_stock_has_no_oldest :
  InventoryAge.total_products
    (InventoryAge.get_inventory_age_distribution fresh_db noon) = 2%Z
  /\ map InventoryAge.products_count
       (InventoryAge.age_brackets
          (InventoryAge.get_inventory_age_distribution fresh_db noon))
     = [2%Z; 0%Z; 0%Z; 0%Z; 0%Z]
  /\ InventoryAge.oldest_product
       (InventoryAge.get_inventory_age_distribution fresh_db noon) = None.
Proof. repeat split; reflexivity. Qed.

(** A purchase dated ten days ahead: four products analysed, three in
    the brackets. *)
Example future_purchase_in_no_bracket :
  InventoryAge.total_products
    (InventoryAge.get_inventory_age_distribution ages_db noon) = 4%Z
  /\ map InventoryAge.products_count
       (InventoryAge.age_brackets
          (InventoryAge.get_inventory_age_distribution ages_db noon))
     = [1%Z; 0%Z; 1%Z; 0%Z; 1%Z].
Proof. split; reflexivity. Qed.

(** ** Supplier performance *)

Lemma py_min_le_l (a b : Q) : py_min a b <= a.
Proof.
  unfold py_min. destruct (Qlt_bool b a) eqn:E; [|lra].
  apply Qlt_bool_iff in E. lra.
Qed.

Lemma py_min_le_r (a b : Q) : py_min a b <= b.
Proof.
  unfold py_min. destruct (Qlt_bool b a) eqn:E; [lra|].
  apply Qlt_bool_false_iff in E. lra.
Qed.

Lemma py_max_le (a b c : Q) : a <= c -> b <= c -> py_max a b <= c.
Proof.
  intros Ha Hb. unfold py_max. destruct (Qlt_bool a b); assumption.
Qed.

Lemma py_round_to_le_Z (n : nat) (x : Q) (k : Z) :
  x <= inject_Z k -> py_round_to n x <= inject_Z k.
Proof.
  intros H. rewrite <- (py_round_to_inject_Z n k).
  now apply py_round_to_mono.
Qed.

Lemma py_round_to_ge_Z (n : nat) (x : Q) (k : Z) :
  inject_Z k <= x -> inject_Z k <= py_round_to n x.
Proof.
  intros H. rewrite <- (py_round_to_inject_Z n k).
  now apply py_round_to_mono.
Qed.

Lemma sort_results_In (metric : string)
    (results : list SupplierPerformance.row) (r : SupplierPerformance.row) :
  In r (SupplierPerformance.sort_results metric results) <-> In r results.
Proof.
  unfold SupplierPerformance.sort_results.
  repeat match goal with
         | |- context [if ?b then _ else _] => destruct b
         end; apply sort_by_In.
Qed.

(** What one turn of the loop over a supplier's products keeps true. *)
Lemma visit_inv (db : Database) (now : datetime) (days_period : Z)
    (c c' : SupplierPerformance.counters) (p : Product.t) :
  SupplierPerformance.visit db now days_period c p = Ok c' ->
  (0 <= SupplierPerformance.slow_moving_count c
   <= SupplierPerformance.in_stock_count c)%Z ->
  (0 <= SupplierPerformance.slow_moving_count c'
   <= SupplierPerformance.in_stock_count c')%Z
  /\ (SupplierPerformance.in_stock_count c'
      <= SupplierPerformance.in_stock_count c + 1)%Z.
Proof.
  unfold SupplierPerformance.visit. intros H Hc.
  destruct (Qlt_bool 0 (Product.current_stock p));
    rewrite ?andb_true_r, ?andb_false_r in H;
    destruct (Qlt_bool 0 _) in H;
    try (destruct (div_days _ _) in H; simpl in H; [|discriminate H]);
    try destruct (Nat.eqb _ 0) in H;
    injection H as <-; simpl; lia.
Qed.

Lemma visit_all_inv (db : Database) (now : datetime) (days_period : Z)
    (l : list Product.t) (c c' : SupplierPerformance.counters) :
  SupplierPerformance.visit_all db now days_period c l = Ok c' ->
  (0 <= SupplierPerformance.slow_moving_count c
   <= SupplierPerformance.in_stock_count c)%Z ->
  (0 <= SupplierPerformance.slow_moving_count c'
   <= SupplierPerformance.in_stock_count c')%Z
  /\ (SupplierPerformance.in_stock_count c'
      <= SupplierPerformance.in_stock_count c + Z.of_nat (List.length l))%Z.
Proof.
  revert c. induction l as [|p l IH]; simpl; intros c H Hc.
  - injection H as <-. lia.
  - destruct (SupplierPerformance.visit db now days_period c p) as [c1|] eqn:E;
      simpl in H; [|discriminate H].
    destruct (visit_inv _ _ _ _ _ _ E Hc) as [H1 H2].
    destruct (IH c1 H H1) as [H3 H4]. lia.
Qed.

(** Products without a PAID sale in the period leave the turnover rates
    alone, and the loop over them does not divide. *)
Lemma visit_all_no_sales (db : Database) (now : datetime) (days_period : Z)
    (l : list Product.t) (c : SupplierPerformance.counters) :
  (forall p, In p l ->
             paid_sales_since db (Product.id p)
               (date_of (minus_days now days_period)) = []) ->
  exists c',
    SupplierPerformance.visit_all db now days_period c l = Ok c'
    /\ SupplierPerformance.turnover_rates c'
       = SupplierPerformance.turnover_rates c.
Proof.
  revert c. induction l as [|p l IH]; simpl; intros c H.
  - exists c. split; reflexivity.
  - unfold SupplierPerformance.visit at 1.
    rewrite (H p (or_introl eq_refl)).
    change (Qlt_bool 0 (sum_quantity [])) with false. cbv iota. simpl bind.
    match goal with
    | |- exists c', SupplierPerformance.visit_all _ _ _ ?c1 _ = _ /\ _ =>
        destruct (IH c1 (fun q Hq => H q (or_intror Hq))) as [c' [E1 E2]]
    end.
    exists c'. split; [exact E1|]. rewrite E2. reflexivity.
Qed.

(** The row built for a supplier, with the intermediate values of the
    loop body. *)
Lemma supplier_row_of_inv (db : Database) (now : datetime) (days_period : Z)
    (s : Supplier.t) (r : SupplierPerformance.row) :
  SupplierPerformance.row_of db now days_period s = Ok (Some r) ->
  exists c avg pct,
    SupplierPerformance.visit_all db now days_period
      (SupplierPerformance.mk_counters [] 0 0)
      (SupplierPerformance.purchased_products db (Supplier.id s)) = Ok c
    /\ SupplierPerformance.purchased_products db (Supplier.id s) <> []
    /\ avg = match SupplierPerformance.turnover_rates c with
             | [] => 0
             | rates => Qsum rates / inject_Z (Z.of_nat (List.length rates))
             end
    /\ pct = inject_Z (SupplierPerformance.slow_moving_count c)
             / inject_Z
                 (Z.of_nat
                    (List.length
                       (SupplierPerformance.purchased_products db
                          (Supplier.id s)))) * 100
    /\ r = SupplierPerformance.mk_row (Supplier.id s) (Supplier.name s)
             (Supplier.tax_id s)
             (Z.of_nat
                (List.length
                   (SupplierPerformance.purchased_products db (Supplier.id s))))
             (SupplierPerformance.total_purchased_of db (Supplier.id s)
                (date_of (minus_days now days_period)))
             (sum_revenue
                (SupplierPerformance.paid_sales_in db
                   (map Product.id
                      (SupplierPerformance.purchased_products db
                         (Supplier.id s)))
                   (date_of (minus_days now days_period))))
             (py_round_to 3 avg)
             (SupplierPerformance.in_stock_count c)
             (SupplierPerformance.slow_moving_count c)
             (py_round_to 1 pct)
             (py_round_to 1
                (SupplierPerformance.performance_score_of avg
                   (sum_revenue
                      (SupplierPerformance.paid_sales_in db
                         (map Product.id
                            (SupplierPerformance.purchased_products db
                               (Supplier.id s)))
                         (date_of (minus_days now days_period))))
                   pct))
             (SupplierPerformance.rating_of
                (SupplierPerformance.performance_score_of avg
                   (sum_revenue
                      (SupplierPerformance.paid_sales_in db
                         (map Product.id
                            (SupplierPerformance.purchased_products db
                               (Supplier.id s)))
                         (date_of (minus_days now days_period))))
                   pct)).
Proof.
  unfold SupplierPerformance.row_of.
  destruct (SupplierPerformance.purchased_products db (Supplier.id s))
    as [|p0 l0] eqn:Ep; [discriminate|].
  destruct (SupplierPerformance.visit_all db now days_period _ (p0 :: l0))
    as [c|] eqn:Ev; simpl bind; [|discriminate].
  intros [= <-].
  eexists c, _, _.
  split; [reflexivity|]. split; [discriminate|].
  split; [reflexivity|]. split; [reflexivity|]. reflexivity.
Qed.

Lemma supplier_row_origin (st : Store) (now : datetime) (metric : string)
    (days_period : Z) (rows : list SupplierPerformance.row)
    (r : SupplierPerformance.row) :
  SupplierPerformance.analyze_supplier_performance st now metric days_period
  = Ok rows ->
  In r rows ->
  exists s,
    In s (suppliers st) /\ Supplier.is_active s = true
    /\ SupplierPerformance.row_of (tables st) now days_period s = Ok (Some r).
Proof.
  unfold SupplierPerformance.analyze_supplier_performance.
  destruct (for_each _ _) as [results|] eqn:E; simpl; [|discriminate].
  intros [= <-] Hin. apply sort_results_In in Hin.
  destruct (for_each_In _ _ _ _ E Hin) as [s [Hs Hr]].
  apply filter_In in Hs. destruct Hs as [Hs Ha].
  exists s. auto.
Qed.

(** The slow-moving percentage of a row lies between 0 and 100. *)
Lemma slow_pct_bounds (k n : Z) :
  (0 <= k <= n)%Z -> (0 < n)%Z ->
  0 <= inject_Z k / inject_Z n * 100 <= 100.
Proof.
  intros Hk Hn.
  assert (Hn' : 0 < inject_Z n)
    by (change 0 with (inject_Z 0); now rewrite <- Zlt_Qlt).
  assert (Hk0 : 0 <= inject_Z k)
    by (change 0 with (inject_Z 0); rewrite <- Zle_Qle; lia).
  assert (Hkn : inject_Z k <= inject_Z n) by (rewrite <- Zle_Qle; lia).
  assert (Hq0 : 0 <= inject_Z k / inject_Z n).
  { apply Qle_shift_div_l; [exact Hn'|]. lra. }
  assert (Hq1 : inject_Z k / inject_Z n <= 1).
  { apply Qle_shift_div_r; [exact Hn'|]. lra. }
  split; lra.
Qed.

Lemma performance_score_le (avg revenue pct : Q) :
  0 <= pct ->
  SupplierPerformance.performance_score_of avg revenue pct <= 100.
Proof.
  intros Hp. unfold SupplierPerformance.performance_score_of.
  pose proof (py_min_le_r (avg * 10) 50).
  pose proof (py_min_le_r (revenue / 10000 * 30) 30).
  assert (py_max (20 - pct / 5) 0 <= 20).
  { apply py_max_le; [|lra].
    assert (E : pct / 5 == (1 # 5) * pct) by field. lra. }
  lra.
Qed.

(** A score of 75 or more needs an average turnover of 2.5 units a day. *)
Lemma performance_score_excellent (avg revenue pct : Q) :
  0 <= pct ->
  75 <= SupplierPerformance.performance_score_of avg revenue pct ->
  5 # 2 <= avg.
Proof.
  intros Hp. unfold SupplierPerformance.performance_score_of.
  pose proof (py_min_le_l (avg * 10) 50).
  pose proof (py_min_le_r (revenue / 10000 * 30) 30).
  assert (py_max (20 - pct / 5) 0 <= 20).
  { apply py_max_le; [|lra].
    assert (E : pct / 5 == (1 # 5) * pct) by field. lra. }
  lra.
Qed.

Lemma rating_of_cases (x : Q) :
  (SupplierPerformance.rating_of x = SupplierPerformance.Excellent
   <-> 75 <= x)
  /\ (SupplierPerformance.rating_of x = SupplierPerformance.Poor
      <-> x < 40).
Proof.
  unfold SupplierPerformance.rating_of.
  destruct (Qle_bool 75 x) eqn:E1;
    [apply Qle_bool_iff in E1|apply Qle_bool_false_iff in E1];
    (destruct (Qle_bool 60 x) eqn:E2;
      [apply Qle_bool_iff in E2|apply Qle_bool_false_iff in E2]);
    (destruct (Qle_bool 40 x) eqn:E3;
      [apply Qle_bool_iff in E3|apply Qle_bool_false_iff in E3]);
    (split; split; intros H;
     first [discriminate H | reflexivity | lra | exfalso; lra]).
Qed.

(** X23.  Every row of the supplier report belongs to an active supplier
    that sold the shop at least one product.  Its slow-moving products
    are among its products in stock, which are among its products
    supplied; the slow-moving percentage lies between 0 and 100 and the
    score never exceeds 100.  A supplier rated Excellent shows a score
    of at least 75 and an average turnover of at least 2.5 units a day,
    whatever its revenue; a supplier rated Poor shows a score of at most
    40. *)
Theorem supplier_row_facts (st : Store) (now : datetime) (metric : string)
    (days_period : Z) (rows : list SupplierPerformance.row)
    (r : SupplierPerformance.row) :
  SupplierPerformance.analyze_supplier_performance st now metric days_period
  = Ok rows ->
  In r rows ->
  (exists s, In s (suppliers st)
             /\ Supplier.is_active s = true
             /\ Supplier.id s = SupplierPerformance.supplier_id r)
  /\ (1 <= SupplierPerformance.products_supplied r)%Z
  /\ (0 <= SupplierPerformance.slow_moving_products r
      <= SupplierPerformance.products_in_stock r)%Z
  /\ (SupplierPerformance.products_in_stock r
      <= SupplierPerformance.products_supplied r)%Z
  /\ 0 <= SupplierPerformance.slow_moving_percentage r <= 100
  /\ SupplierPerformance.performance_score r <= 100
  /\ (SupplierPerformance.rating r = SupplierPerformance.Excellent ->
      75 <= SupplierPerformance.performance_score r
      /\ 5 # 2 <= SupplierPerformance.avg_turnover_rate r)
  /\ (SupplierPerformance.rating r = SupplierPerformance.Poor ->
      SupplierPerformance.performance_score r <= 40).
Proof.
  intros Hrun Hin.
  destruct (supplier_row_origin _ _ _ _ _ _ Hrun Hin) as [s [Hs [Ha Hr]]].
  destruct (supplier_row_of_inv _ _ _ _ _ Hr)
    as [c [avg [pct [Hv [Hne [Eavg [Epct ->]]]]]]].
  cbn [SupplierPerformance.supplier_id SupplierPerformance.products_supplied
       SupplierPerformance.slow_moving_products
       SupplierPerformance.products_in_stock
       SupplierPerformance.slow_moving_percentage
       SupplierPerformance.performance_score
       SupplierPerformance.rating SupplierPerformance.avg_turnover_rate].
  set (purchased := SupplierPerformance.purchased_products (tables st)
                      (Supplier.id s)) in *.
  assert (Hlen : (0 < Z.of_nat (List.length purchased))%Z)
    by (destruct purchased; [congruence|simpl; lia]).
  destruct (visit_all_inv _ _ _ _ _ _ Hv) as [Hslow Hstock];
    [simpl; lia|].
  simpl in Hstock.
  assert (Hpct : 0 <= pct <= 100).
  { rewrite Epct. apply slow_pct_bounds; lia. }
  clearbody purchased. clear Eavg Epct.
  split; [exists s; auto|].
  split; [lia|]. split; [lia|]. split; [lia|].
  split.
  { split.
    - apply py_round_to_nonneg. tauto.
    - apply (py_round_to_le_Z 1 pct 100). tauto. }
  split.
  { apply (py_round_to_le_Z 1 _ 100).
    apply performance_score_le. tauto. }
  split.
  - intros E. apply rating_of_cases in E. split.
    + apply (py_round_to_ge_Z 1 _ 75). exact E.
    + apply performance_score_excellent in E; [|tauto].
      assert (E3 : py_round_to 3 (5 # 2) == 5 # 2) by reflexivity.
      rewrite <- E3. now apply py_round_to_mono.
  - intros E. apply rating_of_cases in E.
    apply (py_round_to_le_Z 1 _ 40). apply Qlt_le_weak. exact E.
Qed.

Lemma supplier_row_facts_witness :
  exists rows r,
    SupplierPerformance.analyze_supplier_performance shop_store noon
      "turnover_rate" 30 = Ok rows
    /\ In r rows
    /\ SupplierPerformance.supplier_id r = 1%Z
    /\ (SupplierPerformance.slow_moving_products r
        <= SupplierPerformance.products_in_stock r)%Z
    /\ SupplierPerformance.performance_score r <= 100.
Proof.
  destruct (SupplierPerformance.analyze_supplier_performance shop_store noon
              "turnover_rate" 30) as [rows|] eqn:E;
    [|vm_compute in E; discriminate E].
  destruct rows as [|r1 rows]; [vm_compute in E; discriminate E|].
  assert (Hin : In r1 (r1 :: rows)) by now left.
  destruct (supplier_row_facts shop_store noon "turnover_rate" 30 _ r1 E Hin)
    as [_ [_ [Hs [_ [_ [Hp _]]]]]].
  exists (r1 :: rows), r1.
  split; [reflexivity|]. split; [exact Hin|].
  split; [vm_compute in E; injection E as <- _; reflexivity|].
  split; [apply Hs|exact Hp].
Defined.

Lemma for_each_keeps {A B} (body : A -> result (option B)) (l : list A)
    (rows : list B) (a : A) (r : B) :
  for_each body l = Ok rows -> In a l -> body a = Ok (Some r) -> In r rows.
Proof.
  revert rows. induction l as [|x l IH]; simpl; intros rows; [intros _ []|].
  destruct (body x) as [o|] eqn:Ex; simpl; [|discriminate].
  destruct (for_each body l) as [rs|]; simpl; [|discriminate].
  intros [= <-] [->|Hin] Hb.
  - rewrite Hb in Ex. injection Ex as <-. now left.
  - specialize (IH rs eq_refl Hin Hb). destruct o; [now right|exact IH].
Qed.

(** The revenue query over the supplier's products reads the sales that
    the per-product queries read. *)
Lemma paid_sales_in_origin (db : Database) (ids : list Z) (cutoff : date)
    (io : SaleOrderItem.t * SaleOrder.t) :
  In io (SupplierPerformance.paid_sales_in db ids cutoff) ->
  In (SaleOrderItem.product_id (fst io)) ids
  /\ In io (paid_sales_since db (SaleOrderItem.product_id (fst io)) cutoff).
Proof.
  unfold SupplierPerformance.paid_sales_in. intros H.
  apply filter_In in H. destruct H as [H Hp].
  apply filter_In in H. destruct H as [H Hd].
  apply in_flat_map in H. destruct H as [it [Hit Hio]].
  apply filter_In in Hit. destruct Hit as [Hit Hid].
  apply in_map_iff in Hio. destruct Hio as [o [<- Ho]].
  simpl in *.
  apply existsb_exists in Hid. destruct Hid as [i [Hi Ei]].
  apply Z.eqb_eq in Ei. subst i.
  split; [exact Hi|].
  unfold paid_sales_since, sales_since, sales_of.
  apply filter_In. split; [|exact Hp].
  apply filter_In. split; [|exact Hd].
  apply in_flat_map. exists it. split.
  - apply filter_In. split; [exact Hit|apply Z.eqb_refl].
  - apply in_map. exact Ho.
Qed.

(** X24.  An active supplier none of whose products had a PAID sale in
    the period is rated Poor: its row shows no revenue, a turnover of 0
    and a score of at most 20, whatever it delivered and whatever the
    period, a period of 0 days included. *)
Theorem supplier_without_sales (st : Store) (now : datetime)
    (metric : string) (days_period : Z) (s : Supplier.t)
    (rows : list SupplierPerformance.row) :
  In s (suppliers st) ->
  Supplier.is_active s = true ->
  SupplierPerformance.purchased_products (tables st) (Supplier.id s) <> [] ->
  (forall p,
      In p (SupplierPerformance.purchased_products (tables st)
              (Supplier.id s)) ->
      paid_sales_since (tables st) (Product.id p)
        (date_of (minus_days now days_period)) = []) ->
  SupplierPerformance.row_of (tables st) now days_period s
  <> ZeroDivisionError
  /\ (SupplierPerformance.analyze_supplier_performance st now metric
        days_period = Ok rows ->
      exists r,
        In r rows
        /\ SupplierPerformance.supplier_id r = Supplier.id s
        /\ SupplierPerformance.total_revenue r == 0
        /\ SupplierPerformance.avg_turnover_rate r == 0
        /\ SupplierPerformance.performance_score r <= 20
        /\ SupplierPerformance.rating r = SupplierPerformance.Poor).
Proof.
  intros Hs Ha Hne Hno.
  set (db := tables st) in *.
  set (cutoff := date_of (minus_days now days_period)) in *.
  set (purchased := SupplierPerformance.purchased_products db (Supplier.id s))
    in *.
  destruct (visit_all_no_sales db now days_period purchased
              (SupplierPerformance.mk_counters [] 0 0) Hno)
    as [c [Hv Hrates]].
  simpl in Hrates.
  assert (Hrev : SupplierPerformance.paid_sales_in db
                   (map Product.id purchased) cutoff = []).
  { destruct (SupplierPerformance.paid_sales_in db _ cutoff)
      as [|io l] eqn:E; [reflexivity|exfalso].
    assert (Hio : In io (SupplierPerformance.paid_sales_in db
                           (map Product.id purchased) cutoff))
      by (rewrite E; now left).
    apply paid_sales_in_origin in Hio. destruct Hio as [Hid Hio].
    apply in_map_iff in Hid. destruct Hid as [p [Ep Hp]].
    rewrite <- Ep, (Hno p Hp) in Hio. exact Hio. }
  destruct (visit_all_inv _ _ _ _ _ _ Hv) as [Hslow Hstock]; [simpl; lia|].
  simpl in Hstock.
  assert (Hlen : (0 < Z.of_nat (List.length purchased))%Z)
    by (destruct purchased; [congruence|simpl; lia]).
  pose proof (slow_pct_bounds (SupplierPerformance.slow_moving_count c)
                (Z.of_nat (List.length purchased))) as Hpct.
  specialize (Hpct ltac:(lia) Hlen).
  set (pct := inject_Z (SupplierPerformance.slow_moving_count c)
              / inject_Z (Z.of_nat (List.length purchased)) * 100) in *.
  assert (Hscore : SupplierPerformance.performance_score_of 0 0 pct <= 20).
  { unfold SupplierPerformance.performance_score_of.
    change (py_min (0 * 10) 50) with 0.
    change (py_min (0 / 10000 * 30) 30) with (0 / 10000 * 30).
    assert (py_max (20 - pct / 5) 0 <= 20).
    { apply py_max_le; [|lra].
      assert (E : pct / 5 == (1 # 5) * pct) by field. lra. }
    assert (E0 : 0 / 10000 * 30 == 0) by reflexivity. lra. }
  assert (Hrow : SupplierPerformance.row_of db now days_period s
                 = Ok (Some
                         (SupplierPerformance.mk_row (Supplier.id s)
                            (Supplier.name s) (Supplier.tax_id s)
                            (Z.of_nat (List.length purchased))
                            (SupplierPerformance.total_purchased_of db
                               (Supplier.id s) cutoff)
                            0 (py_round_to 3 0)
                            (SupplierPerformance.in_stock_count c)
                            (SupplierPerformance.slow_moving_count c)
                            (py_round_to 1 pct)
                            (py_round_to 1
                               (SupplierPerformance.performance_score_of 0 0
                                  pct))
                            (SupplierPerformance.rating_of
                               (SupplierPerformance.performance_score_of 0 0
                                  pct))))).
  { unfold SupplierPerformance.row_of. fold db. fold purchased. fold cutoff.
    destruct purchased as [|p0 l0] eqn:Ep; [congruence|].
    cbv beta iota zeta.
    rewrite Hv. unfold bind. rewrite Hrates, Hrev. reflexivity. }
  split; [rewrite Hrow; discriminate|].
  intros Hrun.
  unfold SupplierPerformance.analyze_supplier_performance in Hrun.
  fold db in Hrun.
  destruct (for_each _ _) as [results|] eqn:E in Hrun; simpl in Hrun;
    [|discriminate Hrun].
  injection Hrun as <-.
  eexists. split.
  { apply sort_results_In.
    apply (for_each_keeps _ _ _ s _ E); [|exact Hrow].
    apply filter_In. auto. }
  cbn [SupplierPerformance.supplier_id SupplierPerformance.total_revenue
       SupplierPerformance.avg_turnover_rate
       SupplierPerformance.performance_score SupplierPerformance.rating].
  split; [reflexivity|]. split; [reflexivity|]. split; [reflexivity|].
  split.
  - apply (py_round_to_le_Z 1 _ 20). exact Hscore.
  - apply rating_of_cases. lra.
Qed.

Lemma supplier_without_sales_witness :
  exists rows r,
    SupplierPerformance.analyze_supplier_performance shop_store noon
      "turnover_rate" 30 = Ok rows
    /\ In r rows
    /\ SupplierPerformance.supplier_id r = 2%Z
    /\ SupplierPerformance.rating r = SupplierPerformance.Poor.
Proof.
  destruct (SupplierPerformance.analyze_supplier_performance shop_store noon
              "turnover_rate" 30) as [rows|] eqn:E;
    [|vm_compute in E; discriminate E].
  destruct (supplier_without_sales shop_store noon "turnover_rate" 30
              (Supplier.mk 2 "South" "T2" true) rows)
    as [_ H].
  - right. left. reflexivity.
  - reflexivity.
  - vm_compute. intros X. discriminate X.
  - intros p Hp. vm_compute in Hp.
    destruct Hp as [<-|[]]. reflexivity.
  - destruct (H E) as [r [Hin [Hid [_ [_ [_ Hpoor]]]]]].
    exists rows, r. split; [reflexivity|]. split; [exact Hin|].
    split; [exact Hid|exact Hpoor].
Defined.

(** ** Recorded losses *)

Lemma sort_by_Zdesc_sorted {A} (k : A -> Z) (l : list A) :
  StronglySorted (fun a b => (k b <= k a)%Z)
    (sort_by (fun y x => (k x <? k y)%Z) l).
Proof.
  apply (StronglySorted_impl (fun a b => (k a <? k b)%Z = false)).
  - intros a b H. apply Z.ltb_ge in H. exact H.
  - apply (sort_by_sorted (fun y x => (k x <? k y)%Z)).
    + intros x y H. apply Z.ltb_lt in H. apply Z.ltb_ge. lia.
    + intros a b c H1 H2. apply Z.ltb_ge in H1, H2. apply Z.ltb_ge. lia.
Qed.

Lemma explicit_losses_origin (db : Database) (cutoff : datetime)
    (loss : StockMovement.t * Product.t) :
  In loss (ExplicitLoss.losses db cutoff) ->
  In (fst loss) (stock_movements db)
  /\ In (snd loss) (products db)
  /\ StockMovement.is_loss (fst loss) = true
  /\ (cutoff <= StockMovement.movement_date (fst loss))%Z
  /\ StockMovement.product_id (fst loss) = Product.id (snd loss).
Proof.
  unfold ExplicitLoss.losses. intros H.
  apply sort_by_In in H. apply in_flat_map in H.
  destruct H as [m [Hm Hl]].
  apply filter_In in Hm. destruct Hm as [Hm Hc].
  apply andb_true_iff in Hc. destruct Hc as [Hloss Hd].
  apply in_map_iff in Hl. destruct Hl as [p [<- Hp]].
  apply filter_In in Hp. destruct Hp as [Hp Ep].
  simpl. apply Z.leb_le in Hd. apply Z.eqb_eq in Ep. auto.
Qed.

Lemma day_us_pos : (0 < day_us)%Z.
Proof. reflexivity. Qed.

(** X25.  Every row of [get_explicit_losses] is a LOSS movement of a
    product of the catalogue.  Its [quantity_lost] is not negative, its
    [loss_value] is 0 when the movement has no unit cost and is not
    negative when the cost is not negative; [days_ago] is at most
    [days_period], and is not negative unless the movement is dated after
    the clock reading.  The rows come newest first: [days_ago] never
    decreases along the list. *)
Theorem explicit_losses_facts (st : Store) (now : datetime)
    (days_period : Z) :
  (forall r,
      In r (ExplicitLoss.get_explicit_losses st now days_period) ->
      (exists m p,
          In m (stock_movements (tables st))
          /\ In p (products (tables st))
          /\ StockMovement.is_loss m = true
          /\ StockMovement.id m = ExplicitLoss.movement_id r
          /\ StockMovement.product_id m = ExplicitLoss.product_id r
          /\ Product.id p = ExplicitLoss.product_id r
          /\ (unit_cost st m = None -> ExplicitLoss.loss_value r == 0)
          /\ (forall c, unit_cost st m = Some c -> 0 <= c ->
                        0 <= ExplicitLoss.loss_value r))
      /\ 0 <= ExplicitLoss.quantity_lost r
      /\ (ExplicitLoss.days_ago r <= days_period)%Z
      /\ ((ExplicitLoss.loss_date r <= now)%Z ->
          (0 <= ExplicitLoss.days_ago r)%Z))
  /\ StronglySorted
       (fun a b => (ExplicitLoss.days_ago a <= ExplicitLoss.days_ago b)%Z)
       (ExplicitLoss.get_explicit_losses st now days_period).
Proof.
  unfold ExplicitLoss.get_explicit_losses. split.
  - intros r Hr. apply in_map_iff in Hr. destruct Hr as [[m p] [<- Hl]].
    apply explicit_losses_origin in Hl. simpl in Hl.
    destruct Hl as [Hm [Hp [Hloss [Hd Eid]]]].
    unfold ExplicitLoss.row_of. simpl.
    split; [|split; [|split]].
    + exists m, p. repeat (split; [now auto|]). split.
      * intros ->. simpl. apply py_round_to_zero. reflexivity.
      * intros c -> Hc. apply py_round_to_nonneg.
        unfold ExplicitLoss.loss_value_of.
        destruct (Qeq_bool c 0); [lra|].
        apply Qmult_le_0_compat; [apply Qabs_nonneg|exact Hc].
    + apply Qabs_nonneg.
    + unfold days_between, minus_days in *.
      apply Z.div_le_upper_bound; [apply day_us_pos|]. lia.
    + intros Hle. unfold days_between.
      apply Z.div_pos; [lia|apply day_us_pos].
  - apply StronglySorted_map.
    unfold ExplicitLoss.row_of. simpl.
    apply (StronglySorted_impl
             (fun a b => (StockMovement.movement_date (fst b)
                          <= StockMovement.movement_date (fst a))%Z)).
    + intros a b H. unfold days_between.
      apply Z.div_le_mono; [apply day_us_pos|lia].
    + apply (sort_by_Zdesc_sorted
               (fun x : StockMovement.t * Product.t =>
                  StockMovement.movement_date (fst x))).
Qed.

(** With the product key, a movement joins at most one product. *)
Lemma key_filter_le (l : list Product.t) (k : Z) :
  NoDup (map Product.id l) ->
  (List.length (filter (fun p => (k =? Product.id p)%Z) l) <= 1)%nat.
Proof.
  induction l as [|p l IH]; simpl; intros Hnd; [lia|].
  inversion Hnd as [|? ? Hnot Hnd']; subst.
  destruct (Z.eqb_spec k (Product.id p)) as [E|N]; [|now apply IH].
  simpl. assert (Hnil : filter (fun q => (k =? Product.id q)%Z) l = []).
  { destruct (filter _ l) as [|q l'] eqn:Ef; [reflexivity|exfalso].
    assert (Hq : In q (filter (fun q => (k =? Product.id q)%Z) l))
      by (rewrite Ef; now left).
    apply filter_In in Hq. destruct Hq as [Hq Eq'].
    apply Z.eqb_eq in Eq'. apply Hnot. rewrite <- E, Eq'.
    now apply in_map. }
  rewrite Hnil. simpl. lia.
Qed.

Lemma key_filter_eq (l : list Product.t) (p : Product.t) :
  NoDup (map Product.id l) -> In p l ->
  List.length (filter (fun q => (Product.id p =? Product.id q)%Z) l) = 1%nat.
Proof.
  intros Hnd Hp.
  pose proof (key_filter_le l (Product.id p) Hnd) as Hle.
  destruct (filter _ l) as [|q l'] eqn:Ef.
  - exfalso.
    assert (Hq : In p (filter (fun q => (Product.id p =? Product.id q)%Z) l))
      by (apply filter_In; split; [exact Hp|apply Z.eqb_refl]).
    rewrite Ef in Hq. exact Hq.
  - simpl in *. lia.
Qed.

(** The rows of the join that belong to one product, counted. *)
Lemma loss_join_count (db : Database) (p : Product.t)
    (ms : list StockMovement.t) :
  product_key db -> In p (products db) ->
  List.length
    (filter (fun l : StockMovement.t * Product.t =>
               (StockMovement.product_id (fst l) =? Product.id p)%Z)
       (flat_map
          (fun m =>
             map (pair m)
               (filter (fun q => (StockMovement.product_id m =? Product.id q)%Z)
                  (products db)))
          ms))
  = List.length
      (filter (fun m => (StockMovement.product_id m =? Product.id p)%Z) ms).
Proof.
  intros Hkey Hp. induction ms as [|m ms IH]; simpl; [reflexivity|].
  rewrite filter_app, length_app, IH.
  destruct (Z.eqb_spec (StockMovement.product_id m) (Product.id p)) as [E|N].
  - rewrite (filter_ext_in _ (fun _ => true)), filter_true, length_map.
    + rewrite E, (key_filter_eq _ _ Hkey Hp). reflexivity.
    + intros [m' q] Hq. apply in_map_iff in Hq.
      destruct Hq as [q' [[= <- <-] _]]. simpl. now apply Z.eqb_eq.
  - rewrite (filter_ext_in _ (fun _ => false)), filter_false; [reflexivity|].
    intros [m' q] Hq. apply in_map_iff in Hq.
    destruct Hq as [q' [[= <- <-] _]]. simpl. now apply Z.eqb_neq.
Qed.

Lemma filter_length_le {A} (f g : A -> bool) (l : list A) :
  (forall a, In a l -> f a = true -> g a = true) ->
  (List.length (filter f l) <= List.length (filter g l))%nat.
Proof.
  induction l as [|a l IH]; simpl; intros H; [lia|].
  assert (IH' := IH (fun x Hx => H x (or_intror Hx))).
  destruct (f a) eqn:Ef.
  - rewrite (H a (or_introl eq_refl) Ef). simpl. lia.
  - destruct (g a); simpl; lia.
Qed.

Lemma filter_map_length {A B} (f : B -> bool) (g : A -> B) (l : list A) :
  List.length (filter f (map g l))
  = List.length (filter (fun x => f (g x)) l).
Proof.
  induction l as [|a l IH]; simpl; [reflexivity|].
  destruct (f (g a)); simpl; rewrite IH; reflexivity.
Qed.

(** X26.  The two loss reports agree on what they count.  On a store
    whose product ids are a key, the rows that [get_explicit_losses]
    lists for a product of the discrepancy report are never more than
    the [loss_movements] that [detect_stock_losses] shows for it, and
    are exactly as many when every LOSS movement of the product falls
    within the period. *)
Theorem explicit_losses_within_report (st : Store) (now : datetime)
    (days_period : Z) (tolerance : Q) (r : Loss.row) :
  product_key (tables st) ->
  In r (Loss.detect_stock_losses (tables st) tolerance) ->
  let listed :=
    Z.of_nat
      (List.length
         (filter (fun e => (ExplicitLoss.product_id e =? Loss.product_id r)%Z)
            (ExplicitLoss.get_explicit_losses st now days_period))) in
  (listed <= Loss.loss_movements r)%Z
  /\ ((forall m,
          In m (movements_of (tables st) (Loss.product_id r)) ->
          StockMovement.is_loss m = true ->
          (minus_days now days_period <= StockMovement.movement_date m)%Z) ->
      listed = Loss.loss_movements r).
Proof.
  intros Hkey Hin.
  destruct (loss_row_origin _ _ _ Hin) as [p [Hp [_ Hrow]]].
  destruct (loss_row_of_inv _ _ _ _ Hrow) as [Eid [_ [_ [_ [Ecount _]]]]].
  intros listed. subst listed. rewrite Ecount, Eid.
  set (db := tables st) in *.
  set (cutoff := minus_days now days_period).
  unfold ExplicitLoss.get_explicit_losses. fold db. fold cutoff.
  assert (Ecnt :
    List.length
      (filter (fun e => (ExplicitLoss.product_id e =? Product.id p)%Z)
         (map (ExplicitLoss.row_of st now) (ExplicitLoss.losses db cutoff)))
    = List.length
        (filter (fun m => (StockMovement.product_id m =? Product.id p)%Z)
           (filter (fun m => StockMovement.is_loss m
                             && (cutoff <=? StockMovement.movement_date m)%Z)
              (stock_movements db)))).
  { rewrite <- (loss_join_count db p _ Hkey Hp).
    rewrite filter_map_length.
    apply filter_perm_length. apply Permutation_sym.
    unfold ExplicitLoss.losses. apply sort_by_perm. }
  rewrite Ecnt. unfold movements_of.
  assert (Eswap : forall (f g : StockMovement.t -> bool) l,
             List.length (filter f (filter g l))
             = List.length (filter (fun m => g m && f m) l)).
  { intros f g l. induction l as [|m l IH]; simpl; [reflexivity|].
    destruct (g m); simpl; [destruct (f m); simpl; rewrite IH|];
      auto. }
  rewrite !Eswap. split.
  - apply Nat2Z.inj_le. apply filter_length_le.
    intros m _ H. apply andb_true_iff in H. destruct H as [H1 H2].
    apply andb_true_iff in H1. destruct H1 as [H1 _].
    now rewrite H1, H2.
  - intros Hall. f_equal. apply Nat.le_antisymm.
    + apply filter_length_le.
      intros m _ H. apply andb_true_iff in H. destruct H as [H1 H2].
      apply andb_true_iff in H1. destruct H1 as [H1 _].
      now rewrite H1, H2.
    + apply filter_length_le.
      intros m Hm H. apply andb_true_iff in H. destruct H as [H1 H2].
      rewrite H1, H2. simpl. rewrite andb_true_r.
      apply Z.leb_le. apply Hall; [|exact H2].
      apply filter_In. split; [exact Hm|exact H1].
Qed.

Lemma explicit_losses_within_report_witness :
  exists r,
    In r (Loss.detect_stock_losses shop_db 5)
    /\ Loss.product_id r = 5%Z
    /\ Loss.loss_movements r = 1%Z
    /\ Z.of_nat
         (List.length
            (filter (fun e => (ExplicitLoss.product_id e =? Loss.product_id r)%Z)
               (ExplicitLoss.get_explicit_losses shop_store noon 90)))
       = Loss.loss_movements r.
Proof.
  destruct (Loss.detect_stock_losses shop_db 5) as [|r1 [|r2 rows]] eqn:E;
    try (vm_compute in E; discriminate E).
  assert (Hin : In r2 (Loss.detect_stock_losses (tables shop_store) 5))
    by (simpl tables; rewrite E; right; now left).
  assert (Eid : Loss.product_id r2 = 5%Z)
    by (vm_compute in E; injection E as _ <- _; reflexivity).
  destruct (explicit_losses_within_report shop_store noon 90 5 r2
              shop_db_key Hin) as [_ Heq].
  exists r2. split; [right; now left|]. split; [exact Eid|].
  split; [vm_compute in E; injection E as _ <- _; reflexivity|].
  apply Heq. rewrite Eid. intros m Hm Hl. vm_compute in Hm.
  destruct Hm as [<-|[<-|[]]]; [discriminate Hl|].
  vm_compute. intros X. discriminate X.
Defined.

(** ** Pending orders *)

(** The items of an order that the summary keeps for a product. *)
Lemma items_rows_length (db : Database) (pid : Z)
    (l : list PurchaseOrderItem.t) (items : list PendingSummary.item_row) :
  PendingSummary.items_rows db (Some pid) l = Some items ->
  List.length items
  = List.length
      (filter (fun it => (PurchaseOrderItem.product_id it =? pid)%Z) l).
Proof.
  revert items. induction l as [|it l IH]; simpl; intros items.
  - intros [= <-]. reflexivity.
  - destruct (PurchaseOrderItem.product_id it =? pid)%Z; simpl.
    + destruct (PendingSummary.product_of db it); [|discriminate].
      destruct (PendingSummary.items_rows db (Some pid) l) as [rest|];
        [|discriminate].
      intros [= <-]. simpl. f_equal. now apply IH.
    + apply IH.
Qed.

Lemma filter_andb {A} (f g : A -> bool) (l : list A) :
  filter (fun x => f x && g x) l = filter g (filter f l).
Proof.
  induction l as [|a l IH]; simpl; [reflexivity|].
  destruct (f a); simpl; [destruct (g a)|]; rewrite IH; reflexivity.
Qed.

(** The pending order lines of a product, order by order. *)
Lemma pending_orders_of_lines (db : Database) (pid : Z) :
  pending_orders_of db pid
  = flat_map
      (fun po =>
         map (pair po)
           (filter (fun it => (PurchaseOrderItem.product_id it =? pid)%Z)
              (PendingSummary.items_of db po)))
      (filter PurchaseOrder.is_pending (purchase_orders db)).
Proof.
  unfold pending_orders_of, PendingSummary.items_of.
  apply flat_map_ext. intros po. f_equal.
  rewrite <- filter_andb. apply filter_ext. intros it.
  now rewrite Z.eqb_sym.
Qed.

(** The rows of the summary for one product, before the sort: one for
    each pending order that has a line of the product. *)
Lemma pending_rows_of_spec (st : Store) (now : datetime) (pid : Z)
    (pos : list PurchaseOrder.t) (rows : list PendingSummary.row) :
  PendingSummary.rows_of st now (Some pid) pos = Some rows ->
  Forall2
    (fun po r =>
       PendingSummary.days_pending r
       = (date_of now - PurchaseOrder.order_date po)%Z
       /\ PendingSummary.is_delayed r
          = (7 <? PendingSummary.days_pending r)%Z
       /\ List.length (PendingSummary.products r)
          = List.length
              (filter (fun it => (PurchaseOrderItem.product_id it =? pid)%Z)
                 (PendingSummary.items_of (tables st) po)))
    (filter
       (fun po =>
          match filter (fun it => (PurchaseOrderItem.product_id it =? pid)%Z)
                  (PendingSummary.items_of (tables st) po) with
          | [] => false
          | _ => true
          end)
       pos)
    rows.
Proof.
  revert rows. induction pos as [|po pos IH]; simpl; intros rows.
  - intros [= <-]. constructor.
  - unfold PendingSummary.row_of.
    destruct (PendingSummary.items_rows (tables st) (Some pid)
                (PendingSummary.items_of (tables st) po))
      as [items|] eqn:Ei; [|discriminate].
    apply items_rows_length in Ei.
    destruct items as [|i items].
    + destruct (PendingSummary.rows_of st now (Some pid) pos) as [rs|];
        [|discriminate].
      intros [= <-].
      destruct (filter _ (PendingSummary.items_of (tables st) po));
        [|discriminate Ei].
      now apply IH.
    + destruct (PendingSummary.supplier_of st po) as [s|]; [|discriminate].
      destruct (PendingSummary.rows_of st now (Some pid) pos) as [rs|];
        [|discriminate].
      intros [= <-].
      destruct (filter _ (PendingSummary.items_of (tables st) po)) eqn:Ef;
        [discriminate Ei|].
      constructor; [|now apply IH].
      cbn [PendingSummary.days_pending PendingSummary.is_delayed
           PendingSummary.products].
      split; [reflexivity|]. split; [reflexivity|].
      rewrite Ef. exact Ei.
Qed.

Lemma Forall2_sum_length {A B C D} (R : A -> B -> Prop)
    (f : A -> list C) (g : B -> list D) (l : list A) (l' : list B) :
  (forall a b, R a b -> List.length (g b) = List.length (f a)) ->
  Forall2 R l l' ->
  List.length (flat_map g l') = List.length (flat_map f l).
Proof.
  intros H. induction 1 as [|a b l l' Hab Hf IH]; simpl; [reflexivity|].
  rewrite !length_app, IH, (H a b Hab). reflexivity.
Qed.

Lemma flat_map_skip_empty {A B} (f : A -> list B) (l : list A) :
  flat_map f (filter (fun a => match f a with [] => false | _ => true end) l)
  = flat_map f l.
Proof.
  induction l as [|a l IH]; simpl; [reflexivity|].
  destruct (f a) eqn:E; simpl; [exact IH|].
  rewrite E, IH. reflexivity.
Qed.

(** The loop of the risk report that looks for the oldest order date. *)
Lemma oldest_order_date_acc
    (q : list (PurchaseOrder.t * PurchaseOrderItem.t)) (o : date) :
  exists d,
    fold_left
      (fun oldest po =>
         let d := PurchaseOrder.order_date (fst po) in
         match oldest with
         | None => Some d
         | Some o => if (d <? o)%Z then Some d else Some o
         end)
      q (Some o) = Some d
    /\ (d <= o)%Z
    /\ (forall x, In x q -> (d <= PurchaseOrder.order_date (fst x))%Z)
    /\ (d = o \/ exists x, In x q /\ PurchaseOrder.order_date (fst x) = d).
Proof.
  revert o. induction q as [|x q IH]; intros o; simpl.
  - exists o. split; [reflexivity|]. split; [lia|].
    split; [intros x []|now left].
  - destruct (Z.ltb_spec (PurchaseOrder.order_date (fst x)) o) as [Hlt|Hge].
    + destruct (IH (PurchaseOrder.order_date (fst x)))
        as [d [E [Hle [Hall Hor]]]].
      exists d. split; [exact E|]. split; [lia|]. split.
      * intros y [<-|Hy]; [exact Hle|now apply Hall].
      * right. destruct Hor as [->|[y [Hy Ey]]].
        -- exists x. split; [now left|reflexivity].
        -- exists y. split; [now right|exact Ey].
    + destruct (IH o) as [d [E [Hle [Hall Hor]]]].
      exists d. split; [exact E|]. split; [exact Hle|]. split.
      * intros y [<-|Hy]; [lia|now apply Hall].
      * destruct Hor as [->|[y [Hy Ey]]]; [now left|].
        right. exists y. split; [now right|exact Ey].
Qed.

Lemma oldest_order_date_spec
    (q : list (PurchaseOrder.t * PurchaseOrderItem.t)) :
  match Risk.oldest_order_date q with
  | None => q = []
  | Some d =>
      (exists x, In x q /\ PurchaseOrder.order_date (fst x) = d)
      /\ forall x, In x q -> (d <= PurchaseOrder.order_date (fst x))%Z
  end.
Proof.
  unfold Risk.oldest_order_date. destruct q as [|x q]; [reflexivity|].
  destruct (oldest_order_date_acc q (PurchaseOrder.order_date (fst x)))
    as [d [E [Hle [Hall Hor]]]].
  cbn [fold_left]. cbv beta iota zeta in E |- *.
  rewrite E. split.
  - destruct Hor as [->|[y [Hy Ey]]].
    + exists x. split; [now left|reflexivity].
    + exists y. split; [now right|exact Ey].
  - intros y [<-|Hy]; [exact Hle|now apply Hall].
Qed.

(** The first row of a list sorted by decreasing [days_pending] carries
    the greatest value. *)
Lemma pending_sort_head (l : list PendingSummary.row) :
  match hd_error
          (sort_by (fun y x => (PendingSummary.days_pending x
                                <? PendingSummary.days_pending y)%Z) l) with
  | None => l = []
  | Some h =>
      In h l
      /\ forall x, In x l ->
                   (PendingSummary.days_pending x
                    <= PendingSummary.days_pending h)%Z
  end.
Proof.
  destruct (hd_error _) as [h|] eqn:E.
  - destruct (sort_by_head
                (fun y x => (PendingSummary.days_pending x
                             <? PendingSummary.days_pending y)%Z)
                (fun r => (- PendingSummary.days_pending r)%Z)
                l h) as [Hin Hmax]; [|exact E|].
    + intros y x. destruct (Z.ltb_spec (PendingSummary.days_pending x)
                              (PendingSummary.days_pending y));
        symmetry; [apply Z.ltb_lt|apply Z.ltb_ge]; lia.
    + split; [exact Hin|]. intros x Hx. specialize (Hmax x Hx). lia.
  - destruct (sort_by _ l) eqn:Es; [|discriminate E].
    now apply sort_by_nil in Es.
Qed.

(** The pending-order figures of the risk report, read off the summary
    of the same product. *)
Lemma pending_info_summary (st : Store) (now : datetime) (pid : Z)
    (forecast stock : Q) (rows : list PendingSummary.row) :
  PendingSummary.get_pending_order_summary st now (Some pid) = Some rows ->
  let info := Risk.pending_info (tables st) now pid forecast stock in
  Risk.count info
  = Z.of_nat (List.length (flat_map PendingSummary.products rows))
  /\ Risk.oldest_order_days info
     = option_map PendingSummary.days_pending (hd_error rows)
  /\ Risk.is_delayed info = existsb PendingSummary.is_delayed rows.
Proof.
  unfold PendingSummary.get_pending_order_summary.
  destruct (PendingSummary.rows_of st now (Some pid) _) as [rows0|] eqn:E;
    [|discriminate].
  intros [= <-].
  pose proof (pending_rows_of_spec _ _ _ _ _ E) as Hf.
  set (lines := fun po =>
         filter (fun it => (PurchaseOrderItem.product_id it =? pid)%Z)
           (PendingSummary.items_of (tables st) po)) in *.
  set (srt := sort_by _ rows0).
  assert (Hperm : Permutation rows0 srt) by apply sort_by_perm.
  assert (Hq : pending_orders_of (tables st) pid
               = flat_map (fun po => map (pair po) (lines po))
                   (filter PurchaseOrder.is_pending
                      (purchase_orders (tables st))))
    by apply pending_orders_of_lines.
  (* the number of lines *)
  assert (Hcount : List.length (flat_map PendingSummary.products srt)
                   = List.length (pending_orders_of (tables st) pid)).
  { rewrite <- (Permutation_length
                  (Permutation_flat_map PendingSummary.products Hperm)).
    rewrite (Forall2_sum_length _ lines PendingSummary.products _ _
               (fun a b H => proj2 (proj2 H)) Hf).
    rewrite Hq.
    change (fun po => match lines po with [] => false | _ => true end)
      with (fun po => match lines po with [] => false | _ :: _ => true end).
    rewrite (flat_map_skip_empty lines).
    rewrite !flat_map_concat_map, !length_concat, !map_map.
    f_equal. apply map_ext. intros po. now rewrite length_map. }
  (* rows and lines stand for the same orders *)
  assert (Hrow_line : forall r, In r srt ->
            exists x, In x (pending_orders_of (tables st) pid)
                      /\ PendingSummary.days_pending r
                         = (date_of now - PurchaseOrder.order_date (fst x))%Z).
  { intros r Hr. apply (Permutation_in _ (Permutation_sym Hperm)) in Hr.
    destruct (Forall2_In_r _ _ _ _ Hf Hr) as [po [Hpo [Ed _]]].
    apply filter_In in Hpo. destruct Hpo as [Hpo Hne].
    cbv beta in Hne. fold (lines po) in Hne.
    destruct (lines po) as [|it its] eqn:El; [discriminate Hne|].
    exists (po, it). split; [|exact Ed].
    rewrite Hq. apply in_flat_map. exists po. split; [exact Hpo|].
    rewrite El. now left. }
  assert (Hline_row : forall x, In x (pending_orders_of (tables st) pid) ->
            exists r, In r srt
                      /\ PendingSummary.days_pending r
                         = (date_of now - PurchaseOrder.order_date (fst x))%Z).
  { intros x Hx. rewrite Hq in Hx. apply in_flat_map in Hx.
    destruct Hx as [po [Hpo Hx]].
    apply in_map_iff in Hx. destruct Hx as [it [<- Hit]].
    assert (Hkept : In po
              (filter (fun po => match lines po with
                                 | [] => false | _ => true end)
                 (filter PurchaseOrder.is_pending
                    (purchase_orders (tables st))))).
    { apply filter_In. split; [exact Hpo|].
      destruct (lines po); [destruct Hit|reflexivity]. }
    destruct (Forall2_In_l _ _ _ _ Hf Hkept) as [r [Hr [Ed _]]].
    exists r. split; [|exact Ed].
    apply (Permutation_in _ Hperm). exact Hr. }
  assert (Hdelayed : forall r, In r srt ->
            PendingSummary.is_delayed r
            = (7 <? PendingSummary.days_pending r)%Z).
  { intros r Hr. apply (Permutation_in _ (Permutation_sym Hperm)) in Hr.
    destruct (Forall2_In_r _ _ _ _ Hf Hr) as [po [_ [_ [Ed _]]]].
    exact Ed. }
  pose proof (pending_sort_head rows0) as Hhead. fold srt in Hhead.
  pose proof (oldest_order_date_spec (pending_orders_of (tables st) pid))
    as Hold.
  cbv zeta. unfold Risk.pending_info.
  destruct (pending_orders_of (tables st) pid) as [|x q] eqn:Eq.
  - (* no pending line: no row *)
    destruct srt as [|r rs] eqn:Es.
    + simpl. auto.
    + destruct (Hrow_line r (or_introl eq_refl)) as [y [[] _]].
  - rewrite <- Eq in *.
    assert (Hne : pending_orders_of (tables st) pid <> [])
      by (rewrite Eq; discriminate).
    destruct (Risk.oldest_order_date (pending_orders_of (tables st) pid))
      as [d|] eqn:Ed; [|contradiction].
    destruct Hold as [[y [Hy Ey]] Hmin].
    destruct (hd_error srt) as [h|] eqn:Eh.
    2:{ exfalso. destruct (Hline_row y Hy) as [r [Hr _]].
        assert (Hnil : srt = []).
        { destruct srt; [reflexivity|discriminate Eh]. }
        rewrite Hnil in Hr. exact Hr. }
    destruct Hhead as [Hh Hmax].
    assert (Hh' : In h srt) by (apply (Permutation_in _ Hperm); exact Hh).
    assert (Edays : PendingSummary.days_pending h = (date_of now - d)%Z).
    { destruct (Hrow_line h Hh') as [z [Hz Ez]].
      destruct (Hline_row y Hy) as [r [Hr Er]].
      apply (Permutation_in _ (Permutation_sym Hperm)) in Hr.
      specialize (Hmax r Hr). specialize (Hmin z Hz). lia. }
    rewrite Eq at 1. rewrite <- Eq.
    cbn [Risk.count Risk.oldest_order_days Risk.is_delayed option_map].
    rewrite Eq at 1. rewrite <- Eq.
    split; [now rewrite Hcount|].
    split; [now rewrite Edays|].
    destruct (Z.ltb_spec 7 (date_of now - d)) as [Hlt|Hge]; symmetry.
    + apply existsb_exists. exists h. split; [exact Hh'|].
      rewrite (Hdelayed h Hh'). apply Z.ltb_lt. lia.
    + destruct (existsb PendingSummary.is_delayed srt) eqn:Ex;
        [exfalso|reflexivity].
      apply existsb_exists in Ex. destruct Ex as [r [Hr Er]].
      rewrite (Hdelayed r Hr) in Er. apply Z.ltb_lt in Er.
      apply (Permutation_in _ (Permutation_sym Hperm)) in Hr.
      specialize (Hmax r Hr). lia.
Qed.

Lemma flat_map_length_ge {A B} (f : A -> list B) (l : list A) :
  Forall (fun a => f a <> []) l ->
  (List.length l <= List.length (flat_map f l))%nat.
Proof.
  induction 1 as [|a l Ha Hl IH]; simpl; [lia|].
  rewrite length_app. destruct (f a); [congruence|simpl; lia].
Qed.

(** Every order listed for a product has a line of that product. *)
Lemma pending_rows_nonempty (st : Store) (now : datetime) (pid : Z)
    (pos : list PurchaseOrder.t) (rows : list PendingSummary.row) :
  PendingSummary.rows_of st now (Some pid) pos = Some rows ->
  Forall (fun r => PendingSummary.products r <> []) rows.
Proof.
  intros E. pose proof (pending_rows_of_spec _ _ _ _ _ E) as Hf.
  apply Forall_forall. intros r Hr.
  destruct (Forall2_In_r _ _ _ _ Hf Hr) as [po [Hpo [_ [_ Hlen]]]].
  apply filter_In in Hpo. destruct Hpo as [_ Hne]. cbv beta in Hne.
  destruct (filter _ (PendingSummary.items_of (tables st) po));
    [discriminate Hne|].
  destruct (PendingSummary.products r); [discriminate Hlen|discriminate].
Qed.

(** X27.  The risk report and the pending-order summary agree.  For a
    product of the risk report whose summary can be built, the report's
    [pending_orders.count] is the number of order lines listed in the
    summary (so at least the number of orders listed),
    [oldest_order_days] is the [days_pending] of the first order of the
    summary, and [is_delayed] holds exactly when the summary lists a
    delayed order. *)
Theorem risk_summary_agree (st : Store) (now : datetime)
    (days_forecast days_history min_days_threshold : Z)
    (risks : list Risk.row) (r : Risk.row)
    (summary : list PendingSummary.row) :
  Risk.detect_imminent_stockout_risk (tables st) now days_forecast
    days_history min_days_threshold = Ok risks ->
  In r risks ->
  PendingSummary.get_pending_order_summary st now (Some (Risk.product_id r))
  = Some summary ->
  Risk.count (Risk.pending_orders r)
  = Z.of_nat (List.length (flat_map PendingSummary.products summary))
  /\ (Z.of_nat (List.length summary) <= Risk.count (Risk.pending_orders r))%Z
  /\ Risk.oldest_order_days (Risk.pending_orders r)
     = option_map PendingSummary.days_pending (hd_error summary)
  /\ Risk.is_delayed (Risk.pending_orders r)
     = existsb PendingSummary.is_delayed summary.
Proof.
  intros Hrun Hin Hsum.
  destruct (risk_row_origin _ _ _ _ _ _ _ Hrun Hin) as [p [_ [_ [_ Hrow]]]].
  destruct (risk_row_of_inv _ _ _ _ _ _ _ Hrow)
    as [avg [_ [_ [_ [Eid [Einfo _]]]]]].
  rewrite Eid in Hsum. rewrite Einfo.
  destruct (pending_info_summary st now (Product.id p)
              (avg * inject_Z days_forecast) (Product.current_stock p)
              summary Hsum) as [Hc [Ho Hd]].
  split; [exact Hc|]. split; [|split; [exact Ho|exact Hd]].
  rewrite Hc. apply Nat2Z.inj_le.
  unfold PendingSummary.get_pending_order_summary in Hsum.
  destruct (PendingSummary.rows_of st now _ _) as [rows0|] eqn:E;
    [|discriminate Hsum].
  injection Hsum as <-.
  apply flat_map_length_ge.
  apply (Permutation_Forall (sort_by_perm _ rows0)).
  apply (pending_rows_nonempty _ _ _ _ _ E).
Qed.

Lemma risk_summary_agree_witness :
  exists risks r summary,
    Risk.detect_imminent_stockout_risk (tables shop_store) noon 30 90 7
    = Ok risks
    /\ In r risks
    /\ Risk.product_id r = 4%Z
    /\ PendingSummary.get_pending_order_summary shop_store noon (Some 4%Z)
       = Some summary
    /\ Risk.is_delayed (Risk.pending_orders r) = true
    /\ existsb PendingSummary.is_delayed summary = true.
Proof.
  destruct (Risk.detect_imminent_stockout_risk (tables shop_store) noon
              30 90 7) as [risks|] eqn:E; [|vm_compute in E; discriminate E].
  destruct risks as [|r1 [|r2 risks]]; try (vm_compute in E; discriminate E).
  assert (Hin : In r2 (r1 :: r2 :: risks)) by (right; now left).
  assert (Eid : Risk.product_id r2 = 4%Z)
    by (vm_compute in E; injection E as _ <- _; reflexivity).
  destruct (PendingSummary.get_pending_order_summary shop_store noon
              (Some (Risk.product_id r2))) as [summary|] eqn:Es;
    [|rewrite Eid in Es; vm_compute in Es; discriminate Es].
  destruct (risk_summary_agree shop_store noon 30 90 7 _ r2 summary E Hin Es)
    as [_ [_ [_ Hd]]].
  assert (Ed : Risk.is_delayed (Risk.pending_orders r2) = true)
    by (vm_compute in E; injection E as _ <- _; reflexivity).
  exists (r1 :: r2 :: risks), r2, summary.
  split; [reflexivity|]. split; [exact Hin|]. split; [exact Eid|].
  split; [rewrite <- Eid; exact Es|].
  split; [exact Ed|]. rewrite <- Hd. exact Ed.
Defined.

(** ** Suggestions by supplier *)



Lemma sort_by_Qdesc_sorted {A} (k : A -> Q) (l : list A) :
  StronglySorted (fun a b => k b <= k a)
    (sort_by (fun y x => Qlt_bool (k x) (k y)) l).
Proof.
  apply (StronglySorted_impl (fun a b => Qlt_bool (k a) (k b) = false)).
  - intros a b H. apply Qlt_bool_false_iff in H. exact H.
  - apply (sort_by_sorted (fun y x => Qlt_bool (k x) (k y))).
    + intros x y H. apply Qlt_bool_iff in H. apply Qlt_bool_false_iff. lra.
    + intros a b c H1 H2. apply Qlt_bool_false_iff in H1, H2.
      apply Qlt_bool_false_iff. lra.
Qed.








(** A HIGH suggestion that no group carries: product 2 of the shop was
    never ordered from a supplier. *)
Example unordered_product_is_dropped :
  exists suggestions groups s,
    Purchase.suggest_purchase_order (tables shop_store) noon 30 90 100
    = Ok suggestions
    /\ SupplierGroups.group_suggestions_by_supplier shop_store noon
       = Ok groups
    /\ In s suggestions
    /\ Purchase.priority s = Purchase.HIGH
    /\ ~ In (Purchase.product_id s)
         (map SupplierGroups.product_id
            (flat_map SupplierGroups.products groups)).
Proof.
  eexists _, _, _.
  split; [vm_compute; reflexivity|].
  split; [vm_compute; reflexivity|].
  split; [right; left; reflexivity|].
  split; [reflexivity|].
  simpl. intros [H|[H|[]]]; discriminate H.
Qed.

(** ** Purchase-to-sale time *)

Lemma hd_error_In {A} (l : list A) (x : A) : hd_error l = Some x -> In x l.
Proof. destruct l; [discriminate|]. intros [= <-]. now left. Qed.

(** The first sale found for a purchase is a PAID sale of the product,
    on or after the purchase date. *)
Lemma first_sale_after (db : Database) (pid : Z) (purchase_date s : date) :
  PurchaseToSale.first_sale db pid purchase_date = Some s ->
  (purchase_date <= s)%Z.
Proof.
  unfold PurchaseToSale.first_sale. intros H.
  apply hd_error_In in H. apply sort_by_In in H.
  apply in_map_iff in H. destruct H as [io [<- Hio]].
  unfold paid_sales_since, sales_since in Hio.
  apply filter_In in Hio. destruct Hio as [Hio _].
  apply filter_In in Hio. destruct Hio as [_ Hd].
  now apply Z.leb_le.
Qed.

(** The two accumulators of the loop over the purchases. *)
Lemma purchase_walk_acc (db : Database) (pid : Z) (l : list date)
    (acc : list Z * Z) :
  fold_left
    (fun acc purchase_date =>
       match PurchaseToSale.first_sale db pid purchase_date with
       | Some sale_date =>
           (fst acc ++ [(sale_date - purchase_date)%Z], snd acc)
       | None => (fst acc, (snd acc + 1)%Z)
       end)
    l acc
  = (fst acc
     ++ flat_map
          (fun pd => match PurchaseToSale.first_sale db pid pd with
                     | Some s => [(s - pd)%Z]
                     | None => []
                     end)
          l,
     (snd acc
      + Z.of_nat
          (List.length
             (filter (fun pd => match PurchaseToSale.first_sale db pid pd with
                                | Some _ => false
                                | None => true
                                end)
                l)))%Z).
Proof.
  revert acc. induction l as [|pd l IH]; intros [ds n]; simpl.
  - rewrite app_nil_r. f_equal. lia.
  - rewrite IH.
    destruct (PurchaseToSale.first_sale db pid pd); simpl.
    + rewrite <- app_assoc. reflexivity.
    + f_equal. lia.
Qed.

Lemma purchase_walk_facts (db : Database) (pid : Z) (l : list date) :
  let (ds, n) := PurchaseToSale.walk db pid l in
  Forall (fun d => (0 <= d)%Z) ds
  /\ (0 <= n)%Z
  /\ (Z.of_nat (List.length ds) + n = Z.of_nat (List.length l))%Z.
Proof.
  unfold PurchaseToSale.walk. rewrite purchase_walk_acc. simpl.
  split; [|split; [lia|]].
  - apply Forall_forall. intros d Hd. apply in_flat_map in Hd.
    destruct Hd as [pd [_ Hd]].
    destruct (PurchaseToSale.first_sale db pid pd) as [s|] eqn:E;
      [|destruct Hd].
    destruct Hd as [<-|[]]. apply first_sale_after in E. lia.
  - rewrite <- Nat2Z.inj_add. f_equal.
    induction l as [|pd l IH]; [reflexivity|].
    cbn [flat_map filter].
    destruct (PurchaseToSale.first_sale db pid pd);
      cbn [List.length app]; lia.
Qed.

Lemma list_min_spec (l : list Z) (x : Z) :
  (PurchaseToSale.list_min x l <= x)%Z
  /\ Forall (fun d => (PurchaseToSale.list_min x l <= d)%Z) l
  /\ In (PurchaseToSale.list_min x l) (x :: l).
Proof.
  unfold PurchaseToSale.list_min.
  revert x. induction l as [|a l IH]; intros x; cbn [fold_left].
  - split; [lia|]. split; [constructor|now left].
  - destruct (IH (Z.min x a)) as [H1 [H2 H3]].
    split; [lia|]. split; [constructor; [lia|exact H2]|].
    destruct H3 as [H3|H3]; [|right; now right].
    destruct (Z.min_spec x a) as [[_ E]|[_ E]]; rewrite E in H3 |- *;
      [now left|right; now left].
Qed.

Lemma list_max_spec (l : list Z) (x : Z) :
  (x <= PurchaseToSale.list_max x l)%Z
  /\ Forall (fun d => (d <= PurchaseToSale.list_max x l)%Z) l
  /\ In (PurchaseToSale.list_max x l) (x :: l).
Proof.
  unfold PurchaseToSale.list_max.
  revert x. induction l as [|a l IH]; intros x; cbn [fold_left].
  - split; [lia|]. split; [constructor|now left].
  - destruct (IH (Z.max x a)) as [H1 [H2 H3]].
    split; [lia|]. split; [constructor; [lia|exact H2]|].
    destruct H3 as [H3|H3]; [|right; now right].
    destruct (Z.max_spec x a) as [[_ E]|[_ E]]; rewrite E in H3 |- *;
      [right; now left|now left].
Qed.

Lemma sum_acc (l : list Z) (a : Z) :
  fold_left Z.add l a = (a + fold_left Z.add l 0)%Z.
Proof.
  revert a. induction l as [|x l IH]; intros a; simpl; [lia|].
  rewrite (IH (a + x)%Z), (IH x). lia.
Qed.

Lemma sum_bounds (l : list Z) (lo hi : Z) :
  Forall (fun d => (lo <= d <= hi)%Z) l ->
  (Z.of_nat (List.length l) * lo <= fold_left Z.add l 0
   <= Z.of_nat (List.length l) * hi)%Z.
Proof.
  induction 1 as [|x l Hx Hl IH]; [simpl; lia|].
  cbn [fold_left List.length]. rewrite sum_acc. lia.
Qed.

(** The mean of a list that is not empty lies between its least and its
    greatest element. *)
Lemma mean_bounds (l : list Z) (lo hi : Z) :
  l <> [] ->
  Forall (fun d => (lo <= d <= hi)%Z) l ->
  inject_Z lo
  <= inject_Z (fold_left Z.add l 0%Z) / inject_Z (Z.of_nat (List.length l))
  <= inject_Z hi.
Proof.
  intros Hne Hall. pose proof (sum_bounds l lo hi Hall) as [H1 H2].
  assert (Hn : (0 < Z.of_nat (List.length l))%Z)
    by (destruct l; [congruence|simpl; lia]).
  assert (Hn' : 0 < inject_Z (Z.of_nat (List.length l)))
    by (change 0 with (inject_Z 0); now rewrite <- Zlt_Qlt).
  split.
  - apply Qle_shift_div_l; [exact Hn'|].
    rewrite <- inject_Z_mult, <- Zle_Qle. lia.
  - apply Qle_shift_div_r; [exact Hn'|].
    rewrite <- inject_Z_mult, <- Zle_Qle. lia.
Qed.

Lemma turnover_rating_cases (x : Q) :
  (PurchaseToSale.rating_of x = PurchaseToSale.FAST <-> x <= 7)
  /\ (PurchaseToSale.rating_of x = PurchaseToSale.MEDIUM <-> 7 < x <= 21)
  /\ (PurchaseToSale.rating_of x = PurchaseToSale.SLOW <-> 21 < x).
Proof.
  unfold PurchaseToSale.rating_of.
  destruct (Qle_bool x 7) eqn:E1;
    [apply Qle_bool_iff in E1|apply Qle_bool_false_iff in E1];
    (destruct (Qle_bool x 21) eqn:E2;
      [apply Qle_bool_iff in E2|apply Qle_bool_false_iff in E2]);
    (split; [|split]; split; intros H;
     first [discriminate H | reflexivity | lra | exfalso; lra
           | split; lra]).
Qed.

(** The row built for a product id, with the intermediate values of the
    loop body. *)
Lemma purchase_to_sale_row_inv (st : Store) (cutoff : date)
    (min_purchases pid : Z) (r : PurchaseToSale.row) :
  PurchaseToSale.row_of st cutoff min_purchases pid = Some r ->
  exists p d ds n,
    In p (products (tables st))
    /\ Product.id p = pid
    /\ (min_purchases
        <= Z.of_nat (List.length (PurchaseToSale.purchases st pid cutoff)))%Z
    /\ PurchaseToSale.walk (tables st) pid
         (PurchaseToSale.purchases st pid cutoff) = (d :: ds, n)
    /\ r = PurchaseToSale.mk_row (Product.id p) (Product.sku p)
             (Product.name p) (category_or_na (Product.category p))
             (Z.of_nat (List.length (PurchaseToSale.purchases st pid cutoff)))
             (py_round_to 1
                (inject_Z (fold_left Z.add (d :: ds) 0%Z)
                 / inject_Z (Z.of_nat (List.length (d :: ds)))))
             (PurchaseToSale.list_min d ds) (PurchaseToSale.list_max d ds)
             n (Product.current_stock p)
             (PurchaseToSale.rating_of
                (inject_Z (fold_left Z.add (d :: ds) 0%Z)
                 / inject_Z (Z.of_nat (List.length (d :: ds))))).
Proof.
  unfold PurchaseToSale.row_of.
  destruct (find _ (products (tables st))) as [p|] eqn:Ef; [|discriminate].
  apply find_some in Ef. destruct Ef as [Hp Ep]. apply Z.eqb_eq in Ep.
  destruct (Z.ltb_spec
              (Z.of_nat (List.length (PurchaseToSale.purchases st pid cutoff)))
              min_purchases) as [Hlt|Hge]; [discriminate|].
  destruct (PurchaseToSale.walk (tables st) pid _) as [[|d ds] n] eqn:Ew;
    [discriminate|].
  intros [= <-]. exists p, d, ds, n. auto.
Qed.

(** X29.  Every row of [analyze_purchase_to_sale_time] belongs to a
    product of the catalogue with at least [min_purchases] dated
    receipts, of which at least one was followed by a PAID sale:
    [still_unsold_count] is below [purchases_count].  The days to sale
    are never negative, [min_days_to_sale <= avg_days_to_sale <=
    max_days_to_sale], and the rating is FAST only for an average of at
    most 7 days, MEDIUM between 7 and 21, SLOW from 21 on.  The rows come
    slowest first. *)
Theorem purchase_to_sale_facts (st : Store) (now : datetime)
    (days_period min_purchases : Z) :
  (forall r,
      In r (PurchaseToSale.analyze_purchase_to_sale_time st now days_period
              min_purchases) ->
      (exists p, In p (products (tables st))
                 /\ Product.id p = PurchaseToSale.product_id r)
      /\ (0 <= PurchaseToSale.min_days_to_sale r
          <= PurchaseToSale.max_days_to_sale r)%Z
      /\ inject_Z (PurchaseToSale.min_days_to_sale r)
         <= PurchaseToSale.avg_days_to_sale r
         <= inject_Z (PurchaseToSale.max_days_to_sale r)
      /\ (0 <= PurchaseToSale.still_unsold_count r
          < PurchaseToSale.purchases_count r)%Z
      /\ (min_purchases <= PurchaseToSale.purchases_count r)%Z
      /\ (PurchaseToSale.turnover_rating r = PurchaseToSale.FAST ->
          PurchaseToSale.avg_days_to_sale r <= 7)
      /\ (PurchaseToSale.turnover_rating r = PurchaseToSale.MEDIUM ->
          7 <= PurchaseToSale.avg_days_to_sale r <= 21)
      /\ (PurchaseToSale.turnover_rating r = PurchaseToSale.SLOW ->
          21 <= PurchaseToSale.avg_days_to_sale r))
  /\ StronglySorted
       (fun a b => PurchaseToSale.avg_days_to_sale b
                   <= PurchaseToSale.avg_days_to_sale a)
       (PurchaseToSale.analyze_purchase_to_sale_time st now days_period
          min_purchases).
Proof.
  unfold PurchaseToSale.analyze_purchase_to_sale_time. split.
  2:{ apply (sort_by_Qdesc_sorted PurchaseToSale.avg_days_to_sale). }
  intros r Hr. apply sort_by_In in Hr. apply in_flat_map in Hr.
  destruct Hr as [pid [_ Hr]].
  destruct (PurchaseToSale.row_of st _ min_purchases pid) as [r'|] eqn:E;
    [|destruct Hr].
  destruct Hr as [<-|[]].
  destruct (purchase_to_sale_row_inv _ _ _ _ _ E)
    as [p [d [ds [n [Hp [Ep [Hmin [Ew ->]]]]]]]].
  pose proof (purchase_walk_facts (tables st) pid
                (PurchaseToSale.purchases st pid
                   (date_of (minus_days now days_period)))) as Hw.
  rewrite Ew in Hw. destruct Hw as [Hpos [Hn Hlen]].
  destruct (list_min_spec ds d) as [Hmin1 [Hmin2 Hmin3]].
  destruct (list_max_spec ds d) as [Hmax1 [Hmax2 Hmax3]].
  set (lo := PurchaseToSale.list_min d ds) in *.
  set (hi := PurchaseToSale.list_max d ds) in *.
  assert (Hlo : (0 <= lo)%Z).
  { rewrite Forall_forall in Hpos. apply Hpos. exact Hmin3. }
  assert (Hall : Forall (fun x => (lo <= x <= hi)%Z) (d :: ds)).
  { constructor; [lia|].
    rewrite Forall_forall in *. intros x Hx.
    specialize (Hmin2 x Hx). specialize (Hmax2 x Hx). lia. }
  pose proof (mean_bounds (d :: ds) lo hi ltac:(discriminate) Hall) as Havg.
  set (avg := inject_Z (fold_left Z.add (d :: ds) 0%Z)
              / inject_Z (Z.of_nat (List.length (d :: ds)))) in *.
  cbn [PurchaseToSale.product_id PurchaseToSale.min_days_to_sale
       PurchaseToSale.max_days_to_sale PurchaseToSale.avg_days_to_sale
       PurchaseToSale.still_unsold_count PurchaseToSale.purchases_count
       PurchaseToSale.turnover_rating].
  split; [exists p; auto|].
  split; [lia|].
  split; [split; [apply py_round_to_ge_Z|apply py_round_to_le_Z]; tauto|].
  split; [simpl List.length in Hlen; lia|].
  split; [exact Hmin|].
  pose proof (turnover_rating_cases avg) as [Hf [Hm Hs]].
  split; [|split].
  - intros H. apply Hf in H. now apply (py_round_to_le_Z 1 avg 7).
  - intros H. apply Hm in H. split.
    + apply (py_round_to_ge_Z 1 avg 7). apply Qlt_le_weak. tauto.
    + apply (py_round_to_le_Z 1 avg 21). tauto.
  - intros H. apply Hs in H. apply (py_round_to_ge_Z 1 avg 21).
    now apply Qlt_le_weak.
Qed.

Lemma purchase_to_sale_facts_witness :
  exists r,
    In r (PurchaseToSale.analyze_purchase_to_sale_time turnover_store noon
            365 1)
    /\ PurchaseToSale.product_id r = 1%Z
    /\ PurchaseToSale.purchases_count r = 3%Z
    /\ (PurchaseToSale.still_unsold_count r
        < PurchaseToSale.purchases_count r)%Z
    /\ inject_Z (PurchaseToSale.min_days_to_sale r)
       <= PurchaseToSale.avg_days_to_sale r.
Proof.
  destruct (PurchaseToSale.analyze_purchase_to_sale_time turnover_store noon
              365 1) as [|r1 rows] eqn:E; [vm_compute in E; discriminate E|].
  assert (Hin : In r1 (PurchaseToSale.analyze_purchase_to_sale_time
                         turnover_store noon 365 1))
    by (rewrite E; left; reflexivity).
  destruct (proj1 (purchase_to_sale_facts turnover_store noon 365 1) r1 Hin)
    as [_ [_ [Havg [Hunsold _]]]].
  exists r1. split; [left; reflexivity|].
  split; [vm_compute in E; injection E as <- _; reflexivity|].
  split; [vm_compute in E; injection E as <- _; reflexivity|].
  split; [apply Hunsold|apply Havg].
Defined.

(** ** Top-selling products *)






Lemma explicit_losses_facts_witness :
  exists r,
    In r (ExplicitLoss.get_explicit_losses shop_store noon 90)
    /\ ExplicitLoss.movement_id r = 6%Z
    /\ 0 <= ExplicitLoss.quantity_lost r
    /\ (ExplicitLoss.days_ago r <= 90)%Z.
Proof.
  destruct (ExplicitLoss.get_explicit_losses shop_store noon 90)
    as [|r rows] eqn:E; [vm_compute in E; discriminate E|].
  assert (Hin : In r (ExplicitLoss.get_explicit_losses shop_store noon 90))
    by (rewrite E; left; reflexivity).
  destruct (proj1 (explicit_losses_facts shop_store noon 90) r Hin)
    as [_ [Hq [Hd _]]].
  exists r. split; [left; reflexivity|].
  split; [vm_compute in E; injection E as <- _; reflexivity|].
  split; [exact Hq|exact Hd].
Defined.
